(** * Ocean Sentinel: the vessel motion tick of [useRealTimeData]

    A shallow embedding of [updateVesselPositions] (hooks/useRealTimeData)
    and of the types it works on (types/index.ts: [Vessel], [RoutePoint],
    [Mission], [PlasticHotspot]).

    Modelling conventions.
    - A JavaScript [number] is a real number: the arithmetic of the tick is
      read without rounding, NaN or infinities.  [Math.sin], [Math.cos],
      [Math.asin], [Math.sqrt] are the functions of the Reals library;
      [Math.atan2], [Math.hypot], [Math.round] are defined below from their
      ECMAScript descriptions.
    - [Math.random()] reads the next element of a stream [rnd : nat -> R];
      the position in the stream is threaded through the tick.
    - Dereferencing [undefined] raises a [TypeError]: the tick runs in a
      state-and-exception monad.
    - Objects are records; the waypoint objects of a plan are created by
      the tick itself, one object per array slot, so the in-place update
      [targetPlan.completed = true] is an update of one slot of the plan.
    - [console.log] calls are dropped. *)

From Stdlib Require Import Reals Lra ZArith.
From stdpp Require Import base decidable option list sorting gmap strings pretty.

Local Open Scope R_scope.

(** ** Types (types/index.ts) *)

Inductive VesselType := drone | ship | autonomous.
Inductive VesselStatus := active | idle | maintenance | returning.
Inductive MissionStatus := m_planning | m_active | m_completed | m_paused.
Inductive Severity := low | medium | high | critical.

#[global] Instance VesselStatus_eq_dec : EqDecision VesselStatus.
Proof. solve_decision. Defined.
#[global] Instance MissionStatus_eq_dec : EqDecision MissionStatus.
Proof. solve_decision. Defined.

(** A [Date] is its time value in milliseconds. *)
Definition Date := Z.

Module RoutePoint.
Record t := mk {
  lat : R;
  lng : R;
  eta : option Date;
  completed : option bool
}.
End RoutePoint.

(** The element type of the dynamically attached [plan] field:
    [{ lat:number; lng:number; completed?: boolean }]. *)
Module Waypoint.
Record t := mk {
  lat : R;
  lng : R;
  completed : option bool
}.
End Waypoint.

Module Vessel.
Record t := mk {
  id : string;
  name : string;
  type : VesselType;
  lat : R;
  lng : R;
  status : VesselStatus;
  battery : R;
  plasticCollected : R;
  route : list RoutePoint.t;
  currentTarget : option string;
  speed : R;
  (* not in the interface: attached by the tick through an object spread *)
  plan : option (list Waypoint.t)
}.
End Vessel.

Module Mission.
Record t := mk {
  id : string;
  name : string;
  status : MissionStatus;
  vessels : list string;
  targets : list string;
  startDate : Date;
  estimatedCompletion : Date;
  plasticTarget : R;
  plasticCollected : R;
  efficiency : R
}.
End Mission.

Module NasaMetadata.
Record t := mk {
  mgrs : string;
  utm : string * R * R;
  confidence : R;
  algorithm : string;
  satellites : list string;
  missionGrade : bool
}.
End NasaMetadata.

Module PlasticHotspot.
Record t := mk {
  id : string;
  lat : R;
  lng : R;
  concentration : R;
  severity : Severity;
  area : R;
  detectedAt : Date;
  nasaMetadata : option NasaMetadata.t
}.
End PlasticHotspot.

(** The React state the tick reads and writes. *)
Record World := mkWorld {
  plasticHotspots : list PlasticHotspot.t;
  vessels : list Vessel.t;
  missions : list Mission.t
}.

(** ** JavaScript library functions *)

(** [Math.atan2(y, x)]. *)
Definition Math_atan2 (y x : R) : R :=
  if Rlt_dec 0 x then atan (y / x)
  else if Rlt_dec x 0 then
    (if Rle_dec 0 y then atan (y / x) + PI else atan (y / x) - PI)
  else if Rlt_dec 0 y then PI / 2
  else if Rlt_dec y 0 then - (PI / 2)
  else 0.

(** [Math.hypot(a, b)]. *)
Definition Math_hypot (a b : R) : R := sqrt (a * a + b * b).

(** [Math.round(x)]: the integer nearest to [x], ties towards +infinity. *)
Definition Math_round (x : R) : R := IZR (Int_part (x + / 2)).

(** [a || b] on numbers: [0] is the falsy one. *)
Definition num_or (a b : R) : R := if Req_dec_T a 0 then b else a.

(** [!p.completed]: an absent flag is falsy. *)
Definition truthy (b : option bool) : bool := default false b.

(** [Array.prototype.sort(cmp)]: a stable sort; [x] goes before the first
    [y] that does not compare below it. *)
Section Sort.
Context {A : Type} (cmp : A -> A -> R).

Fixpoint sort_insert (x : A) (l : list A) : list A :=
  match l with
  | [] => [x]
  | y :: l' => if Rle_dec (cmp x y) 0 then x :: y :: l'
               else y :: sort_insert x l'
  end.

Definition Array_sort (l : list A) : list A := foldr sort_insert [] l.
End Sort.

(** [arr.slice(-n)]: the last [n] elements. *)
Definition slice_last {A} (n : nat) (l : list A) : list A :=
  drop (length l - n) l.

(** ** The tick monad: a position in the random stream, and [TypeError] *)

Inductive result (A : Type) :=
| Ok (a : A) (k : nat)
| TypeError.
Arguments Ok {A} a k.
Arguments TypeError {A}.

Definition M (A : Type) := nat -> result A.

Definition ret {A} (a : A) : M A := fun k => Ok a k.
Definition bind {A B} (m : M A) (f : A -> M B) : M B :=
  fun k => match m k with
           | Ok a k' => f a k'
           | TypeError => TypeError
           end.
Definition throw {A} : M A := fun _ => TypeError.

Notation "x <- m ;; f" := (bind m (fun x => f))
  (at level 100, m at next level, right associativity).

Fixpoint mapM {A B} (f : A -> M B) (l : list A) : M (list B) :=
  match l with
  | [] => ret []
  | a :: l' => b <- f a ;; bs <- mapM f l' ;; ret (b :: bs)
  end.

(** ** updateVesselPositions *)

Section Tick.
(** The stream behind [Math.random()]. *)
Variable rnd : nat -> R.

Definition Math_random : M R := fun k => Ok (rnd k) (S k).

Definition toRad (x : R) : R := (x * PI) / 180.
Definition toDeg (x : R) : R := (x * 180) / PI.

(** The ids of the vessels of the missions whose status is 'active'. *)
Definition activeAssigned (ms : list Mission.t) : gset string :=
  foldl (fun acc m =>
           if decide (Mission.status m = m_active)
           then foldl (fun acc vid => acc ∪ {[ vid ]}) acc (Mission.vessels m)
           else acc) ∅ ms.

Definition incomplete (p : Waypoint.t) : bool :=
  negb (truthy (Waypoint.completed p)).

(** The up to 3 hotspots nearest to [(lat, lng)], as fresh waypoints. *)
Definition nearest (hs : list PlasticHotspot.t) (lat lng : R)
  : list Waypoint.t :=
  (fun x : PlasticHotspot.t * R =>
     Waypoint.mk (PlasticHotspot.lat x.1) (PlasticHotspot.lng x.1) (Some false))
  <$> take 3
        (Array_sort (fun a b => a.2 - b.2)
           ((fun h => (h, Math_hypot (PlasticHotspot.lat h - lat)
                                    (PlasticHotspot.lng h - lng))) <$> hs)).

Definition nextPlan (hs : list PlasticHotspot.t) (vessel : Vessel.t)
  : list Waypoint.t :=
  let plan := default [] (Vessel.plan vessel) in
  if (length (filter (fun p => incomplete p = true) plan) =? 0)%nat then
    let nearest := nearest hs (Vessel.lat vessel) (Vessel.lng vessel) in
    if (0 <? length nearest)%nat then nearest
    else [Waypoint.mk (Vessel.lat vessel) (Vessel.lng vessel) (Some false)]
  else plan.

(** [nextPlan.find(p => !p.completed) ?? nextPlan[nextPlan.length - 1]],
    with the slot the object sits in. *)
Definition target (nextPlan : list Waypoint.t) : option (nat * Waypoint.t) :=
  match list_find (fun p => incomplete p = true) nextPlan with
  | Some r => Some r
  | None =>
      match nextPlan with
      | [] => None
      | _ => (fun p => ((length nextPlan - 1)%nat, p))
               <$> nextPlan !! (length nextPlan - 1)%nat
      end
  end.

Definition metersPerSec (vessel : Vessel.t) : R :=
  Rmax 0.1 (Vessel.speed vessel * 0.514444).
Definition seconds : R := 5.
Definition meters (vessel : Vessel.t) : R := metersPerSec vessel * seconds.
Definition degLatPerMeter : R := 1 / 111000.
Definition degLngPerMeter (baseLat : R) : R :=
  1 / (111000 * cos (num_or (toRad baseLat) 1e-6)).

(** Bearing from [(baseLat, baseLng)] to [(tlat, tlng)], in radians. *)
Definition bearing (baseLat baseLng tlat tlng : R) : R :=
  let dLng := toRad (tlng - baseLng) in
  let y := sin dLng * cos (toRad tlat) in
  let x := cos (toRad baseLat) * sin (toRad tlat)
           - sin (toRad baseLat) * cos (toRad tlat) * cos dLng in
  Math_atan2 y x.

Definition stepLat (vessel : Vessel.t) (t : Waypoint.t) : R :=
  cos (bearing (Vessel.lat vessel) (Vessel.lng vessel)
         (Waypoint.lat t) (Waypoint.lng t))
  * meters vessel * degLatPerMeter.
Definition stepLng (vessel : Vessel.t) (t : Waypoint.t) : R :=
  sin (bearing (Vessel.lat vessel) (Vessel.lng vessel)
         (Waypoint.lat t) (Waypoint.lng t))
  * meters vessel * degLngPerMeter (Vessel.lat vessel).

Definition newLat (vessel : Vessel.t) (t : Waypoint.t) : R :=
  Vessel.lat vessel + stepLat vessel t.
Definition newLng (vessel : Vessel.t) (t : Waypoint.t) : R :=
  Vessel.lng vessel + stepLng vessel t.

(** The arrow function bound to [dKm]: haversine distance in meters. *)
Definition haversine (lat1 lng1 lat2 lng2 : R) : R :=
  let R0 := 6371000 in
  let dphi := toRad (lat2 - lat1) in
  let dlmb := toRad (lng2 - lng1) in
  let a := sin (dphi / 2) ^ 2
           + cos (toRad lat1) * cos (toRad lat2) * sin (dlmb / 2) ^ 2 in
  2 * R0 * asin (Rmin 1 (sqrt a)).

Definition dKm (vessel : Vessel.t) (t : Waypoint.t) : R :=
  haversine (newLat vessel t) (newLng vessel t)
    (Waypoint.lat t) (Waypoint.lng t).

Definition set_completed (p : Waypoint.t) : Waypoint.t :=
  Waypoint.mk (Waypoint.lat p) (Waypoint.lng p) (Some true).

(** The plan after the arrival test: slot [i] holds the target. *)
Definition arrive (vessel : Vessel.t) (i : nat) (t : Waypoint.t)
    (nextPlan : list Waypoint.t) : list Waypoint.t :=
  if Rlt_dec (dKm vessel t) 5000 then alter set_completed i nextPlan
  else nextPlan.

Definition nextRoute (vessel : Vessel.t) (t : Waypoint.t)
  : list RoutePoint.t :=
  slice_last 200
    (Vessel.route vessel
       ++ [RoutePoint.mk (newLat vessel t) (newLng vessel t) None None]).

(** The guard [vessel.status !== 'active' || !activeAssigned.has(vessel.id)]. *)
Definition skipped (w : World) (vessel : Vessel.t) : bool :=
  negb (bool_decide (Vessel.status vessel = active))
  || negb (bool_decide (Vessel.id vessel ∈ activeAssigned (missions w))).

(** The body of [prevVessels.map(vessel => ...)]. *)
Definition updateVessel (w : World) (vessel : Vessel.t) : M Vessel.t :=
  if skipped w vessel then ret vessel
  else
    let nextPlan := nextPlan (plasticHotspots w) vessel in
    match target nextPlan with
    | None => throw
    | Some (i, t) =>
        r1 <- Math_random ;;
        r2 <- Math_random ;;
        ret (Vessel.mk
               (Vessel.id vessel) (Vessel.name vessel) (Vessel.type vessel)
               (newLat vessel t) (newLng vessel t)
               (Vessel.status vessel)
               (Rmax 0 (Vessel.battery vessel - r2 * 0.1))
               (Math_round ((Vessel.plasticCollected vessel + r1 * 5) * 10) / 10)
               (nextRoute vessel t)
               (Vessel.currentTarget vessel)
               (Vessel.speed vessel)
               (Some (arrive vessel i t nextPlan)))
    end.

(** [setVessels(prevVessels => prevVessels.map(...))]. *)
Definition updateVesselPositions (w : World) : M World :=
  vs <- mapM (updateVessel w) (vessels w) ;;
  ret (mkWorld (plasticHotspots w) vs (missions w)).

(** [n] firings of the 5 s interval. *)
Fixpoint ticks (n : nat) (w : World) : M World :=
  match n with
  | O => ret w
  | S n' => w' <- updateVesselPositions w ;; ticks n' w'
  end.
End Tick.

(** ** The initial state of the hook

    The [useState] initialisers of [useRealTimeData]; [now] is the value of
    [Date.now()] (and of [new Date()]) when the hook is first run. *)

Section Seed.
Variable now : Date.

Definition generateFallbackMissionHotspots : list PlasticHotspot.t :=
  [ PlasticHotspot.mk "NASA-CYGNSS-001" 37.50124578 (-144.99876234) 15234
      critical 1200 now
      (Some (NasaMetadata.mk "10S FH 12345 67890" ("10N", 512345, 4167890) 94
               "NASA CYGNSS SNR-LES v3.1"
               ["CYGNSS-1"; "CYGNSS-2"; "MODIS-Aqua"] true));
    PlasticHotspot.mk "NASA-CYGNSS-002" 42.10987654 (-28.67543210) 12876
      critical 950 now
      (Some (NasaMetadata.mk "29N PJ 87654 32109" ("29N", 287654, 4632109) 91
               "NASA CYGNSS SNR-LES v3.1"
               ["CYGNSS-3"; "VIIRS-NPP"; "MODIS-Terra"] true));
    PlasticHotspot.mk "NASA-CYGNSS-003" (-15.29876543) 78.23456789 8934
      high 680 now
      (Some (NasaMetadata.mk "43L GK 23456 78901" ("43L", 423456, 8378901) 87
               "NASA CYGNSS SNR-LES v3.1"
               ["CYGNSS-4"; "Landsat-8"; "Sentinel-2A"] true)) ].

Definition initialVessels : list Vessel.t :=
  [ Vessel.mk "vessel-001" "Ocean Guardian Alpha" autonomous 35.2 (-145.0)
      active 87 1250 [RoutePoint.mk 35.2 (-145.0) None None] None 12.5 None;
    Vessel.mk "vessel-002" "Plastic Hunter Beta" autonomous 36.0 (-28.7)
      active 92 890 [RoutePoint.mk 36.0 (-28.7) None None] None 15.2 None;
    Vessel.mk "vessel-003" "Cleanup Warrior Gamma" autonomous (-15.3) 78.2
      active 78 2100 [RoutePoint.mk (-15.3) 78.2 None None] None 10.1 None;
    Vessel.mk "vessel-004" "Deep Blue Delta" ship 34.6 (-145.8)
      idle 65 510 [RoutePoint.mk 34.6 (-145.8) None None] None 0 None;
    Vessel.mk "vessel-005" "Aqua Drone Epsilon" drone 25.7 (-80.19)
      active 54 260 [RoutePoint.mk 25.7 (-80.19) None None] None 8.2 None ].

Definition initialMissions : list Mission.t :=
  [ Mission.mk "mission-001" "Pacific Garbage Patch Cleanup" m_active
      ["vessel-001"; "vessel-002"; "vessel-005"] ["NASA-CYGNSS-001"]
      (now - 24 * 60 * 60 * 1000)%Z (now + 48 * 60 * 60 * 1000)%Z
      5000 2140 87.5;
    Mission.mk "mission-002" "Coastal Protection Initiative" m_active
      ["vessel-003"; "vessel-004"] ["NASA-CYGNSS-003"]
      (now - 12 * 60 * 60 * 1000)%Z (now + 36 * 60 * 60 * 1000)%Z
      2000 890 92.1;
    Mission.mk "mission-003" "Coastal Drone Surveillance" m_active
      ["vessel-005"] ["NASA-CYGNSS-002"]
      (now - 6 * 60 * 60 * 1000)%Z (now + 24 * 60 * 60 * 1000)%Z
      1000 260 95.0 ].

Definition initialWorld : World :=
  mkWorld generateFallbackMissionHotspots initialVessels initialMissions.
End Seed.

(** ** Vocabulary of the statements *)

(** Some waypoint of the plan is not completed. *)
Definition has_incomplete (l : list Waypoint.t) : Prop :=
  exists p, p ∈ l /\ incomplete p = true.

(** [v'] is what [n] ticks make of [v], at some positions of the random
    stream. *)
Inductive vsteps (rnd : nat -> R) (w : World) : nat -> Vessel.t -> Vessel.t -> Prop :=
| vsteps_O v : vsteps rnd w 0 v v
| vsteps_S n v v1 v' k k' :
    updateVessel rnd w v k = Ok v1 k' ->
    vsteps rnd w n v1 v' ->
    vsteps rnd w (S n) v v'.

(** [plan'] is [plan] with some more waypoints marked: same length, same
    coordinates slot by slot, and no mark taken back. *)
Definition keeps_completed (plan plan' : list Waypoint.t) : Prop :=
  length plan' = length plan
  /\ forall j p, plan !! j = Some p ->
       exists p', plan' !! j = Some p'
         /\ Waypoint.lat p' = Waypoint.lat p
         /\ Waypoint.lng p' = Waypoint.lng p
         /\ (Waypoint.completed p = Some true ->
             Waypoint.completed p' = Some true).

(** The ticks from [v] to [v'] all start with an incomplete waypoint in the
    vessel's plan: the plan is kept, not planned anew. *)
Inductive retained (rnd : nat -> R) (w : World) : Vessel.t -> Vessel.t -> Prop :=
| retained_refl v : retained rnd w v v
| retained_step v v1 v' k k' plan :
    Vessel.plan v = Some plan ->
    has_incomplete plan ->
    updateVessel rnd w v k = Ok v1 k' ->
    retained rnd w v1 v' ->
    retained rnd w v v'.

(** The comparator [(a, b) => key(a) - key(b)] and the order it sorts by. *)
Definition by_key {A} (key : A -> R) (a b : A) : R := key a - key b.
Definition le_key {A} (key : A -> R) (a b : A) : Prop := key a <= key b.

(** Planar distance, in degrees, of a waypoint from [(lat, lng)]. *)
Definition planar (lat lng : R) (p : Waypoint.t) : R :=
  Math_hypot (Waypoint.lat p - lat) (Waypoint.lng p - lng).

(** ** States used as examples *)

(** vessel-001 as the hook creates it: no plan yet. *)
Definition vessel_001 : Vessel.t :=
  Vessel.mk "vessel-001" "Ocean Guardian Alpha" autonomous 35.2 (-145.0)
    active 87 1250 [RoutePoint.mk 35.2 (-145.0) None None] None 12.5 None.

(** vessel-001 of the initial state, holding a plan whose first waypoint is
    completed and whose second is not. *)
Definition vessel_001_planned : Vessel.t :=
  Vessel.mk "vessel-001" "Ocean Guardian Alpha" autonomous 35.2 (-145.0)
    active 87 1250 [RoutePoint.mk 35.2 (-145.0) None None] None 12.5
    (Some [Waypoint.mk 37.50124578 (-144.99876234) (Some true);
           Waypoint.mk 42.10987654 (-28.67543210) (Some false)]).

(** vessel-003 of the initial state with its engine stopped: active,
    listed by the active mission-002, speed 0. *)
Definition vessel_003_stopped : Vessel.t :=
  Vessel.mk "vessel-003" "Cleanup Warrior Gamma" autonomous (-15.3) 78.2
    active 78 2100 [RoutePoint.mk (-15.3) 78.2 None None] None 0 None.

(** A vessel on the equator at longitude 0, active and listed by the active
    mission-001, planned towards (0, 1). *)
Definition vessel_equator : Vessel.t :=
  Vessel.mk "vessel-001" "Ocean Guardian Alpha" autonomous 0 0
    active 87 1250 [RoutePoint.mk 0 0 None None] None 12.5
    (Some [Waypoint.mk 0 1 (Some false)]).

(** A world without hotspots: the planner has nothing to draw from. *)
Definition world_without_hotspots : World :=
  mkWorld [] initialVessels (initialMissions 0%Z).

(** ** The other state updaters of [useRealTimeData] *)

(** [Math.floor(x)]. *)
Definition Math_floor (x : R) : R := IZR (Int_part x).

(** The time value of [new Date(x)]: [x] cut to an integer, towards 0. *)
Definition Date_of (x : R) : Date :=
  if Rle_dec 0 x then Int_part x else (- Int_part (- x))%Z.

Module SatelliteData.
Record t := mk {
  timestamp : Date;
  source : string;
  coverage : R;
  hotspotsDetected : R;
  avgConcentration : R
}.
End SatelliteData.

(** The [useState] cells of the hook, the SAR detections apart. *)
Record Hook := mkHook {
  world : World;
  satelliteData : SatelliteData.t;
  isLoading : bool;
  error : option string;
  lastUpdate : Date;
  isSimulating : bool;
  sarEnabled : bool
}.

(** The body of [prev.map(v => ({ ...v, route: [{ lat: v.lat, lng: v.lng }] }))]. *)
Definition resetTrail (v : Vessel.t) : Vessel.t :=
  Vessel.mk (Vessel.id v) (Vessel.name v) (Vessel.type v)
    (Vessel.lat v) (Vessel.lng v) (Vessel.status v) (Vessel.battery v)
    (Vessel.plasticCollected v)
    [RoutePoint.mk (Vessel.lat v) (Vessel.lng v) None None]
    (Vessel.currentTarget v) (Vessel.speed v) (Vessel.plan v).

Definition resetVesselTrails (w : World) : World :=
  mkWorld (plasticHotspots w) (resetTrail <$> vessels w) (missions w).

Section Updaters.
Variable rnd : nat -> R.

(** The body of [prevMissions.map(mission => ...)]. *)
Definition updateMission (mission : Mission.t) : M Mission.t :=
  if negb (bool_decide (Mission.status mission = m_active)) then ret mission
  else
    r1 <- Math_random rnd ;;
    r2 <- Math_random rnd ;;
    ret (Mission.mk
           (Mission.id mission) (Mission.name mission) (Mission.status mission)
           (Mission.vessels mission) (Mission.targets mission)
           (Mission.startDate mission) (Mission.estimatedCompletion mission)
           (Mission.plasticTarget mission)
           (Math_floor (Mission.plasticCollected mission + r1 * 50))
           (Rmin 100 (Mission.efficiency mission + (r2 - 0.5) * 2))).

Definition updateMissionProgress (w : World) : M World :=
  ms <- mapM updateMission (missions w) ;;
  ret (mkWorld (plasticHotspots w) (vessels w) ms).

(** [now] is the value of [new Date()]. *)
Definition updateSatelliteData (now : Date) (prevData : SatelliteData.t)
  : M SatelliteData.t :=
  r1 <- Math_random rnd ;;
  r2 <- Math_random rnd ;;
  r3 <- Math_random rnd ;;
  ret (SatelliteData.mk now (SatelliteData.source prevData)
         (Rmin 100 (SatelliteData.coverage prevData + (r1 - 0.5) * 2))
         (Rmax 0 (SatelliteData.hotspotsDetected prevData
                  + Math_floor (r2 * 3) - 1))
         (Rmax 0 (SatelliteData.avgConcentration prevData + (r3 - 0.5) * 200))).

(** The table [['low', 'medium', 'high', 'critical']] read at
    [Math.floor(r * 4)]; outside the table JavaScript reads [undefined],
    which [Math.random()], being in [0, 1), never asks for: [None]. *)
Definition mockSeverity (r : R) : option Severity :=
  if (Int_part (r * 4) <? 0)%Z then None
  else [low; medium; high; critical] !! Z.to_nat (Int_part (r * 4)).

(** The callback of [Array.from({ length: 8 }, (_, i) => ...)]; [now] is the
    value of [Date.now()] read for this element. *)
Definition mockHotspot (now : Date) (i : nat) : M PlasticHotspot.t :=
  r_lat <- Math_random rnd ;;
  r_lng <- Math_random rnd ;;
  r_conc <- Math_random rnd ;;
  r_sev <- Math_random rnd ;;
  r_area <- Math_random rnd ;;
  r_at <- Math_random rnd ;;
  r_mgrs <- Math_random rnd ;;
  r_east <- Math_random rnd ;;
  r_north <- Math_random rnd ;;
  r_conf <- Math_random rnd ;;
  ret (PlasticHotspot.mk
         ("hotspot-" +:+ pretty (i + 1)%nat)
         (25.7617 + (r_lat - 0.5) * 0.1)
         (-80.1918 + (r_lng - 0.5) * 0.1)
         (Math_floor (r_conc * 5000) + 1000)
         (default low (mockSeverity r_sev))
         (Math_floor (r_area * 50) + 10)
         (Date_of (IZR now - r_at * 24 * 60 * 60 * 1000))
         (Some (NasaMetadata.mk
                  ("17R" +:+ pretty (Int_part (r_mgrs * 1000000)))
                  ("17R", Math_floor (r_east * 100000),
                   Math_floor (r_north * 1000000))
                  (Math_floor (r_conf * 20) + 80)
                  "CYGNSS-PLASTIC-DETECTION"
                  ["CYGNSS-001"; "CYGNSS-002"; "CYGNSS-003"] true))).

(** [Array.from({ length: n }, f)], the elements made in index order. *)
Fixpoint Array_from {A} (f : nat -> M A) (i n : nat) : M (list A) :=
  match n with
  | O => ret []
  | S n' => a <- f i ;; l <- Array_from f (S i) n' ;; ret (a :: l)
  end.

Definition mockHotspots (clock : nat -> Date) : M (list PlasticHotspot.t) :=
  Array_from (fun i => mockHotspot (clock i) i) 0 8.

(** [simulateDataLoading], from the call to the end of its [finally]; [clock]
    gives [Date.now()] for each mock hotspot, [now] is [new Date()]. *)
Definition simulateDataLoading (clock : nat -> Date) (now : Date) (h : Hook)
  : M Hook :=
  mock <- mockHotspots clock ;;
  ret (mkHook
         (mkWorld mock (vessels (world h)) (missions (world h)))
         (satelliteData h) false None now (isSimulating h) (sarEnabled h)).

(** What can happen to the hook: the four intervals of the simulation
    effect, which exist only while [isSimulating], and the callbacks the
    hook hands out. *)
Inductive event :=
| VesselTick
| MissionTick
| SatelliteTick (now : Date)
| ClockTick (now : Date)
| ResetTrails
| LoadData (clock : nat -> Date) (now : Date)
| StartSimulation
| StopSimulation.

Definition with_world (h : Hook) (w : World) : Hook :=
  mkHook w (satelliteData h) (isLoading h) (error h) (lastUpdate h)
    (isSimulating h) (sarEnabled h).

Definition act (e : event) (h : Hook) : M Hook :=
  match e with
  | VesselTick =>
      if isSimulating h
      then w <- updateVesselPositions rnd (world h) ;; ret (with_world h w)
      else ret h
  | MissionTick =>
      if isSimulating h
      then w <- updateMissionProgress (world h) ;; ret (with_world h w)
      else ret h
  | SatelliteTick now =>
      if isSimulating h
      then s <- updateSatelliteData now (satelliteData h) ;;
           ret (mkHook (world h) s (isLoading h) (error h) (lastUpdate h)
                  (isSimulating h) (sarEnabled h))
      else ret h
  | ClockTick now =>
      if isSimulating h
      then ret (mkHook (world h) (satelliteData h) (isLoading h) (error h) now
                  (isSimulating h) (sarEnabled h))
      else ret h
  | ResetTrails => ret (with_world h (resetVesselTrails (world h)))
  | LoadData clock now => simulateDataLoading clock now h
  | StartSimulation =>
      ret (mkHook (world h) (satelliteData h) (isLoading h) (error h)
             (lastUpdate h) true (sarEnabled h))
  | StopSimulation =>
      ret (mkHook (world h) (satelliteData h) (isLoading h) (error h)
             (lastUpdate h) false (sarEnabled h))
  end.

Fixpoint run (es : list event) (h : Hook) : M Hook :=
  match es with
  | [] => ret h
  | e :: es' => h' <- act e h ;; run es' h'
  end.
End Updaters.

(** The hook as [useRealTimeData] creates it at time [now]. *)
Definition initialHook (now : Date) : Hook :=
  mkHook (initialWorld now)
    (SatelliteData.mk now "NASA CYGNSS" 87.3 12 4500)
    false None now true true.

(** The number of vessel ticks among the events. *)
Fixpoint vesselTicks (es : list event) : nat :=
  match es with
  | [] => 0
  | VesselTick :: es' => S (vesselTicks es')
  | _ :: es' => vesselTicks es'
  end.

(** The trail of [v] has between 1 and min(200, n) points and ends at the
    position of [v]. *)
Definition trail_ok (n : nat) (v : Vessel.t) : Prop :=
  (1 <= length (Vessel.route v) <= Nat.min 200 n)%nat
  /\ last (Vessel.route v)
     = Some (RoutePoint.mk (Vessel.lat v) (Vessel.lng v) None None).

(** The events fired by the intervals of the simulation effect. *)
Definition is_interval (e : event) : bool :=
  match e with
  | VesselTick | MissionTick | SatelliteTick _ | ClockTick _ => true
  | _ => false
  end.

(** [x] is an integer. *)
Definition is_int (x : R) : Prop := exists z : Z, x = IZR z.

(** The hotspot lies in the square of the mock data around Miami and carries
    the value ranges of [simulateDataLoading]. *)
Definition mock_ok (now : Date) (h : PlasticHotspot.t) : Prop :=
  25.7117 <= PlasticHotspot.lat h < 25.8117
  /\ -80.2418 <= PlasticHotspot.lng h < -80.1418
  /\ is_int (PlasticHotspot.concentration h)
  /\ 1000 <= PlasticHotspot.concentration h <= 5999
  /\ is_int (PlasticHotspot.area h)
  /\ 10 <= PlasticHotspot.area h <= 59
  /\ (now - 86400000 <= PlasticHotspot.detectedAt h <= now)%Z
  /\ exists md, PlasticHotspot.nasaMetadata h = Some md
       /\ 80 <= NasaMetadata.confidence md <= 99.

(** ** The panels that read the hook (MissionsPanel, AnalyticsPanel) *)

(** [vessels.filter(vessel => missionVessels.includes(vessel.id))]. *)
Definition getMissionVessels (vessels : list Vessel.t)
    (missionVessels : list string) : list Vessel.t :=
  filter (fun vessel => Vessel.id vessel ∈ missionVessels) vessels.

Definition getMissionProgress (mission : Mission.t) : R :=
  Math_round
    (Mission.plasticCollected mission / Mission.plasticTarget mission * 100).

(** The [efficiency] entry of [vesselEfficiency]. *)
Definition vesselEfficiency (vessel : Vessel.t) : R :=
  if bool_decide (Vessel.status vessel = active)
  then Math_floor (Vessel.battery vessel * 0.9) else 0.

(** [vessels.reduce((sum, vessel) => sum + vessel.plasticCollected, 0)]. *)
Definition totalPlasticCollected (vessels : list Vessel.t) : R :=
  foldl (fun sum vessel => sum + Vessel.plasticCollected vessel) 0 vessels.

(** [vessels.filter(v => v.status === 'active').length]. *)
Definition activeVessels (vessels : list Vessel.t) : nat :=
  length (filter (fun v => Vessel.status v = active) vessels).

(** [missions.reduce((sum, mission) => sum + mission.efficiency, 0) / missions.length]. *)
Definition avgEfficiency (missions : list Mission.t) : R :=
  foldl (fun sum mission => sum + Mission.efficiency mission) 0 missions
  / INR (length missions).

(** ** Coordinate helpers of the hook file ([generateUTM], [generateMGRS]) *)

(** [a % b] on numbers: [a] minus [b] times the quotient cut towards 0, so
    the remainder has the sign of [a]. *)
Definition Number_rem (a b : R) : R := a - b * IZR (Date_of (a / b)).

(** [`${x}`] and [x.toString()] for an integer [x] (below 10^21 in size):
    the decimal numeral, with a minus sign when negative. *)
Definition Number_toString (x : R) : string := pretty (Int_part x).

(** [String.fromCharCode(x)] for a code in 0..255 (a code unit above has no
    counterpart in [string]). *)
Definition String_fromCharCode (x : R) : string :=
  String (Ascii.ascii_of_nat (Z.to_nat (Int_part x))) "".

(** The character '0'. *)
Definition char_0 : Ascii.ascii := Ascii.ascii_of_nat 48.

Fixpoint string_repeat (c : Ascii.ascii) (n : nat) : string :=
  match n with
  | O => ""
  | S n' => String c (string_repeat c n')
  end.

(** [s.padStart(n, c)] for a one-character filler. *)
Definition padStart (n : nat) (c : Ascii.ascii) (s : string) : string :=
  string_repeat c (n - String.length s) +:+ s.

(** The three constants of [generateUTM] before they are packed. *)
Definition utmZone (lng : R) : R := Math_floor ((lng + 180) / 6) + 1.
Definition utmEasting (lng : R) : R :=
  Math_floor ((Number_rem lng 6 + 3) * 100000).
Definition utmNorthing (lat : R) : R :=
  Math_floor (if Rle_dec 0 lat then lat * 110000 else (lat + 90) * 110000).

(** [generateUTM]: [{ zone, easting, northing }]; nothing in its [try]
    throws. *)
Definition generateUTM (lat lng : R) : string * R * R :=
  let zone := utmZone lng in
  let band := if Rle_dec 0 lat then "N" else "S" in
  let easting := utmEasting lng in
  let northing := utmNorthing lat in
  (Number_toString zone +:+ band, Rmax 0 easting, Rmax 0 northing).

(** [generateMGRS]; nothing in its [try] throws. *)
Definition generateMGRS (lat lng : R) : string :=
  let zone := Math_floor ((lng + 180) / 6) + 1 in
  let band := String_fromCharCode (67 + Math_floor ((lat + 80) / 8)) in
  let square := "AA" in
  let easting :=
    padStart 5 char_0 (Number_toString
                      (Math_floor ((Number_rem lng 6 + 3) * 100000))) in
  let northing :=
    padStart 5 char_0
      (Number_toString
         (Math_floor ((if Rle_dec 0 lat then lat else lat + 90) * 110000))) in
  Number_toString zone +:+ band +:+ square +:+ easting +:+ northing.

(** ** Plastic detection (services/advancedAlgorithms.ts, NASAPlasticDetectionAI) *)

Inductive ValidationStatus := confirmed | probable | suspicious.

Module PlasticDetectionML.
Record t := mk {
  coordinates : R * R;
  concentration : R;
  confidence : R;
  spectralSignature : list R;
  oceanColorIndex : R;
  microplasticDensity : R;
  macroplasticDensity : R;
  algorithmUsed : string;
  validationStatus : ValidationStatus
}.
End PlasticDetectionML.

(** The object [bandIndex] of [extractSpectralBand], read at a key. *)
Definition bandIndex (band : string) : option R :=
  if decide (band = "NIR") then Some 0.8
  else if decide (band = "SWIR") then Some 1.6
  else if decide (band = "RED") then Some 0.65
  else if decide (band = "GREEN") then Some 0.55
  else if decide (band = "BLUE") then Some 0.45
  else None.

(** [(data[0] || 0.5) * (bandIndex[band] || 1)]: an absent entry is
    [undefined], which is falsy. *)
Definition extractSpectralBand (data : list R) (band : string) : R :=
  match data !! 0%nat with Some x => num_or x 0.5 | None => 0.5 end
  * match bandIndex band with Some x => num_or x 1 | None => 1 end.

Definition calculateNDPI (nir red : R) : R := (nir - red) / (nir + red + 0.0001).
Definition calculateFDI (nir red swir : R) : R := nir - (red + swir * 0.5).
Definition calculateRPI (red green blue : R) : R :=
  (red + green) / (blue + 0.0001).

(** [indices.map((index, i) => index * (1 + Math.sin(i * 0.5)))]. *)
Definition extractCNNFeatures (indices : list R) : list R :=
  imap (fun i index => index * (1 + sin (INR i * 0.5))) indices.

Definition applySpatialAttention (features : list R) (coords : R * R) : R :=
  let spatialWeight := Rabs (sin (coords.1 * 0.01) * cos (coords.2 * 0.01)) in
  foldl (fun sum feature => sum + feature * spatialWeight) 0 features
  / INR (length features).

(** [features[0]] and [features[1]] are there at the one call, which passes
    three features. *)
Definition ensemblePrediction (features : list R) (attention : R) : R :=
  let cnnPrediction :=
    foldl (fun sum f => sum + f) 0 features / INR (length features) in
  let transformerPrediction := attention in
  let traditionalMLPrediction :=
    Rmax 0 (Rmin 1 ((nth 0 features 0 + nth 1 features 0) * 0.5)) in
  cnnPrediction * 0.5 + transformerPrediction * 0.3
  + traditionalMLPrediction * 0.2.

Definition calculateConcentrationFromSpectral (probability : R)
    (features : list R) : R :=
  let baseConcentration := probability * 25000 in
  let spectralBoost := foldl (fun sum f => sum + Rabs f) 0 features * 1000 in
  Rmin 50000 (baseConcentration + spectralBoost).

Definition calculateOceanColorIndex (red green blue : R) : R :=
  (green - blue) / (green + blue + 0.0001).

(** The probability [detectPlasticFromSatelliteImagery] computes on the way. *)
Definition plasticProbability (satelliteData : list R) (coordinates : R * R)
  : R :=
  let nirBand := extractSpectralBand satelliteData "NIR" in
  let swirBand := extractSpectralBand satelliteData "SWIR" in
  let redBand := extractSpectralBand satelliteData "RED" in
  let greenBand := extractSpectralBand satelliteData "GREEN" in
  let blueBand := extractSpectralBand satelliteData "BLUE" in
  let ndpi := calculateNDPI nirBand redBand in
  let fdi := calculateFDI nirBand redBand swirBand in
  let rpi := calculateRPI redBand greenBand blueBand in
  let features := extractCNNFeatures [ndpi; fdi; rpi] in
  let spatialAttention := applySpatialAttention features coordinates in
  ensemblePrediction features spatialAttention.

(** [detectPlasticFromSatelliteImagery]; the two readings of
    [performance.now()] do not reach the result. *)
Definition detectPlasticFromSatelliteImagery (satelliteData : list R)
    (spectralBands : R) (coordinates : R * R) : PlasticDetectionML.t :=
  let nirBand := extractSpectralBand satelliteData "NIR" in
  let swirBand := extractSpectralBand satelliteData "SWIR" in
  let redBand := extractSpectralBand satelliteData "RED" in
  let greenBand := extractSpectralBand satelliteData "GREEN" in
  let blueBand := extractSpectralBand satelliteData "BLUE" in
  let ndpi := calculateNDPI nirBand redBand in
  let fdi := calculateFDI nirBand redBand swirBand in
  let rpi := calculateRPI redBand greenBand blueBand in
  let features := extractCNNFeatures [ndpi; fdi; rpi] in
  let spatialAttention := applySpatialAttention features coordinates in
  let plasticProbability := ensemblePrediction features spatialAttention in
  let concentration :=
    calculateConcentrationFromSpectral plasticProbability features in
  PlasticDetectionML.mk
    coordinates
    (Math_round concentration)
    (Math_round (plasticProbability * 100))
    [ndpi; fdi; rpi]
    (calculateOceanColorIndex redBand greenBand blueBand)
    (concentration * 0.7)
    (concentration * 0.3)
    "ResNet50-PlasticNet-v4.2 + BERT-OceanVision-v2.1"
    (if Rlt_dec 0.85 plasticProbability then confirmed
     else if Rlt_dec 0.65 plasticProbability then probable
     else suspicious).

(** ** [generateAdvancedNASAHotspots] *)

(** What [fetchCYGNSSData] resolves to, as far as the hook reads it: four
    [Float32Array]s, an entry being a number or NaN ([None]), and an
    [Int32Array]. *)
Module Cygnss.
Record t := mk {
  latitude : list (option R);
  longitude : list (option R);
  ddm_snr : list (option R);
  ddm_les : list (option R);
  quality_flags : list Z
}.
End Cygnss.

(** [a[i]] where it is a number; NaN and the [undefined] read behind the
    end behave alike under [isNaN] and [||]. *)
Definition sample (a : list (option R)) (i : nat) : option R := mjoin (a !! i).

(** [Number(x.toFixed(8))]: [x] rounded to 8 decimals, the sign set aside
    first, ties away from 0. *)
Definition toFixed8 (x : R) : R :=
  if Rlt_dec x 0 then - (Math_round (- x * 100000000) / 100000000)
  else Math_round (x * 100000000) / 100000000.

Section Advanced.
Variable rnd : nat -> R.
(** [Date.now()] and [new Date()] as read in the iteration with index [i]. *)
Variables clock_id clock_at : nat -> Date.

(** The body of the [for] loop at index [i]: the hotspot pushed, if any.
    A quality flag read behind the end is [undefined], which [!==] tells
    from 0. *)
Definition detectAt (sat : Cygnss.t) (i : nat) : M (option PlasticHotspot.t) :=
  match Cygnss.quality_flags sat !! i,
        sample (Cygnss.latitude sat) i, sample (Cygnss.longitude sat) i with
  | Some quality, Some lat, Some lng =>
      if negb (bool_decide (quality = 0%Z)) then ret None
      else if Rlt_dec 90 (Rabs lat) then ret None
      else if Rlt_dec 180 (Rabs lng) then ret None
      else
        let snr := match sample (Cygnss.ddm_snr sat) i with
                   | Some x => num_or x 0 | None => 0 end in
        let les := match sample (Cygnss.ddm_les sat) i with
                   | Some x => num_or x 0 | None => 0 end in
        r1 <- Math_random rnd ;;
        r2 <- Math_random rnd ;;
        let detection :=
          detectPlasticFromSatelliteImagery [snr; les; r1; r2] 13 (lat, lng) in
        if Rlt_dec 75 (PlasticDetectionML.confidence detection) then
          let mgrsCoord := generateMGRS lat lng in
          let utmData := generateUTM lat lng in
          r3 <- Math_random rnd ;;
          ret (Some
                 (PlasticHotspot.mk
                    ("NASA-CYGNSS-" +:+ pretty (clock_id i) +:+ "-" +:+ pretty i)
                    (toFixed8 lat) (toFixed8 lng)
                    (Rmax 1000 (PlasticDetectionML.concentration detection))
                    (match PlasticDetectionML.validationStatus detection with
                     | confirmed => critical
                     | probable => high
                     | suspicious => medium
                     end)
                    (Rmax 150 (Math_floor (r3 * 800 + 150)))
                    (clock_at i)
                    (Some (NasaMetadata.mk mgrsCoord utmData
                             (Math_round
                                (PlasticDetectionML.confidence detection))
                             (PlasticDetectionML.algorithmUsed detection)
                             ["CYGNSS-1"; "CYGNSS-2"; "CYGNSS-3"] true))))
        else ret None
  | _, _, _ => ret None
  end.

(** [for (let i = ...; i < dataLength; i += 10)], from index [i] on, with
    the hotspots pushed so far; [fuel] bounds the iterations. *)
Fixpoint scan (sat : Cygnss.t) (dataLength : nat) (fuel i : nat)
    (nasaHotspots : list PlasticHotspot.t) : M (list PlasticHotspot.t) :=
  match fuel with
  | O => ret nasaHotspots
  | S fuel' =>
      if (i <? dataLength)%nat then
        o <- detectAt sat i ;;
        scan sat dataLength fuel' (i + 10)
          (match o with Some h => nasaHotspots ++ [h] | None => nasaHotspots end)
      else ret nasaHotspots
  end.

(** [fetched] is what awaiting [fetchCYGNSSData] gives, [None] when it
    rejects; [now] is [new Date()] for the fallback hotspots. *)
Definition generateAdvancedNASAHotspots (fetched : option Cygnss.t)
    (now : Date) : M (list PlasticHotspot.t) :=
  match fetched with
  | None => ret (generateFallbackMissionHotspots now)
  | Some satelliteData =>
      let dataLength :=
        Nat.min (length (Cygnss.latitude satelliteData)) 100 in
      nasaHotspots <- scan satelliteData dataLength dataLength 0 [] ;;
      ret (if (length nasaHotspots <? 3)%nat
           then nasaHotspots ++ generateFallbackMissionHotspots now
           else nasaHotspots)
  end.
End Advanced.

(** A hotspot as [generateAdvancedNASAHotspots] hands them out. *)
Definition advanced_ok (h : PlasticHotspot.t) : Prop :=
  (PlasticHotspot.severity h = critical \/ PlasticHotspot.severity h = high)
  /\ 1000 <= PlasticHotspot.concentration h <= 50000
  /\ 150 <= PlasticHotspot.area h
  /\ Rabs (PlasticHotspot.lat h) <= 90
  /\ Rabs (PlasticHotspot.lng h) <= 180.

(** ** Facts about the library functions *)

Lemma Math_atan2_0_0 : Math_atan2 0 0 = 0.
Proof.
  unfold Math_atan2.
  repeat (destruct (Rlt_dec _ _); [lra |]). reflexivity.
Qed.

Lemma Math_atan2_pos_0 y : 0 < y -> Math_atan2 y 0 = PI / 2.
Proof.
  intros Hy. unfold Math_atan2.
  destruct (Rlt_dec 0 0); [lra |].
  destruct (Rlt_dec 0 y); [reflexivity | lra].
Qed.

Lemma toRad_0 : toRad 0 = 0.
Proof. unfold toRad. lra. Qed.

Lemma meters_ge (v : Vessel.t) : 0.5 <= meters v.
Proof.
  unfold meters, metersPerSec, seconds.
  pose proof (Rmax_l 0.1 (Vessel.speed v * 0.514444)). lra.
Qed.

(** ** Facts about the monad *)

Lemma mapM_Forall2 {A B} (f : A -> M B) (P : A -> B -> Prop) (l : list A) :
  (forall a k, a ∈ l -> exists b k', f a k = Ok b k' /\ P a b) ->
  forall k, exists bs k', mapM f l k = Ok bs k' /\ Forall2 P l bs.
Proof.
  induction l as [|a l IH]; intros Hf k.
  - exists [], k. split; [reflexivity | constructor].
  - destruct (Hf a k) as (b & k1 & Hb & HP); [left |].
    destruct (IH (fun a' k' Hin => Hf a' k' (list_elem_of_further _ _ _ Hin)) k1)
      as (bs & k2 & Hbs & HF).
    exists (b :: bs), k2. split; [| by constructor].
    cbn [mapM]. unfold bind. rewrite Hb, Hbs. reflexivity.
Qed.

(** ** Facts about the plan and the target *)

Lemma filter_length_0 (l : list Waypoint.t) :
  (length (filter (fun p => incomplete p = true) l) =? 0)%nat = true
  <-> ~ has_incomplete l.
Proof.
  rewrite Nat.eqb_eq, length_zero_iff_nil. split.
  - intros Hnil (p & Hin & Hp).
    exact (filter_nil_not_elem_of _ l p Hnil Hp Hin).
  - intros Hno. destruct (filter _ l) as [|p l'] eqn:E; [done |].
    exfalso. apply Hno. exists p.
    assert (Hp : p ∈ filter (fun p => incomplete p = true) l)
      by (rewrite E; left).
    apply list_elem_of_filter in Hp. tauto.
Qed.

Lemma filter_length_pos (l : list Waypoint.t) :
  (length (filter (fun p => incomplete p = true) l) =? 0)%nat = false
  -> has_incomplete l.
Proof.
  rewrite Nat.eqb_neq. intros Hne.
  destruct (filter _ l) as [|p l'] eqn:E; [done |].
  exists p.
  assert (Hp : p ∈ filter (fun p => incomplete p = true) l)
    by (rewrite E; left).
  apply list_elem_of_filter in Hp. tauto.
Qed.

Lemma nearest_all_false hs lat lng p :
  p ∈ nearest hs lat lng -> Waypoint.completed p = Some false.
Proof.
  unfold nearest. intros Hin.
  apply list_elem_of_fmap in Hin as (x & -> & _). reflexivity.
Qed.

(** The plan the tick works on is the old one when that has an incomplete
    waypoint, a fresh one otherwise. *)
Lemma nextPlan_retained hs v plan :
  Vessel.plan v = Some plan -> has_incomplete plan -> nextPlan hs v = plan.
Proof.
  intros Hp Hinc. unfold nextPlan. rewrite Hp. cbn [default].
  destruct (_ =? _)%nat eqn:E; [| reflexivity].
  apply filter_length_0 in E. contradiction.
Qed.

Lemma nextPlan_fresh hs v :
  ~ has_incomplete (default [] (Vessel.plan v)) ->
  nextPlan hs v =
    match nearest hs (Vessel.lat v) (Vessel.lng v) with
    | [] => [Waypoint.mk (Vessel.lat v) (Vessel.lng v) (Some false)]
    | l => l
    end.
Proof.
  intros Hno. unfold nextPlan.
  apply filter_length_0 in Hno. rewrite Hno.
  by destruct (nearest _ _ _).
Qed.

Lemma nextPlan_has_incomplete hs v : has_incomplete (nextPlan hs v).
Proof.
  unfold nextPlan.
  destruct (_ =? _)%nat eqn:E.
  - destruct (0 <? _)%nat eqn:E2.
    + destruct (nearest _ _ _) as [|p l] eqn:En; [discriminate |].
      exists p. split; [left |].
      unfold incomplete.
      rewrite (nearest_all_false hs (Vessel.lat v) (Vessel.lng v) p);
        [reflexivity | rewrite En; left].
    + eexists. split; [left | reflexivity].
  - by apply filter_length_pos.
Qed.

(** The target is the first incomplete waypoint whenever there is one. *)
Lemma target_first_incomplete (l : list Waypoint.t) :
  has_incomplete l ->
  exists i t, target l = Some (i, t) /\ l !! i = Some t
    /\ incomplete t = true
    /\ forall j q, l !! j = Some q -> (j < i)%nat -> incomplete q = false.
Proof.
  intros (p & Hin & Hp).
  destruct (list_find_elem_of (fun p => incomplete p = true) l p Hin Hp)
    as [[i t] Hfind].
  exists i, t. unfold target. rewrite Hfind.
  apply list_find_Some in Hfind as (Hl & Ht & Hlt).
  repeat split; try done.
  intros j q Hj Hji. specialize (Hlt j q Hj Hji).
  by destruct (incomplete q).
Qed.

(** ** One vessel, one tick *)

Section TickFacts.
Variable rnd : nat -> R.

Lemma updateVessel_skipped w v k :
  skipped w v = true -> updateVessel rnd w v k = Ok v k.
Proof. intros H. unfold updateVessel. rewrite H. reflexivity. Qed.

(** A vessel that passes the guard gets the object literal of the tick,
    built around the first incomplete waypoint of its plan, and two
    numbers are read from the random stream. *)
Lemma updateVessel_moved w v k :
  skipped w v = false ->
  exists i t,
    let np := nextPlan (plasticHotspots w) v in
    target np = Some (i, t) /\ np !! i = Some t /\ incomplete t = true
    /\ (forall j q, np !! j = Some q -> (j < i)%nat -> incomplete q = false)
    /\ updateVessel rnd w v k =
         Ok (Vessel.mk
               (Vessel.id v) (Vessel.name v) (Vessel.type v)
               (newLat v t) (newLng v t)
               (Vessel.status v)
               (Rmax 0 (Vessel.battery v - rnd (S k) * 0.1))
               (Math_round ((Vessel.plasticCollected v + rnd k * 5) * 10) / 10)
               (nextRoute v t)
               (Vessel.currentTarget v)
               (Vessel.speed v)
               (Some (arrive v i t np)))
            (S (S k)).
Proof.
  intros H.
  destruct (target_first_incomplete _
              (nextPlan_has_incomplete (plasticHotspots w) v))
    as (i & t & Ht & Hi & Hinc & Hfirst).
  exists i, t. cbn zeta. repeat split; try assumption.
  unfold updateVessel. rewrite H, Ht. reflexivity.
Qed.

(** The tick never dereferences [undefined]. *)
Lemma updateVessel_ok w v k :
  exists v' k', updateVessel rnd w v k = Ok v' k'.
Proof.
  destruct (skipped w v) eqn:E.
  - eauto using updateVessel_skipped.
  - destruct (updateVessel_moved w v k E) as (i & t & H). cbn zeta in H.
    destruct H as (_ & _ & _ & _ & ->). eauto.
Qed.

Lemma updateVesselPositions_ok w k :
  exists vs k',
    updateVesselPositions rnd w k
      = Ok (mkWorld (plasticHotspots w) vs (missions w)) k'
    /\ Forall2 (fun v v' => exists k1 k2, updateVessel rnd w v k1 = Ok v' k2)
         (vessels w) vs.
Proof.
  destruct (mapM_Forall2 (updateVessel rnd w)
              (fun v v' => exists k1 k2, updateVessel rnd w v k1 = Ok v' k2)
              (vessels w)) with (k := k) as (vs & k' & Hm & HF).
  - intros v k1 _. destruct (updateVessel_ok w v k1) as (v' & k2 & Hv).
    eauto 6.
  - exists vs, k'. split; [| exact HF].
    unfold updateVesselPositions, bind. rewrite Hm. reflexivity.
Qed.

Lemma ticks_ok n : forall w k,
  exists vs k',
    ticks rnd n w k = Ok (mkWorld (plasticHotspots w) vs (missions w)) k'
    /\ Forall2 (vsteps rnd w n) (vessels w) vs.
Proof.
  induction n as [|n IH]; intros w k.
  - exists (vessels w), k. split.
    + by destruct w.
    + apply Forall2_same_length_lookup_2; [done |].
      intros i x y Hx Hy. simplify_eq. constructor.
  - destruct (updateVesselPositions_ok w k) as (vs1 & k1 & H1 & HF1).
    destruct (IH (mkWorld (plasticHotspots w) vs1 (missions w)) k1)
      as (vs & k' & Hn & HFn).
    exists vs, k'. split.
    + cbn [ticks]. unfold bind at 1. rewrite H1. exact Hn.
    + cbn [vessels] in HFn.
      apply Forall2_same_length_lookup_2.
      { rewrite (Forall2_length _ _ _ HF1). by eapply Forall2_length. }
      intros i x y Hx Hy.
      destruct (Forall2_lookup_l _ _ _ _ _ HF1 Hx) as (x1 & Hx1 & k2 & k3 & Hu).
      destruct (Forall2_lookup_l _ _ _ _ _ HFn Hx1) as (y' & Hy' & Hs).
      simplify_eq. econstructor; [exact Hu |].
      clear -Hs. induction Hs; econstructor; eauto.
Qed.

Lemma ticks_add n m w k :
  ticks rnd (n + m) w k = (w1 <- ticks rnd n w ;; ticks rnd m w1) k.
Proof.
  revert w k. induction n as [|n IH]; intros w k; [reflexivity |].
  cbn [Nat.add ticks]. unfold bind.
  destruct (updateVesselPositions rnd w k) as [w1 k1|]; [| reflexivity].
  rewrite IH. reflexivity.
Qed.
End TickFacts.

(** ** The mission membership filter *)

Lemma elem_of_foldl_add (l : list string) (acc : gset string) (vid : string) :
  vid ∈ foldl (fun acc vid => acc ∪ {[ vid ]}) acc l <-> vid ∈ acc \/ vid ∈ l.
Proof.
  revert acc. induction l as [|x l IH]; intros acc; cbn [foldl].
  - split; [auto | intros [H | H]; [done | by apply not_elem_of_nil in H]].
  - rewrite IH, elem_of_union, elem_of_singleton, elem_of_cons. tauto.
Qed.

Lemma elem_of_activeAssigned_acc (ms : list Mission.t) (acc : gset string) vid :
  vid ∈ foldl (fun acc m =>
                 if decide (Mission.status m = m_active)
                 then foldl (fun acc vid => acc ∪ {[ vid ]}) acc (Mission.vessels m)
                 else acc) acc ms
  <-> vid ∈ acc \/
      exists m, m ∈ ms /\ Mission.status m = m_active /\ vid ∈ Mission.vessels m.
Proof.
  revert acc. induction ms as [|m ms IH]; intros acc; cbn [foldl].
  - split; [tauto | intros [H | (m & Hm & _)]; [done | by apply not_elem_of_nil in Hm]].
  - rewrite IH. destruct (decide (Mission.status m = m_active)) as [Ha | Hna].
    + rewrite elem_of_foldl_add. split.
      * intros [[H | H] | (m' & Hm' & H)]; [by left | right; exists m | right; exists m'].
        -- split; [left | done].
        -- split; [by right | done].
      * intros [H | (m' & Hm' & Hs & Hv)]; [by left; left |].
        apply elem_of_cons in Hm' as [-> | Hm']; [by left; right |].
        right. by exists m'.
    + split.
      * intros [H | (m' & Hm' & H)]; [by left | right; exists m'].
        split; [by right | done].
      * intros [H | (m' & Hm' & Hs & Hv)]; [by left |].
        apply elem_of_cons in Hm' as [-> | Hm']; [done |].
        right. by exists m'.
Qed.

(** The set holds exactly the vessel ids listed by an active mission. *)
Lemma elem_of_activeAssigned (ms : list Mission.t) (vid : string) :
  vid ∈ activeAssigned ms
  <-> exists m, m ∈ ms /\ Mission.status m = m_active /\ vid ∈ Mission.vessels m.
Proof.
  unfold activeAssigned. rewrite elem_of_activeAssigned_acc.
  split; [intros [H | H]; [by apply not_elem_of_empty in H | done] | auto].
Qed.

Lemma skipped_true_iff w v :
  skipped w v = true
  <-> Vessel.status v <> active
      \/ ~ exists m, m ∈ missions w /\ Mission.status m = m_active
                     /\ Vessel.id v ∈ Mission.vessels m.
Proof.
  unfold skipped.
  rewrite orb_true_iff, !negb_true_iff, !bool_decide_eq_false.
  by rewrite elem_of_activeAssigned.
Qed.

Lemma vsteps_skipped rnd w n v v' :
  skipped w v = true -> vsteps rnd w n v v' -> v' = v.
Proof.
  intros Hs Hv. induction Hv as [| n v v1 v' k k' Hu Hv IH]; [reflexivity |].
  rewrite updateVessel_skipped in Hu by assumption.
  injection Hu as <- _. auto.
Qed.

(** What one call of [updateVessel] can return. *)
Lemma updateVessel_cases rnd w v k v' k' :
  updateVessel rnd w v k = Ok v' k' ->
  (skipped w v = true /\ v' = v /\ k' = k)
  \/ (skipped w v = false /\ k' = S (S k) /\
      exists i t,
        let np := nextPlan (plasticHotspots w) v in
        target np = Some (i, t) /\ np !! i = Some t /\ incomplete t = true
        /\ (forall j q, np !! j = Some q -> (j < i)%nat -> incomplete q = false)
        /\ v' = Vessel.mk
                  (Vessel.id v) (Vessel.name v) (Vessel.type v)
                  (newLat v t) (newLng v t)
                  (Vessel.status v)
                  (Rmax 0 (Vessel.battery v - rnd (S k) * 0.1))
                  (Math_round ((Vessel.plasticCollected v + rnd k * 5) * 10) / 10)
                  (nextRoute v t)
                  (Vessel.currentTarget v)
                  (Vessel.speed v)
                  (Some (arrive v i t np))).
Proof.
  intros Hu. destruct (skipped w v) eqn:E.
  - left. rewrite updateVessel_skipped in Hu by assumption.
    injection Hu as <- <-. auto.
  - right. destruct (updateVessel_moved rnd w v k E) as (i & t & H).
    cbn zeta in H. destruct H as (Ht & Hi & Hinc & Hfirst & Heq).
    rewrite Heq in Hu. injection Hu as <- <-.
    split; [reflexivity |]. split; [reflexivity |].
    exists i, t. cbn zeta. auto.
Qed.

(** ** The trail *)

Lemma slice_last_snoc_length {A} (l : list A) (x : A) (n : nat) :
  length (slice_last n (l ++ [x])) = min (length l + 1) n.
Proof. unfold slice_last. rewrite length_drop, length_app. cbn. lia. Qed.

Lemma slice_last_snoc_last {A} (l : list A) (x : A) (n : nat) :
  (0 < n)%nat -> last (slice_last n (l ++ [x])) = Some x.
Proof.
  intros Hn. unfold slice_last. rewrite length_app. cbn [length].
  rewrite drop_app_le by lia. apply last_snoc.
Qed.

Lemma nextRoute_spec v t :
  let new := RoutePoint.mk (newLat v t) (newLng v t) None None in
  nextRoute v t
    = drop (length (Vessel.route v) + 1 - 200) (Vessel.route v ++ [new])
  /\ last (nextRoute v t) = Some new
  /\ length (nextRoute v t) = min (length (Vessel.route v) + 1) 200.
Proof.
  cbn zeta. unfold nextRoute. split; [| split].
  - unfold slice_last. by rewrite length_app.
  - apply slice_last_snoc_last. lia.
  - apply slice_last_snoc_length.
Qed.

Lemma vsteps_route_bound rnd w n v v' :
  vsteps rnd w n v v' ->
  (length (Vessel.route v) <= 200)%nat -> (length (Vessel.route v') <= 200)%nat.
Proof.
  induction 1 as [| n v v1 v' k k' Hu Hv IH]; [done |].
  intros Hb. apply IH.
  apply updateVessel_cases in Hu
    as [(_ & -> & _) | (_ & _ & i & t & H)]; [done |].
  cbn zeta in H. destruct H as (_ & _ & _ & _ & ->). cbn [Vessel.route].
  destruct (nextRoute_spec v t) as (_ & _ & ->). lia.
Qed.

(** ** The battery *)

Lemma vsteps_battery rnd w n v v' :
  (forall j, 0 <= rnd j < 1) ->
  vsteps rnd w n v v' ->
  0 <= Vessel.battery v -> 0 <= Vessel.battery v' <= Vessel.battery v.
Proof.
  intros Hrnd. induction 1 as [| n v v1 v' k k' Hu Hv IH]; [lra |].
  intros Hb.
  assert (H1 : 0 <= Vessel.battery v1 <= Vessel.battery v).
  { apply updateVessel_cases in Hu
      as [(_ & -> & _) | (_ & _ & i & t & H)]; [lra |].
    cbn zeta in H. destruct H as (_ & _ & _ & _ & ->). cbn [Vessel.battery].
    pose proof (Hrnd (S k)).
    split; [apply Rmax_l | apply Rmax_lub; lra]. }
  destruct IH; lra.
Qed.

(** ** Frame, trail and battery over the ticks *)

(** C4.  A vessel whose status is not 'active', or that no mission with
    status 'active' lists, is returned as it is by every tick: after any
    number of ticks the vessel object, and so its position, plan and trail,
    is the one before. *)
Theorem C4_unassigned_vessel_is_untouched
    (rnd : nat -> R) (n : nat) (w : World) (k : nat) (i : nat) (v : Vessel.t) :
  vessels w !! i = Some v ->
  (Vessel.status v <> active
   \/ ~ exists m, m ∈ missions w /\ Mission.status m = m_active
                  /\ Vessel.id v ∈ Mission.vessels m) ->
  exists w' k', ticks rnd n w k = Ok w' k'
    /\ vessels w' !! i = Some v.
Proof.
  intros Hi Hskip. apply skipped_true_iff in Hskip.
  destruct (ticks_ok rnd n w k) as (vs & k' & Ht & HF).
  eexists _, k'. split; [exact Ht |]. cbn [vessels].
  destruct (Forall2_lookup_l _ _ _ _ _ HF Hi) as (v' & Hv' & Hs).
  by rewrite (vsteps_skipped _ _ _ _ _ Hskip Hs) in Hv'.
Qed.

(** The idle vessel-004 of the initial state stays as it is over 7 ticks. *)
Lemma C4_witness :
  exists w' k', ticks (fun _ => 0) 7 (initialWorld 0%Z) 0%nat = Ok w' k'
    /\ vessels w' !! 3%nat
       = Some (Vessel.mk "vessel-004" "Deep Blue Delta" ship 34.6 (-145.8)
                 idle 65 510 [RoutePoint.mk 34.6 (-145.8) None None] None 0 None).
Proof.
  apply C4_unassigned_vessel_is_untouched.
  - reflexivity.
  - left. discriminate.
Defined.

(** C10.  One tick returns successfully, leaves the hotspot list and the
    mission list as they are, keeps the vessels in place and in number, and
    of each vessel it keeps id, name, type, status, speed and currentTarget:
    only lat, lng, route, plan, plasticCollected and battery can differ. *)
Theorem C10_tick_frame (rnd : nat -> R) (w : World) (k : nat) :
  exists w' k', updateVesselPositions rnd w k = Ok w' k'
    /\ plasticHotspots w' = plasticHotspots w
    /\ missions w' = missions w
    /\ Forall2 (fun v v' =>
                  Vessel.id v' = Vessel.id v
                  /\ Vessel.name v' = Vessel.name v
                  /\ Vessel.type v' = Vessel.type v
                  /\ Vessel.status v' = Vessel.status v
                  /\ Vessel.speed v' = Vessel.speed v
                  /\ Vessel.currentTarget v' = Vessel.currentTarget v)
         (vessels w) (vessels w').
Proof.
  destruct (updateVesselPositions_ok rnd w k) as (vs & k' & Hu & HF).
  eexists _, k'. split; [exact Hu |]. cbn [plasticHotspots missions vessels].
  do 2 (split; [reflexivity |]).
  eapply Forall2_impl; [exact HF |].
  intros v v' (k1 & k2 & Hv). cbn beta in Hv.
  apply updateVessel_cases in Hv
    as [(_ & -> & _) | (_ & _ & i & t & H)]; [done |].
  cbn zeta in H. destruct H as (_ & _ & _ & _ & ->). done.
Qed.

(** C3.  When every trail holds at most 200 points at the start, every trail
    holds at most 200 points after any number [n] of ticks; and the tick
    after those leaves a skipped vessel as it is and gives a moved vessel
    the trail made of its old trail with the new position appended at the
    end, cut at the front to its last 200 entries: its last entry is the new
    position and its length is min(old length + 1, 200). *)
Theorem C3_trail_bounded_and_appended
    (rnd : nat -> R) (n : nat) (w : World) (k : nat) :
  Forall (fun v => (length (Vessel.route v) <= 200)%nat) (vessels w) ->
  exists w1 k1 w2 k2,
    ticks rnd n w k = Ok w1 k1
    /\ updateVesselPositions rnd w1 k1 = Ok w2 k2
    /\ Forall (fun v => (length (Vessel.route v) <= 200)%nat) (vessels w1)
    /\ Forall2 (fun v v' =>
                  if skipped w1 v then v' = v
                  else
                    let new := RoutePoint.mk (Vessel.lat v') (Vessel.lng v')
                                 None None in
                    Vessel.route v'
                      = drop (length (Vessel.route v) + 1 - 200)
                          (Vessel.route v ++ [new])
                    /\ last (Vessel.route v') = Some new
                    /\ length (Vessel.route v')
                       = min (length (Vessel.route v) + 1) 200)
         (vessels w1) (vessels w2).
Proof.
  intros Hb.
  destruct (ticks_ok rnd n w k) as (vs1 & k1 & Ht & HF1).
  destruct (updateVesselPositions_ok rnd
              (mkWorld (plasticHotspots w) vs1 (missions w)) k1)
    as (vs2 & k2 & Hu & HF2).
  eexists _, k1, _, k2. split; [exact Ht |]. split; [exact Hu |].
  cbn [vessels] in *. split.
  - apply Forall_lookup_2. intros i v' Hv'.
    destruct (Forall2_lookup_r _ _ _ _ _ HF1 Hv') as (v & Hv & Hs).
    eapply vsteps_route_bound; [exact Hs |].
    by eapply (Forall_lookup_1 _ _ _ _ Hb).
  - eapply Forall2_impl; [exact HF2 |].
    intros v v' (j1 & j2 & Hv). cbn beta in Hv.
    apply updateVessel_cases in Hv
      as [(-> & -> & _) | (-> & _ & i & t & H)]; [done |].
    cbn zeta in H. destruct H as (_ & _ & _ & _ & ->).
    cbn [Vessel.route Vessel.lat Vessel.lng]. apply nextRoute_spec.
Qed.

(** Three ticks on the initial state, whose trails hold one point each. *)
Lemma C3_witness :
  Forall (fun v => (length (Vessel.route v) <= 200)%nat)
    (vessels (initialWorld 0%Z))
  /\ exists w1 k1 w2 k2,
    ticks (fun _ => 0) 3 (initialWorld 0%Z) 0%nat = Ok w1 k1
    /\ updateVesselPositions (fun _ => 0) w1 k1 = Ok w2 k2
    /\ Forall (fun v => (length (Vessel.route v) <= 200)%nat) (vessels w1)
    /\ Forall2 (fun v v' =>
                  if skipped w1 v then v' = v
                  else
                    let new := RoutePoint.mk (Vessel.lat v') (Vessel.lng v')
                                 None None in
                    Vessel.route v'
                      = drop (length (Vessel.route v) + 1 - 200)
                          (Vessel.route v ++ [new])
                    /\ last (Vessel.route v') = Some new
                    /\ length (Vessel.route v')
                       = min (length (Vessel.route v) + 1) 200)
         (vessels w1) (vessels w2).
Proof.
  assert (H : Forall (fun v => (length (Vessel.route v) <= 200)%nat)
                (vessels (initialWorld 0%Z))).
  { cbn. repeat constructor; cbn; lia. }
  split; [exact H |].
  exact (C3_trail_bounded_and_appended (fun _ => 0) 3 (initialWorld 0%Z) 0 H).
Defined.

(** C9.  With [Math.random()] in [0, 1) and batteries that start at 0 or
    above, between any tick [n] and any later tick [n + m] no battery rises,
    and no battery is ever below 0. *)
Theorem C9_battery_non_increasing_and_floored
    (rnd : nat -> R) (n m : nat) (w : World) (k : nat) :
  (forall j, 0 <= rnd j < 1) ->
  Forall (fun v => 0 <= Vessel.battery v) (vessels w) ->
  exists w1 k1 w2 k2,
    ticks rnd n w k = Ok w1 k1
    /\ ticks rnd m w1 k1 = Ok w2 k2
    /\ ticks rnd (n + m) w k = Ok w2 k2
    /\ Forall2 (fun v1 v2 =>
                  0 <= Vessel.battery v2 <= Vessel.battery v1
                  /\ 0 <= Vessel.battery v1)
         (vessels w1) (vessels w2).
Proof.
  intros Hrnd Hb.
  destruct (ticks_ok rnd n w k) as (vs1 & k1 & Ht1 & HF1).
  destruct (ticks_ok rnd m (mkWorld (plasticHotspots w) vs1 (missions w)) k1)
    as (vs2 & k2 & Ht2 & HF2).
  eexists _, k1, _, k2. split; [exact Ht1 |]. split; [exact Ht2 |].
  split.
  - rewrite ticks_add. unfold bind. rewrite Ht1. exact Ht2.
  - cbn [vessels] in *.
    assert (Hb1 : Forall (fun v => 0 <= Vessel.battery v) vs1).
    { apply Forall_lookup_2. intros i v' Hv'.
      destruct (Forall2_lookup_r _ _ _ _ _ HF1 Hv') as (v & Hv & Hs).
      eapply vsteps_battery; [exact Hrnd | exact Hs |].
      by eapply (Forall_lookup_1 _ _ _ _ Hb). }
    apply Forall2_same_length_lookup_2; [by eapply Forall2_length |].
    intros i v1 v2 Hv1 Hv2.
    destruct (Forall2_lookup_l _ _ _ _ _ HF2 Hv1) as (v2' & Hv2' & Hs).
    simplify_eq.
    pose proof (Forall_lookup_1 _ _ _ _ Hb1 Hv1) as H1. cbn beta in H1.
    split; [| exact H1].
    eapply vsteps_battery; [exact Hrnd | exact Hs | exact H1].
Qed.

(** Four ticks on the initial state with every random draw 1/2. *)
Lemma C9_witness :
  (forall j : nat, 0 <= (fun _ : nat => 0.5) j < 1)
  /\ Forall (fun v => 0 <= Vessel.battery v) (vessels (initialWorld 0%Z))
  /\ exists w1 k1 w2 k2,
    ticks (fun _ => 0.5) 1 (initialWorld 0%Z) 0%nat = Ok w1 k1
    /\ ticks (fun _ => 0.5) 3 w1 k1 = Ok w2 k2
    /\ ticks (fun _ => 0.5) (1 + 3) (initialWorld 0%Z) 0%nat = Ok w2 k2
    /\ Forall2 (fun v1 v2 =>
                  0 <= Vessel.battery v2 <= Vessel.battery v1
                  /\ 0 <= Vessel.battery v1)
         (vessels w1) (vessels w2).
Proof.
  assert (H1 : forall j : nat, 0 <= (fun _ : nat => 0.5) j < 1)
    by (intros _; cbn beta; lra).
  assert (H2 : Forall (fun v => 0 <= Vessel.battery v)
                 (vessels (initialWorld 0%Z))).
  { cbn. repeat constructor; cbn; lra. }
  split; [exact H1 |]. split; [exact H2 |].
  exact (C9_battery_non_increasing_and_floored
           (fun _ => 0.5) 1 3 (initialWorld 0%Z) 0 H1 H2).
Defined.

(** ** The sort of the planner *)

Section SortFacts.
Context {A : Type} (key : A -> R).

Lemma sort_insert_perm (x : A) (l : list A) :
  sort_insert (by_key key) x l ≡ₚ x :: l.
Proof.
  induction l as [|y l IH]; cbn [sort_insert]; [done |].
  destruct (Rle_dec _ _); [done |].
  rewrite IH. apply Permutation_swap.
Qed.

Lemma Array_sort_perm (l : list A) : Array_sort (by_key key) l ≡ₚ l.
Proof.
  induction l as [|x l IH]; [done |].
  unfold Array_sort in *. cbn [foldr].
  rewrite sort_insert_perm. by constructor.
Qed.

Lemma sort_insert_sorted (x : A) (l : list A) :
  StronglySorted (le_key key) l -> StronglySorted (le_key key) (sort_insert (by_key key) x l).
Proof.
  induction 1 as [| y l Hl IH Hy]; cbn [sort_insert].
  - repeat constructor.
  - destruct (Rle_dec (by_key key x y) 0) as [Hle | Hgt]; unfold by_key, le_key in *.
    + constructor; [by constructor |].
      constructor; [lra |].
      eapply Forall_impl; [exact Hy |]. cbn beta. intros z Hz. lra.
    + constructor; [exact IH |].
      rewrite sort_insert_perm. constructor; [lra | exact Hy].
Qed.

Lemma Array_sort_sorted (l : list A) :
  StronglySorted (le_key key) (Array_sort (by_key key) l).
Proof.
  induction l as [|x l IH]; [constructor |].
  unfold Array_sort in *. cbn [foldr]. by apply sort_insert_sorted.
Qed.

End SortFacts.

Lemma StronglySorted_take {A} (R : relation A) (n : nat) (l : list A) :
  StronglySorted R l -> StronglySorted R (take n l).
Proof.
  intros H. rewrite <- (take_drop n l) in H.
  by apply StronglySorted_app_1_l in H.
Qed.

Lemma StronglySorted_with {A} (R : relation A) (P : A -> Prop) (l : list A) :
  StronglySorted R l -> Forall P l ->
  StronglySorted (fun a b => R a b /\ P a /\ P b) l.
Proof.
  induction 1 as [| a l Hl IH Ha]; intros HP; [constructor |].
  apply Forall_cons in HP as [Pa HP].
  constructor; [by apply IH |].
  rewrite Forall_forall in Ha, HP. apply Forall_forall. auto.
Qed.

Lemma StronglySorted_impl {A} (R1 R2 : relation A) (l : list A) :
  (forall a b, R1 a b -> R2 a b) -> StronglySorted R1 l -> StronglySorted R2 l.
Proof.
  intros HR. induction 1 as [| a l Hl IH Ha]; constructor; [done |].
  eapply Forall_impl; [exact Ha | auto].
Qed.

(** ** The planner *)

(** The plan of [nearest], in terms of the key the code sorts by. *)
Lemma nearest_shape
    (hs : list PlasticHotspot.t) (lat lng : R) :
  hs <> [] ->
  let plan := nearest hs lat lng in
  length plan = min 3 (length hs)
  /\ (1 <= length plan <= 3)%nat
  /\ Forall (fun p => exists h, h ∈ hs
                        /\ Waypoint.lat p = PlasticHotspot.lat h
                        /\ Waypoint.lng p = PlasticHotspot.lng h) plan
  /\ StronglySorted (fun p q => planar lat lng p <= planar lat lng q) plan
  /\ Forall (fun p => Waypoint.completed p = Some false) plan
  /\ (forall h, h ∈ hs ->
        (exists p, p ∈ plan /\ Waypoint.lat p = PlasticHotspot.lat h
                   /\ Waypoint.lng p = PlasticHotspot.lng h)
        \/ Forall (fun p => planar lat lng p
                            <= Math_hypot (PlasticHotspot.lat h - lat)
                                 (PlasticHotspot.lng h - lng)) plan)
  /\ forall v, Vessel.lat v = lat -> Vessel.lng v = lng ->
       ~ has_incomplete (default [] (Vessel.plan v)) ->
       nextPlan hs v = plan.
Proof.
  intros Hne plan.
  set (deco := (fun h : PlasticHotspot.t =>
                  (h, Math_hypot (PlasticHotspot.lat h - lat)
                        (PlasticHotspot.lng h - lng))) <$> hs).
  set (sorted := Array_sort (fun a b : PlasticHotspot.t * R => a.2 - b.2) deco).
  assert (Hperm : sorted ≡ₚ deco) by apply (Array_sort_perm snd).
  assert (Hlen : length plan = min 3 (length hs)).
  { subst plan. unfold nearest. fold deco. fold sorted.
    rewrite length_fmap, length_take, Hperm. subst deco.
    by rewrite length_fmap. }
  assert (Hpos : (1 <= length plan <= 3)%nat).
  { rewrite Hlen. destruct hs; [done | cbn [length]; lia]. }
  assert (Hdeco : Forall (fun x : PlasticHotspot.t * R =>
                    x.1 ∈ hs
                    /\ x.2 = Math_hypot (PlasticHotspot.lat x.1 - lat)
                               (PlasticHotspot.lng x.1 - lng)) sorted).
  { rewrite Hperm. subst deco. apply Forall_fmap, Forall_forall.
    intros h Hh. by split. }
  split; [exact Hlen |]. split; [exact Hpos |].
  split; [| split; [| split; [| split]]].
  - subst plan. unfold nearest. fold deco. fold sorted.
    apply Forall_fmap, Forall_take.
    eapply Forall_impl; [exact Hdeco |].
    intros [h d] [Hin _]. exists h. by cbn.
  - subst plan. unfold nearest. fold deco. fold sorted.
    assert (Hs : StronglySorted
                   (fun a b : PlasticHotspot.t * R =>
                      a.2 <= b.2
                      /\ a.2 = Math_hypot (PlasticHotspot.lat a.1 - lat)
                                 (PlasticHotspot.lng a.1 - lng)
                      /\ b.2 = Math_hypot (PlasticHotspot.lat b.1 - lat)
                                 (PlasticHotspot.lng b.1 - lng))
                   sorted).
    { pose proof (Array_sort_sorted snd deco) as Hs. fold sorted in Hs.
      eapply StronglySorted_impl;
        [| exact (StronglySorted_with _ _ _ Hs Hdeco)].
      cbn beta. unfold le_key. tauto. }
    apply StronglySorted_take with (n := 3%nat) in Hs.
    eapply StronglySorted_fmap; [| exact Hs].
    intros [h1 d1] [h2 d2] (Hle & H1 & H2). unfold planar. cbn in *.
    by rewrite <- H1, <- H2.
  - apply Forall_forall. intros p Hp. by eapply nearest_all_false.
  - intros h Hh.
    set (x := (h, Math_hypot (PlasticHotspot.lat h - lat)
                    (PlasticHotspot.lng h - lng))).
    assert (Hx : x ∈ take 3 sorted ++ drop 3 sorted).
    { rewrite take_drop, Hperm. subst deco.
      apply list_elem_of_fmap. by exists h. }
    apply elem_of_app in Hx as [Hx | Hx].
    + left. eexists. split.
      * subst plan. unfold nearest. fold deco. fold sorted.
        apply list_elem_of_fmap. exists x. split; [reflexivity | exact Hx].
      * by cbn.
    + right. subst plan. unfold nearest. fold deco. fold sorted.
      apply Forall_fmap, Forall_forall. intros y Hy. unfold planar. cbn.
      assert (Hs : StronglySorted (le_key snd)
                     (take 3 sorted ++ drop 3 sorted))
        by (rewrite take_drop; exact (Array_sort_sorted snd deco)).
      pose proof (StronglySorted_app_1_elem_of _ _ _ _ _ Hs Hy Hx) as Hle.
      unfold le_key in Hle. cbn in Hle.
      assert (Hy' : y ∈ sorted)
        by (eapply elem_of_sublist; [exact Hy | apply sublist_take]).
      rewrite Forall_forall in Hdeco. destruct (Hdeco y Hy') as [_ Hd].
      by rewrite <- Hd.
  - intros v <- <- Hno. rewrite nextPlan_fresh by assumption.
    fold plan. destruct plan; [cbn in Hpos; lia | reflexivity].
Qed.

(** [Math.hypot(a, b)] is the Euclidean length of [(a, b)]. *)
Lemma Math_hypot_euclid (a b : R) : Math_hypot a b = sqrt (a ^ 2 + b ^ 2).
Proof. unfold Math_hypot. f_equal. ring. Qed.

(** C2.  For a non-empty hotspot list the planner's plan has between 1 and
    3 waypoints (as many as there are hotspots, up to 3), each at the
    coordinates of a hotspot of the list, in ascending order of the
    Euclidean distance in degrees, sqrt (dlat^2 + dlng^2), from the given
    position, all with completed = false; a hotspot that left no waypoint
    is at least as far as every waypoint; and the plan is a function of the
    hotspot list and the position alone: every vessel at that position
    without an incomplete waypoint gets this plan. *)
Theorem C2_fresh_plan_shape
    (hs : list PlasticHotspot.t) (lat lng : R) :
  hs <> [] ->
  let plan := nearest hs lat lng in
  length plan = min 3 (length hs)
  /\ (1 <= length plan <= 3)%nat
  /\ Forall (fun p => exists h, h ∈ hs
                        /\ Waypoint.lat p = PlasticHotspot.lat h
                        /\ Waypoint.lng p = PlasticHotspot.lng h) plan
  /\ StronglySorted
       (fun p q =>
          sqrt ((Waypoint.lat p - lat) ^ 2 + (Waypoint.lng p - lng) ^ 2)
          <= sqrt ((Waypoint.lat q - lat) ^ 2 + (Waypoint.lng q - lng) ^ 2))
       plan
  /\ Forall (fun p => Waypoint.completed p = Some false) plan
  /\ (forall h, h ∈ hs ->
        (exists p, p ∈ plan /\ Waypoint.lat p = PlasticHotspot.lat h
                   /\ Waypoint.lng p = PlasticHotspot.lng h)
        \/ Forall
             (fun p =>
                sqrt ((Waypoint.lat p - lat) ^ 2 + (Waypoint.lng p - lng) ^ 2)
                <= sqrt ((PlasticHotspot.lat h - lat) ^ 2
                         + (PlasticHotspot.lng h - lng) ^ 2)) plan)
  /\ forall v, Vessel.lat v = lat -> Vessel.lng v = lng ->
       ~ has_incomplete (default [] (Vessel.plan v)) ->
       nextPlan hs v = plan.
Proof.
  intros Hne plan.
  destruct (nearest_shape hs lat lng Hne)
    as (Hlen & Hpos & Hfrom & Hsorted & Hfalse & Hrest & Hfun).
  fold plan in Hlen, Hpos, Hfrom, Hsorted, Hfalse, Hrest, Hfun.
  split; [exact Hlen |]. split; [exact Hpos |]. split; [exact Hfrom |].
  split; [| split; [exact Hfalse | split; [| exact Hfun]]].
  - eapply StronglySorted_impl; [| exact Hsorted].
    intros p q Hpq. unfold planar in Hpq.
    by rewrite <- !Math_hypot_euclid.
  - intros h Hh. destruct (Hrest h Hh) as [Hin | Hfar]; [by left | right].
    eapply Forall_impl; [exact Hfar |].
    intros p Hp. unfold planar in Hp. by rewrite <- !Math_hypot_euclid.
Qed.

(** The plan drawn from the three fallback hotspots at vessel-001. *)
Lemma C2_witness :
  generateFallbackMissionHotspots 0%Z <> []
  /\ (1 <= length (nearest (generateFallbackMissionHotspots 0%Z) 35.2 (-145.0))
      <= 3)%nat.
Proof.
  assert (H : generateFallbackMissionHotspots 0%Z <> []) by discriminate.
  split; [exact H |].
  exact (proj1 (proj2 (C2_fresh_plan_shape
                         (generateFallbackMissionHotspots 0%Z) 35.2 (-145.0) H))).
Defined.

(** ** Arrival *)

Lemma keeps_completed_refl plan : keeps_completed plan plan.
Proof. split; [done |]. intros j p Hp. exists p. auto. Qed.

Lemma keeps_completed_trans p1 p2 p3 :
  keeps_completed p1 p2 -> keeps_completed p2 p3 -> keeps_completed p1 p3.
Proof.
  intros [L12 H12] [L23 H23]. split; [congruence |].
  intros j p Hp.
  destruct (H12 j p Hp) as (p' & Hp' & Ha & Hb & Hc).
  destruct (H23 j p' Hp') as (p'' & Hp'' & Ha' & Hb' & Hc').
  exists p''. repeat split; [done | congruence | congruence | auto].
Qed.

Lemma keeps_completed_arrive v i t plan :
  keeps_completed plan (arrive v i t plan).
Proof.
  unfold arrive. destruct (Rlt_dec _ _); [| apply keeps_completed_refl].
  split; [apply length_alter |].
  intros j p Hp. rewrite list_lookup_alter.
  destruct (decide (i = j)) as [-> | Hne].
  - rewrite Hp. cbn. eexists. split; [reflexivity |]. by cbn.
  - exists p. auto.
Qed.

Lemma retained_keeps_completed rnd w v v' :
  retained rnd w v v' ->
  forall plan, Vessel.plan v = Some plan ->
  exists plan', Vessel.plan v' = Some plan' /\ keeps_completed plan plan'.
Proof.
  induction 1 as [v | v v1 v' k k' plan0 Hp0 Hinc Hu Hr IH]; intros plan Hp.
  - exists plan. split; [done | apply keeps_completed_refl].
  - rewrite Hp0 in Hp. injection Hp as ->. rename Hp0 into Hp.
    assert (H1 : exists plan1, Vessel.plan v1 = Some plan1
                               /\ keeps_completed plan plan1).
    { apply updateVessel_cases in Hu
        as [(_ & -> & _) | (_ & _ & i & t & H)].
      - exists plan. split; [done | apply keeps_completed_refl].
      - cbn zeta in H. destruct H as (_ & _ & _ & _ & ->).
        rewrite (nextPlan_retained _ _ _ Hp Hinc). cbn [Vessel.plan].
        eexists. split; [reflexivity | apply keeps_completed_arrive]. }
    destruct H1 as (plan1 & Hp1 & Hk1).
    destruct (IH plan1 Hp1) as (plan' & Hp' & Hk').
    exists plan'. split; [done |]. by eapply keeps_completed_trans.
Qed.

(** C6.  Over any run of ticks that each start with an incomplete waypoint
    in the vessel's plan, the plan keeps its length and coordinates and
    every waypoint with completed = true keeps it; and a tick that moves the
    vessel heads for the first incomplete waypoint of that plan: the target
    is not completed and every waypoint before it is. *)
Theorem C6_completed_is_kept_and_target_is_first_incomplete
    (rnd : nat -> R) (w : World) (v v' : Vessel.t)
    (plan : list Waypoint.t) (k : nat) :
  Vessel.plan v = Some plan ->
  has_incomplete plan ->
  retained rnd w v v' ->
  (exists plan', Vessel.plan v' = Some plan' /\ keeps_completed plan plan')
  /\ (skipped w v = false ->
      exists i t v1,
        target plan = Some (i, t)
        /\ plan !! i = Some t
        /\ Waypoint.completed t <> Some true
        /\ (forall j q, plan !! j = Some q -> (j < i)%nat ->
              Waypoint.completed q = Some true)
        /\ updateVessel rnd w v k = Ok v1 (S (S k))
        /\ Vessel.lat v1 = newLat v t
        /\ Vessel.lng v1 = newLng v t).
Proof.
  intros Hp Hinc Hr. split.
  - by eapply retained_keeps_completed.
  - intros Hs.
    destruct (updateVessel_moved rnd w v k Hs) as (i & t & H).
    cbn zeta in H. rewrite (nextPlan_retained _ _ _ Hp Hinc) in H.
    destruct H as (Ht & Hi & Hti & Hfirst & Hu).
    eexists i, t, _. split; [exact Ht |]. split; [exact Hi |].
    split; [| split; [| split; [exact Hu | by cbn]]].
    + unfold incomplete, truthy in Hti. intros E. by rewrite E in Hti.
    + intros j q Hq Hji. specialize (Hfirst j q Hq Hji).
      unfold incomplete, truthy in Hfirst.
      by destruct (Waypoint.completed q) as [[|]|].
Qed.

Lemma C6_witness :
  exists v',
    (exists plan', Vessel.plan v' = Some plan'
       /\ keeps_completed
            [Waypoint.mk 37.50124578 (-144.99876234) (Some true);
             Waypoint.mk 42.10987654 (-28.67543210) (Some false)] plan')
    /\ (skipped (initialWorld 0%Z) vessel_001_planned = false ->
        exists i t v1,
          target [Waypoint.mk 37.50124578 (-144.99876234) (Some true);
                  Waypoint.mk 42.10987654 (-28.67543210) (Some false)]
            = Some (i, t)
          /\ [Waypoint.mk 37.50124578 (-144.99876234) (Some true);
              Waypoint.mk 42.10987654 (-28.67543210) (Some false)] !! i = Some t
          /\ Waypoint.completed t <> Some true
          /\ (forall j q,
                [Waypoint.mk 37.50124578 (-144.99876234) (Some true);
                 Waypoint.mk 42.10987654 (-28.67543210) (Some false)] !! j
                  = Some q ->
                (j < i)%nat -> Waypoint.completed q = Some true)
          /\ updateVessel (fun _ => 0) (initialWorld 0%Z) vessel_001_planned 0%nat
             = Ok v1 2%nat
          /\ Vessel.lat v1 = newLat vessel_001_planned t
          /\ Vessel.lng v1 = newLng vessel_001_planned t).
Proof.
  destruct (updateVessel_ok (fun _ => 0) (initialWorld 0%Z)
              vessel_001_planned 0%nat) as (v1 & k1 & Hu).
  exists v1.
  apply (C6_completed_is_kept_and_target_is_first_incomplete
           (fun _ => 0) (initialWorld 0%Z) vessel_001_planned v1 _ 0%nat).
  - reflexivity.
  - eexists. split; [right; left | reflexivity].
  - eapply retained_step; [reflexivity | | exact Hu | apply retained_refl].
    eexists. split; [right; left | reflexivity].
Defined.

(** C5.  A tick that moves a vessel measures the haversine distance, on a
    sphere of radius 6,371,000 m and with the degrees turned into radians
    (x * PI / 180), from the vessel's new position to the target, and the
    target's slot of the stored plan has completed = true exactly when that
    distance is below 5,000; the other slots are as in the plan the tick
    worked on. *)
Theorem C5_arrival_by_haversine_from_new_position
    (rnd : nat -> R) (w : World) (v : Vessel.t) (k : nat) :
  skipped w v = false ->
  exists i t v' plan',
    target (nextPlan (plasticHotspots w) v) = Some (i, t)
    /\ updateVessel rnd w v k = Ok v' (S (S k))
    /\ Vessel.plan v' = Some plan'
    /\ (forall j, j <> i -> plan' !! j = nextPlan (plasticHotspots w) v !! j)
    /\ exists t',
         plan' !! i = Some t'
         /\ Waypoint.lat t' = Waypoint.lat t
         /\ Waypoint.lng t' = Waypoint.lng t
         /\ (Waypoint.completed t' = Some true
             <-> 2 * 6371000
                 * asin (Rmin 1
                     (sqrt
                        (sin ((Waypoint.lat t - Vessel.lat v') * PI / 180 / 2)
                         ^ 2
                         + cos (Vessel.lat v' * PI / 180)
                           * cos (Waypoint.lat t * PI / 180)
                           * sin ((Waypoint.lng t - Vessel.lng v') * PI / 180
                                  / 2) ^ 2)))
                 < 5000).
Proof.
  intros Hs.
  destruct (updateVessel_moved rnd w v k Hs) as (i & t & H).
  cbn zeta in H. destruct H as (Ht & Hi & Hinc & _ & Hu).
  eexists i, t, _, _. split; [exact Ht |]. split; [exact Hu |].
  split; [reflexivity |]. cbn [Vessel.lat Vessel.lng].
  change (2 * 6371000 * asin _) with (dKm v t).
  unfold arrive. destruct (Rlt_dec (dKm v t) 5000) as [Hlt | Hge].
  - split; [intros j Hj; by apply list_lookup_alter_ne |].
    exists (set_completed t).
    split; [by rewrite list_lookup_alter_eq, Hi |].
    cbn. tauto.
  - split; [done |]. exists t. split; [exact Hi |].
    do 2 (split; [reflexivity |]).
    split; [| tauto].
    intros E. unfold incomplete in Hinc. by rewrite E in Hinc.
Qed.

Lemma C5_witness :
  skipped (initialWorld 0%Z) vessel_001_planned = false
  /\ exists i t v' plan',
    target (nextPlan (plasticHotspots (initialWorld 0%Z)) vessel_001_planned)
      = Some (i, t)
    /\ updateVessel (fun _ => 0) (initialWorld 0%Z) vessel_001_planned 0%nat
       = Ok v' 2%nat
    /\ Vessel.plan v' = Some plan'
    /\ (forall j, j <> i ->
          plan' !! j
          = nextPlan (plasticHotspots (initialWorld 0%Z)) vessel_001_planned !! j)
    /\ exists t',
         plan' !! i = Some t'
         /\ Waypoint.lat t' = Waypoint.lat t
         /\ Waypoint.lng t' = Waypoint.lng t
         /\ (Waypoint.completed t' = Some true
             <-> 2 * 6371000
                 * asin (Rmin 1
                     (sqrt
                        (sin ((Waypoint.lat t - Vessel.lat v') * PI / 180 / 2)
                         ^ 2
                         + cos (Vessel.lat v' * PI / 180)
                           * cos (Waypoint.lat t * PI / 180)
                           * sin ((Waypoint.lng t - Vessel.lng v') * PI / 180
                                  / 2) ^ 2)))
                 < 5000).
Proof.
  assert (H : skipped (initialWorld 0%Z) vessel_001_planned = false)
    by (vm_compute; reflexivity).
  split; [exact H |].
  exact (C5_arrival_by_haversine_from_new_position
           (fun _ => 0) (initialWorld 0%Z) vessel_001_planned 0%nat H).
Defined.

(** ** The step *)

Lemma num_or_cos_pos (lat : R) :
  -90 < lat < 90 -> 0 < cos (num_or (toRad lat) 1e-6).
Proof.
  intros Hlat. pose proof PI_RGT_0 as Hpi. pose proof PI2_1.
  apply cos_gt_0; unfold num_or, toRad;
    destruct (Req_dec_T _ _); try lra; nra.
Qed.

(** C7.  A moved vessel steps by max(0.1, speed * 0.514444) * 5 meters,
    0.5 meters at speed 0: the new position is the old one plus
    cos(bearing) * step / 111000 degrees of latitude and
    sin(bearing) * step / (111000 * cos(lat)) degrees of longitude, and
    between the poles that displacement, measured back in meters, has
    length step, so the vessel does not stay where it was. *)
Theorem C7_step_distance_with_floor
    (rnd : nat -> R) (w : World) (v : Vessel.t) (k : nat) :
  skipped w v = false ->
  -90 < Vessel.lat v < 90 ->
  meters v = Rmax 0.1 (Vessel.speed v * 0.514444) * 5
  /\ (Vessel.speed v = 0 -> meters v = 0.5)
  /\ exists i t v',
       target (nextPlan (plasticHotspots w) v) = Some (i, t)
       /\ updateVessel rnd w v k = Ok v' (S (S k))
       /\ let b := bearing (Vessel.lat v) (Vessel.lng v)
                     (Waypoint.lat t) (Waypoint.lng t) in
          let c := cos (num_or (toRad (Vessel.lat v)) 1e-6) in
          Vessel.lat v' = Vessel.lat v + cos b * meters v * (1 / 111000)
          /\ Vessel.lng v' = Vessel.lng v + sin b * meters v * (1 / (111000 * c))
          /\ ((Vessel.lat v' - Vessel.lat v) * 111000) ^ 2
             + ((Vessel.lng v' - Vessel.lng v) * (111000 * c)) ^ 2
             = meters v ^ 2
          /\ (Vessel.lat v' <> Vessel.lat v \/ Vessel.lng v' <> Vessel.lng v).
Proof.
  intros Hs Hlat. split; [reflexivity |]. split.
  { intros H0. unfold meters, metersPerSec, seconds. rewrite H0.
    rewrite Rmax_left by lra. lra. }
  destruct (updateVessel_moved rnd w v k Hs) as (i & t & H).
  cbn zeta in H. destruct H as (Ht & _ & _ & _ & Hu).
  eexists i, t, _. split; [exact Ht |]. split; [exact Hu |].
  cbn [Vessel.lat Vessel.lng].
  unfold newLat, newLng, stepLat, stepLng, degLatPerMeter, degLngPerMeter.
  set (b := bearing _ _ _ _). set (c := cos (num_or _ _)).
  assert (Hc : 0 < c) by (by apply num_or_cos_pos).
  pose proof (meters_ge v) as Hm.
  pose proof (sin2_cos2 b) as Hb. unfold Rsqr in Hb.
  cbn zeta. split; [reflexivity |]. split; [reflexivity |].
  assert (Hsq : ((Vessel.lat v + cos b * meters v * (1 / 111000)
                  - Vessel.lat v) * 111000) ^ 2
                + ((Vessel.lng v + sin b * meters v * (1 / (111000 * c))
                    - Vessel.lng v) * (111000 * c)) ^ 2
                = meters v ^ 2).
  { transitivity ((sin b * sin b + cos b * cos b) * meters v ^ 2);
      [field; lra | rewrite Hb; ring]. }
  split; [exact Hsq |].
  destruct (Req_dec_T (cos b) 0) as [Hc0 | Hc0].
  - right. intros E.
    assert (E1 : sin b * meters v * (1 / (111000 * c)) = 0) by lra.
    assert (E2 : sin b * meters v
                 = sin b * meters v * (1 / (111000 * c)) * (111000 * c))
      by (field; lra).
    rewrite E1 in E2. rewrite Hc0 in Hb. nra.
  - left. intros E.
    assert (cos b * meters v * (1 / 111000) = 0) by lra.
    assert (cos b * meters v = 0) by lra. nra.
Qed.

Lemma C7_witness :
  skipped (initialWorld 0%Z) vessel_003_stopped = false
  /\ -90 < Vessel.lat vessel_003_stopped < 90
  /\ meters vessel_003_stopped = 0.5
  /\ exists v',
       updateVessel (fun _ => 0) (initialWorld 0%Z) vessel_003_stopped 0%nat
         = Ok v' 2%nat
       /\ (Vessel.lat v' <> -15.3 \/ Vessel.lng v' <> 78.2).
Proof.
  assert (H1 : skipped (initialWorld 0%Z) vessel_003_stopped = false)
    by (vm_compute; reflexivity).
  assert (H2 : -90 < Vessel.lat vessel_003_stopped < 90) by (cbn; lra).
  destruct (C7_step_distance_with_floor
              (fun _ => 0) (initialWorld 0%Z) vessel_003_stopped 0%nat H1 H2)
    as (_ & Hm & i & t & v' & _ & Hu & H).
  cbn zeta in H. destruct H as (_ & _ & _ & Hne).
  split; [exact H1 |]. split; [exact H2 |].
  split; [exact (Hm eq_refl) |].
  exists v'. split; [exact Hu | exact Hne].
Defined.

(** ** Bearing *)

Lemma bearing_due_east : bearing 0 0 0 1 = PI / 2.
Proof.
  unfold bearing. cbn zeta. rewrite toRad_0, sin_0, cos_0.
  replace (1 * 0 - 0 * 1 * cos (toRad (1 - 0))) with 0 by ring.
  apply Math_atan2_pos_0.
  rewrite Rmult_1_r. pose proof PI_RGT_0.
  apply sin_gt_0; unfold toRad; lra.
Qed.

(** A target at the vessel's own position: [atan2(0, 0)], bearing 0. *)
Lemma bearing_self (lat lng : R) : bearing lat lng lat lng = 0.
Proof.
  unfold bearing. cbn zeta.
  replace (lng - lng) with 0 by ring. rewrite toRad_0, sin_0, cos_0.
  replace (0 * cos (toRad lat)) with 0 by ring.
  replace (cos (toRad lat) * sin (toRad lat)
           - sin (toRad lat) * cos (toRad lat) * 1) with 0 by ring.
  apply Math_atan2_0_0.
Qed.

(** C8.  From (0, 0) towards a waypoint at (0, 1) the bearing is PI/2,
    which is 90 degrees; the step of a vessel there has latitude part 0 and
    a longitude part above 0, and the tick that takes this waypoint as its
    target leaves the vessel on latitude 0 at a longitude above 0. *)
Theorem C8_bearing_due_east_on_equator
    (rnd : nat -> R) (w : World) (v : Vessel.t) (t : Waypoint.t)
    (i k : nat) :
  Vessel.lat v = 0 -> Vessel.lng v = 0 ->
  Waypoint.lat t = 0 -> Waypoint.lng t = 1 ->
  let b := bearing (Vessel.lat v) (Vessel.lng v)
             (Waypoint.lat t) (Waypoint.lng t) in
  b = PI / 2 /\ toDeg b = 90
  /\ stepLat v t = 0 /\ 0 < stepLng v t
  /\ (skipped w v = false ->
      target (nextPlan (plasticHotspots w) v) = Some (i, t) ->
      exists v', updateVessel rnd w v k = Ok v' (S (S k))
        /\ Vessel.lat v' = 0 /\ 0 < Vessel.lng v').
Proof.
  intros Hlat Hlng Htlat Htlng b.
  assert (Hb : b = PI / 2).
  { subst b. rewrite Hlat, Hlng, Htlat, Htlng. apply bearing_due_east. }
  pose proof PI_RGT_0 as Hpi. pose proof (meters_ge v) as Hm.
  assert (Hsl : stepLat v t = 0).
  { unfold stepLat. fold b. rewrite Hb, cos_PI2. ring. }
  assert (Hsg : 0 < stepLng v t).
  { unfold stepLng, degLngPerMeter. fold b. rewrite Hb, sin_PI2.
    assert (Hc : 0 < cos (num_or (toRad (Vessel.lat v)) 1e-6))
      by (apply num_or_cos_pos; lra).
    assert (0 < 1 / (111000 * cos (num_or (toRad (Vessel.lat v)) 1e-6))).
    { apply Rdiv_lt_0_compat; nra. }
    nra. }
  split; [exact Hb |]. split; [| split; [exact Hsl | split; [exact Hsg |]]].
  - unfold toDeg. rewrite Hb. field. lra.
  - intros Hs Ht.
    destruct (updateVessel_moved rnd w v k Hs) as (i' & t' & H).
    cbn zeta in H. destruct H as (Ht' & _ & _ & _ & Hu).
    rewrite Ht in Ht'. injection Ht' as <- <-.
    eexists. split; [exact Hu |]. cbn [Vessel.lat Vessel.lng].
    unfold newLat, newLng. rewrite Hsl, Hlat, Hlng. split; lra.
Qed.

Lemma C8_witness :
  bearing 0 0 0 1 = PI / 2
  /\ stepLat vessel_equator (Waypoint.mk 0 1 (Some false)) = 0
  /\ 0 < stepLng vessel_equator (Waypoint.mk 0 1 (Some false))
  /\ exists v',
       updateVessel (fun _ => 0) (initialWorld 0%Z) vessel_equator 0%nat
         = Ok v' 2%nat
       /\ Vessel.lat v' = 0 /\ 0 < Vessel.lng v'.
Proof.
  destruct (C8_bearing_due_east_on_equator
              (fun _ => 0) (initialWorld 0%Z) vessel_equator
              (Waypoint.mk 0 1 (Some false)) 0%nat 0%nat
              eq_refl eq_refl eq_refl eq_refl)
    as (Hb & _ & Hsl & Hsg & Htick).
  split; [exact Hb |]. split; [exact Hsl |]. split; [exact Hsg |].
  apply Htick.
  - vm_compute. reflexivity.
  - reflexivity.
Defined.

(** ** No hotspots *)

Lemma degenerate_step (v : Vessel.t) :
  let t := Waypoint.mk (Vessel.lat v) (Vessel.lng v) (Some false) in
  newLat v t = Vessel.lat v + meters v / 111000
  /\ newLng v t = Vessel.lng v.
Proof.
  cbn zeta. unfold newLat, newLng, stepLat, stepLng, degLatPerMeter.
  cbn [Waypoint.lat Waypoint.lng].
  rewrite bearing_self, cos_0, sin_0. split; [lra | ring].
Qed.

Lemma target_singleton_false (lat lng : R) :
  target [Waypoint.mk lat lng (Some false)]
  = Some (0%nat, Waypoint.mk lat lng (Some false)).
Proof. reflexivity. Qed.

(** Straight north of the target by [s] degrees, the haversine distance is
    the arc of [s] degrees on the sphere. *)
Lemma haversine_north (lat lng s : R) :
  0 <= s <= 180 -> haversine (lat + s) lng lat lng = 6371000 * toRad s.
Proof.
  intros Hs. pose proof PI_RGT_0 as Hpi. unfold haversine. cbn zeta.
  replace (lng - lng) with 0 by ring.
  replace (lat - (lat + s)) with (- s) by ring.
  rewrite toRad_0.
  replace (toRad (- s) / 2) with (- (toRad s / 2)) by (unfold toRad; field).
  replace (0 / 2) with 0 by field.
  rewrite sin_neg, sin_0.
  set (x := toRad s / 2).
  assert (Hx : 0 <= x <= PI / 2) by (subst x; unfold toRad; nra).
  assert (Hsin : 0 <= sin x) by (apply sin_ge_0; lra).
  replace ((- sin x) ^ 2 + cos (toRad (lat + s)) * cos (toRad lat) * 0 ^ 2)
    with (Rsqr (sin x)) by (unfold Rsqr; ring).
  rewrite sqrt_Rsqr by assumption.
  rewrite Rmin_right by (destruct (SIN_bound x); assumption).
  rewrite asin_sin by lra. subst x. lra.
Qed.

(** The tick of a moved vessel that has to plan and finds no hotspot. *)
Lemma updateVessel_no_hotspots rnd w v k v1 k1 :
  skipped w v = false ->
  plasticHotspots w = [] ->
  ~ has_incomplete (default [] (Vessel.plan v)) ->
  updateVessel rnd w v k = Ok v1 k1 ->
  k1 = S (S k)
  /\ Vessel.id v1 = Vessel.id v /\ Vessel.status v1 = Vessel.status v
  /\ Vessel.speed v1 = Vessel.speed v
  /\ Vessel.lat v1 = Vessel.lat v + meters v / 111000
  /\ Vessel.lng v1 = Vessel.lng v
  /\ Vessel.plan v1
     = Some (arrive v 0 (Waypoint.mk (Vessel.lat v) (Vessel.lng v) (Some false))
               [Waypoint.mk (Vessel.lat v) (Vessel.lng v) (Some false)]).
Proof.
  intros Hs Hh Hno Hu.
  assert (Hnp : nextPlan (plasticHotspots w) v
                = [Waypoint.mk (Vessel.lat v) (Vessel.lng v) (Some false)]).
  { rewrite nextPlan_fresh by assumption. by rewrite Hh. }
  destruct (updateVessel_moved rnd w v k Hs) as (i & t & H).
  cbn zeta in H. rewrite Hnp, target_singleton_false in H.
  destruct H as (Ht & _ & _ & _ & Hu'). injection Ht as <- <-.
  rewrite Hu' in Hu. injection Hu as <- <-.
  cbn [Vessel.id Vessel.status Vessel.speed Vessel.lat Vessel.lng Vessel.plan].
  destruct (degenerate_step v) as [-> ->]. done.
Qed.

(** Up to 1000 knots the degenerate waypoint is within 5 km after the
    step, so it is marked and the next tick plans again. *)
Lemma arrive_degenerate (v : Vessel.t) :
  Vessel.speed v <= 1000 ->
  arrive v 0 (Waypoint.mk (Vessel.lat v) (Vessel.lng v) (Some false))
    [Waypoint.mk (Vessel.lat v) (Vessel.lng v) (Some false)]
  = [Waypoint.mk (Vessel.lat v) (Vessel.lng v) (Some true)].
Proof.
  intros Hsp. unfold arrive.
  destruct (Rlt_dec _ _) as [Hlt | Hge]; [reflexivity |].
  exfalso. apply Hge. unfold dKm.
  destruct (degenerate_step v) as [-> ->]. cbn [Waypoint.lat Waypoint.lng].
  pose proof (meters_ge v) as Hm.
  assert (Hmax : meters v <= 2572.22).
  { unfold meters, metersPerSec, seconds.
    assert (Rmax 0.1 (Vessel.speed v * 0.514444) <= 514.444)
      by (apply Rmax_lub; lra).
    lra. }
  rewrite haversine_north by lra.
  pose proof PI_4. pose proof PI_RGT_0. unfold toRad. nra.
Qed.

Lemma skipped_same w v v1 :
  Vessel.id v1 = Vessel.id v -> Vessel.status v1 = Vessel.status v ->
  skipped w v1 = skipped w v.
Proof. intros Hi Hst. unfold skipped. by rewrite Hi, Hst. Qed.

(** Without hotspots a vessel below 1000 knots goes north tick after
    tick. *)
Lemma vsteps_no_hotspots rnd w n v v' :
  plasticHotspots w = [] ->
  vsteps rnd w n v v' ->
  skipped w v = false ->
  ~ has_incomplete (default [] (Vessel.plan v)) ->
  Vessel.speed v <= 1000 ->
  Vessel.lat v' = Vessel.lat v + INR n * (meters v / 111000)
  /\ Vessel.lng v' = Vessel.lng v.
Proof.
  intros Hh. induction 1 as [| n v v1 v' k k' Hu Hv IH]; intros Hs Hno Hsp.
  - cbn [INR]. split; [ring | reflexivity].
  - destruct (updateVessel_no_hotspots _ _ _ _ _ _ Hs Hh Hno Hu)
      as (_ & Hid & Hst & Hspeed & Hlat & Hlng & Hplan).
    rewrite arrive_degenerate in Hplan by assumption.
    assert (Hm : meters v1 = meters v)
      by (unfold meters, metersPerSec; by rewrite Hspeed).
    destruct IH as [IHlat IHlng].
    + by rewrite (skipped_same w v v1).
    + rewrite Hplan. cbn [default]. intros (p & Hp & Hinc).
      apply list_elem_of_singleton in Hp as ->. discriminate.
    + by rewrite Hspeed.
    + rewrite IHlat, IHlng, Hlat, Hlng, Hm, S_INR. split; [ring | reflexivity].
Qed.

(** C1, as the code has it.  Without hotspots, a vessel that is moved and
    holds no incomplete waypoint gets the plan made of the single waypoint
    at its own position, with completed = false, and no number of ticks
    throws.  The ticks do not leave the vessel where it is: the bearing to
    its own position is [atan2(0, 0) = 0], so the tick keeps the longitude
    and goes north by step / 111000 degrees of latitude; up to 1000 knots
    the waypoint is then within 5 km, the next tick plans again, and after
    [n] ticks the vessel is [n] such steps north of where it started. *)
Theorem C1_no_hotspots_degenerate_plan_and_step_north
    (rnd : nat -> R) (w : World) (i : nat) (v : Vessel.t) (k n : nat) :
  vessels w !! i = Some v ->
  skipped w v = false ->
  plasticHotspots w = [] ->
  ~ has_incomplete (default [] (Vessel.plan v)) ->
  nextPlan (plasticHotspots w) v
    = [Waypoint.mk (Vessel.lat v) (Vessel.lng v) (Some false)]
  /\ (exists v1,
        updateVessel rnd w v k = Ok v1 (S (S k))
        /\ Vessel.lng v1 = Vessel.lng v
        /\ Vessel.lat v1 = Vessel.lat v + meters v / 111000
        /\ Vessel.lat v < Vessel.lat v1)
  /\ exists w' k' v',
       ticks rnd n w k = Ok w' k'
       /\ vessels w' !! i = Some v'
       /\ (Vessel.speed v <= 1000 ->
           Vessel.lng v' = Vessel.lng v
           /\ Vessel.lat v' = Vessel.lat v + INR n * (meters v / 111000)).
Proof.
  intros Hi Hs Hh Hno.
  split; [| split].
  - rewrite nextPlan_fresh by assumption. by rewrite Hh.
  - destruct (updateVessel_ok rnd w v k) as (v1 & k1 & Hu).
    destruct (updateVessel_no_hotspots _ _ _ _ _ _ Hs Hh Hno Hu)
      as (-> & _ & _ & _ & Hlat & Hlng & _).
    exists v1. pose proof (meters_ge v).
    split; [exact Hu |]. split; [exact Hlng |]. split; [exact Hlat | lra].
  - destruct (ticks_ok rnd n w k) as (vs & k' & Ht & HF).
    destruct (Forall2_lookup_l _ _ _ _ _ HF Hi) as (v' & Hv' & Hsteps).
    eexists _, k', v'. split; [exact Ht |]. split; [exact Hv' |].
    intros Hsp.
    destruct (vsteps_no_hotspots _ _ _ _ _ Hh Hsteps Hs Hno Hsp) as [-> ->].
    done.
Qed.

Lemma C1_witness :
  nextPlan (plasticHotspots world_without_hotspots) vessel_001
    = [Waypoint.mk 35.2 (-145.0) (Some false)]
  /\ (exists v1,
        updateVessel (fun _ => 0) world_without_hotspots vessel_001 0%nat
          = Ok v1 2%nat
        /\ Vessel.lng v1 = Vessel.lng vessel_001
        /\ Vessel.lat v1 = Vessel.lat vessel_001 + meters vessel_001 / 111000
        /\ Vessel.lat vessel_001 < Vessel.lat v1)
  /\ exists w' k' v',
       ticks (fun _ => 0) 10 world_without_hotspots 0%nat = Ok w' k'
       /\ vessels w' !! 0%nat = Some v'
       /\ (Vessel.speed vessel_001 <= 1000 ->
           Vessel.lng v' = Vessel.lng vessel_001
           /\ Vessel.lat v'
              = Vessel.lat vessel_001 + INR 10 * (meters vessel_001 / 111000)).
Proof.
  apply (C1_no_hotspots_degenerate_plan_and_step_north
           (fun _ => 0) world_without_hotspots 0%nat vessel_001 0%nat 10%nat).
  - reflexivity.
  - vm_compute. reflexivity.
  - reflexivity.
  - intros (p & Hp & _). cbn in Hp. by apply not_elem_of_nil in Hp.
Defined.

(** The claim as the spec states it fails on vessel-001 of the initial
    state when the hotspot list is empty: the tick returns, the plan is the
    degenerate one, and the vessel is not where it was, its latitude having
    gone from 35.2 to 35.2 + 32.15275 / 111000. *)
Lemma C1_counterexample :
  skipped world_without_hotspots vessel_001 = false
  /\ plasticHotspots world_without_hotspots = []
  /\ nextPlan (plasticHotspots world_without_hotspots) vessel_001
     = [Waypoint.mk 35.2 (-145.0) (Some false)]
  /\ exists v',
       updateVessel (fun _ => 0) world_without_hotspots vessel_001 0%nat
         = Ok v' 2%nat
       /\ Vessel.lat v' = 35.2 + 32.15275 / 111000
       /\ Vessel.lat v' <> Vessel.lat vessel_001.
Proof.
  assert (Hs : skipped world_without_hotspots vessel_001 = false)
    by (vm_compute; reflexivity).
  split; [exact Hs |]. split; [reflexivity |]. split; [reflexivity |].
  destruct (updateVessel_moved (fun _ => 0) world_without_hotspots
              vessel_001 0%nat Hs) as (i & t & H).
  cbn zeta in H.
  change (nextPlan (plasticHotspots world_without_hotspots) vessel_001)
    with [Waypoint.mk (Vessel.lat vessel_001) (Vessel.lng vessel_001)
            (Some false)] in H.
  rewrite target_singleton_false in H.
  destruct H as (Ht & _ & _ & _ & Hu). injection Ht as <- <-.
  eexists. split; [exact Hu |]. cbn [Vessel.lat].
  assert (E : newLat vessel_001 (Waypoint.mk 35.2 (-145.0) (Some false))
              = 35.2 + meters vessel_001 / 111000)
    by exact (proj1 (degenerate_step vessel_001)).
  rewrite E.
  assert (Hm : meters vessel_001 = 32.15275).
  { unfold meters, metersPerSec, seconds. cbn [Vessel.speed vessel_001].
    rewrite Rmax_right by lra. lra. }
  rewrite Hm. cbn [Vessel.lat vessel_001]. split; lra.
Qed.

(** ** The hook over any sequence of events *)

Lemma Math_floor_bounds (x : R) : Math_floor x <= x < Math_floor x + 1.
Proof. unfold Math_floor. destruct (base_Int_part x). lra. Qed.

Lemma Math_floor_IZR_plus (z : Z) (y : R) :
  Math_floor (IZR z + y) = IZR z + Math_floor y.
Proof.
  unfold Math_floor. rewrite <- plus_IZR. f_equal. symmetry.
  apply Int_part_spec. rewrite plus_IZR.
  destruct (base_Int_part y). lra.
Qed.

Lemma Math_floor_range (x : R) (a b : Z) :
  IZR a <= x < IZR b -> IZR a <= Math_floor x <= IZR b - 1.
Proof.
  intros [Ha Hb]. unfold Math_floor. destruct (base_Int_part x) as [H1 H2].
  split.
  - apply IZR_le. apply Z.lt_succ_r. apply lt_IZR. rewrite succ_IZR. lra.
  - rewrite <- minus_IZR. apply IZR_le.
    assert (Int_part x < b)%Z by (apply lt_IZR; lra). lia.
Qed.

Lemma Math_round_IZR_plus (z : Z) (y : R) :
  Math_round (IZR z + y) = IZR z + Math_round y.
Proof.
  unfold Math_round. replace (IZR z + y + / 2) with (IZR z + (y + / 2)) by ring.
  apply Math_floor_IZR_plus.
Qed.

(** A tick step of one vessel keeps what the guard looks at. *)
Lemma updateVessel_keeps_guard rnd w v k v' k' :
  updateVessel rnd w v k = Ok v' k' ->
  Vessel.id v' = Vessel.id v /\ Vessel.status v' = Vessel.status v.
Proof.
  intros Hu. apply updateVessel_cases in Hu
    as [(_ & -> & _) | (_ & _ & i & t & H)]; [done |].
  cbn zeta in H. by destruct H as (_ & _ & _ & _ & ->).
Qed.

Lemma updateMission_cases rnd m k m' k' :
  updateMission rnd m k = Ok m' k' ->
  (Mission.status m <> m_active /\ m' = m /\ k' = k)
  \/ (Mission.status m = m_active /\ k' = S (S k)
      /\ m' = Mission.mk
                (Mission.id m) (Mission.name m) (Mission.status m)
                (Mission.vessels m) (Mission.targets m)
                (Mission.startDate m) (Mission.estimatedCompletion m)
                (Mission.plasticTarget m)
                (Math_floor (Mission.plasticCollected m + rnd k * 50))
                (Rmin 100 (Mission.efficiency m + (rnd (S k) - 0.5) * 2))).
Proof.
  unfold updateMission. destruct (bool_decide_reflect (Mission.status m = m_active))
    as [Ha | Hna]; cbn [negb].
  - intros H. right. injection H as <- <-. auto.
  - intros H. left. injection H as <- <-. auto.
Qed.

Lemma updateMission_ok rnd m k : exists m' k', updateMission rnd m k = Ok m' k'.
Proof.
  unfold updateMission. destruct (negb _); eexists _, _; reflexivity.
Qed.

Lemma updateMissionProgress_ok rnd w k :
  exists ms k',
    updateMissionProgress rnd w k
      = Ok (mkWorld (plasticHotspots w) (vessels w) ms) k'
    /\ Forall2 (fun m m' => exists k1 k2, updateMission rnd m k1 = Ok m' k2)
         (missions w) ms.
Proof.
  destruct (mapM_Forall2 (updateMission rnd)
              (fun m m' => exists k1 k2, updateMission rnd m k1 = Ok m' k2)
              (missions w)) with (k := k) as (ms & k' & Hm & HF).
  - intros m k1 _. destruct (updateMission_ok rnd m k1) as (m' & k2 & H).
    eauto 6.
  - exists ms, k'. split; [| exact HF].
    unfold updateMissionProgress, bind. rewrite Hm. reflexivity.
Qed.

(** Missions with the same status and the same vessel list, one by one, give
    the same set of assigned vessels. *)
Lemma activeAssigned_same (ms ms' : list Mission.t) :
  Forall2 (fun m m' => Mission.status m' = Mission.status m
                       /\ Mission.vessels m' = Mission.vessels m) ms ms' ->
  activeAssigned ms' = activeAssigned ms.
Proof.
  intros HF. apply set_eq. intros vid. rewrite !elem_of_activeAssigned.
  split.
  - intros (m' & Hin & Hs & Hv).
    apply list_elem_of_lookup in Hin as [i Hi].
    destruct (Forall2_lookup_r _ _ _ _ _ HF Hi) as (m & Hm & E1 & E2).
    exists m. split; [by eapply list_elem_of_lookup_2 |]. by rewrite <- E1, <- E2.
  - intros (m & Hin & Hs & Hv).
    apply list_elem_of_lookup in Hin as [i Hi].
    destruct (Forall2_lookup_l _ _ _ _ _ HF Hi) as (m' & Hm & E1 & E2).
    exists m'. split; [by eapply list_elem_of_lookup_2 |]. by rewrite E1, E2.
Qed.

Lemma updateSatelliteData_eq rnd now s k :
  updateSatelliteData rnd now s k
  = Ok (SatelliteData.mk now (SatelliteData.source s)
          (Rmin 100 (SatelliteData.coverage s + (rnd k - 0.5) * 2))
          (Rmax 0 (SatelliteData.hotspotsDetected s
                   + Math_floor (rnd (S k) * 3) - 1))
          (Rmax 0 (SatelliteData.avgConcentration s
                   + (rnd (S (S k)) - 0.5) * 200)))
       (S (S (S k))).
Proof. reflexivity. Qed.

Lemma Array_from_ok {A} (f : nat -> M A) (P : A -> Prop) (n : nat) :
  (forall i k, exists a k', f i k = Ok a k' /\ P a) ->
  forall i k, exists l k',
    Array_from f i n k = Ok l k' /\ length l = n /\ Forall P l.
Proof.
  intros Hf. induction n as [|n IH]; intros i k.
  - exists [], k. repeat split. constructor.
  - destruct (Hf i k) as (a & k1 & Ha & HP).
    destruct (IH (S i) k1) as (l & k2 & Hl & Hlen & HF).
    exists (a :: l), k2. cbn [Array_from]. unfold bind. rewrite Ha, Hl.
    repeat split; [by cbn; rewrite Hlen | by constructor].
Qed.

Lemma mockHotspots_ok rnd clock k :
  exists l k', mockHotspots rnd clock k = Ok l k' /\ length l = 8%nat.
Proof.
  destruct (Array_from_ok (fun i => mockHotspot rnd (clock i) i)
              (fun _ => True) 8) with (i := 0%nat) (k := k)
    as (l & k' & H & Hlen & _).
  - intros i k0. eexists _, _. split; [reflexivity | exact I].
  - eauto.
Qed.

(** No event throws. *)
Lemma act_ok rnd e h k : exists h' k', act rnd e h k = Ok h' k'.
Proof.
  destruct e as [| | now | now | | clock now | |]; cbn [act].
  - destruct (isSimulating h); [| eexists _, _; reflexivity].
    destruct (updateVesselPositions_ok rnd (world h) k) as (vs & k' & H & _).
    unfold bind. rewrite H. eauto.
  - destruct (isSimulating h); [| eexists _, _; reflexivity].
    destruct (updateMissionProgress_ok rnd (world h) k) as (ms & k' & H & _).
    unfold bind. rewrite H. eauto.
  - destruct (isSimulating h); eexists _, _; reflexivity.
  - destruct (isSimulating h); eexists _, _; reflexivity.
  - eexists _, _; reflexivity.
  - destruct (mockHotspots_ok rnd clock k) as (l & k' & H & _).
    unfold simulateDataLoading, bind. rewrite H. eauto.
  - eexists _, _; reflexivity.
  - eexists _, _; reflexivity.
Qed.

(** Induction over a run: a reflexive and transitive relation that every
    event respects holds between the start and the end of every run. *)
Lemma run_rel rnd (Rel : Hook -> Hook -> Prop) :
  (forall h, Rel h h) ->
  (forall a b c, Rel a b -> Rel b c -> Rel a c) ->
  (forall e h k h' k', act rnd e h k = Ok h' k' -> Rel h h') ->
  forall es h k, exists h' k', run rnd es h k = Ok h' k' /\ Rel h h'.
Proof.
  intros Hrefl Htrans Hact. induction es as [|e es IH]; intros h k.
  - exists h, k. split; [reflexivity | apply Hrefl].
  - destruct (act_ok rnd e h k) as (h1 & k1 & H1).
    destruct (IH h1 k1) as (h' & k' & Hr & HR).
    exists h', k'. split.
    + cbn [run]. unfold bind. rewrite H1. exact Hr.
    + eapply Htrans; [eapply Hact; exact H1 | exact HR].
Qed.

(** What an event can do to the world. *)
Lemma act_world rnd e h k h' k' :
  act rnd e h k = Ok h' k' ->
  let w := world h in
  world h' = w
  \/ (exists vs,
        world h' = mkWorld (plasticHotspots w) vs (missions w)
        /\ Forall2 (fun v v' => exists k1 k2, updateVessel rnd w v k1 = Ok v' k2)
             (vessels w) vs)
  \/ (exists ms,
        world h' = mkWorld (plasticHotspots w) (vessels w) ms
        /\ Forall2 (fun m m' => exists k1 k2, updateMission rnd m k1 = Ok m' k2)
             (missions w) ms)
  \/ world h' = resetVesselTrails w
  \/ (exists clock k1 k2 l,
        mockHotspots rnd clock k1 = Ok l k2
        /\ world h' = mkWorld l (vessels w) (missions w)).
Proof.
  cbn zeta.
  destruct e as [| | now | now | | clock now | |]; cbn [act]; intros H.
  - destruct (isSimulating h); [| left; by injection H as <- _].
    destruct (updateVesselPositions_ok rnd (world h) k) as (vs & k1 & Hu & HF).
    unfold bind in H. rewrite Hu in H. injection H as <- _.
    right; left. exists vs. by split.
  - destruct (isSimulating h); [| left; by injection H as <- _].
    destruct (updateMissionProgress_ok rnd (world h) k) as (ms & k1 & Hu & HF).
    unfold bind in H. rewrite Hu in H. injection H as <- _.
    right; right; left. exists ms. by split.
  - left. destruct (isSimulating h); by injection H as <- _.
  - left. destruct (isSimulating h); by injection H as <- _.
  - right; right; right; left. by injection H as <- _.
  - destruct (mockHotspots_ok rnd clock k) as (l & k1 & Hm & _).
    unfold simulateDataLoading, bind in H. rewrite Hm in H.
    injection H as <- _. right; right; right; right. by exists clock, k, k1, l.
  - left. by injection H as <- _.
  - left. by injection H as <- _.
Qed.

Lemma updateMission_keeps rnd m k m' k' :
  updateMission rnd m k = Ok m' k' ->
  Mission.id m' = Mission.id m /\ Mission.name m' = Mission.name m
  /\ Mission.status m' = Mission.status m
  /\ Mission.vessels m' = Mission.vessels m
  /\ Mission.targets m' = Mission.targets m
  /\ Mission.plasticTarget m' = Mission.plasticTarget m.
Proof.
  intros H. apply updateMission_cases in H
    as [(_ & -> & _) | (_ & _ & ->)]; done.
Qed.

Lemma Forall2_diag {A} (P : A -> A -> Prop) (l : list A) :
  (forall a, P a a) -> Forall2 P l l.
Proof. intros HP. induction l; constructor; auto. Qed.

Lemma Forall2_fmap_diag {A} (P : A -> A -> Prop) (f : A -> A) (l : list A) :
  (forall a, P a (f a)) -> Forall2 P l (f <$> l).
Proof. intros HP. induction l; constructor; auto. Qed.

Lemma Forall2_chain {A} (P : A -> A -> Prop) (l1 l2 l3 : list A) :
  (forall a b c, P a b -> P b c -> P a c) ->
  Forall2 P l1 l2 -> Forall2 P l2 l3 -> Forall2 P l1 l3.
Proof.
  intros HP H12. revert l3. induction H12; intros l3 H23;
    inversion H23; subst; constructor; eauto.
Qed.

(** Ids and statuses of the vessels over a run of events. *)
Lemma guard_over_run rnd es h k :
  exists h' k',
    run rnd es h k = Ok h' k'
    /\ Forall2 (fun v v' => Vessel.id v' = Vessel.id v
                            /\ Vessel.status v' = Vessel.status v)
         (vessels (world h)) (vessels (world h')).
Proof.
  apply (run_rel rnd (fun h h' =>
           Forall2 (fun v v' => Vessel.id v' = Vessel.id v
                                /\ Vessel.status v' = Vessel.status v)
             (vessels (world h)) (vessels (world h')))).
  - intros a. by apply Forall2_diag.
  - intros a b c F1 F2. eapply Forall2_chain; [| exact F1 | exact F2].
    cbn beta. intros x y z [? ?] [? ?]. split; congruence.
  - intros e a j b j' Hact. apply act_world in Hact. cbn zeta in Hact.
    destruct Hact as [-> | [(vs & -> & HF) | [(ms & -> & _) | [-> | H]]]];
      try (by apply Forall2_diag).
    + cbn [vessels]. eapply Forall2_impl; [exact HF |].
      intros v v' (k1 & k2 & Hu). by eapply updateVessel_keeps_guard.
    + cbn [resetVesselTrails vessels]. by apply Forall2_fmap_diag.
    + destruct H as (clock & k1 & k2 & l & _ & ->). by apply Forall2_diag.
Qed.

(** X1.  Whatever the events, no run throws, and the guard of the vessel
    tick gives every vessel the answer it gave at the start: ids, statuses
    and the set of vessels listed by active missions never change, so the
    vessels that move are the same from the first tick to the last. *)
Theorem X1_who_moves_never_changes
    (rnd : nat -> R) (es : list event) (h : Hook) (k : nat) :
  exists h' k',
    run rnd es h k = Ok h' k'
    /\ activeAssigned (missions (world h')) = activeAssigned (missions (world h))
    /\ Forall2 (fun v v' =>
                  Vessel.id v' = Vessel.id v
                  /\ Vessel.status v' = Vessel.status v
                  /\ skipped (world h') v' = skipped (world h) v)
         (vessels (world h)) (vessels (world h')).
Proof.
  destruct (run_rel rnd
              (fun h h' =>
                 activeAssigned (missions (world h'))
                 = activeAssigned (missions (world h))
                 /\ Forall2 (fun v v' => Vessel.id v' = Vessel.id v
                                         /\ Vessel.status v' = Vessel.status v)
                      (vessels (world h)) (vessels (world h'))))
    with (es := es) (h := h) (k := k) as (h' & k' & Hr & Ha & HF).
  - intros a. split; [done |]. by apply Forall2_diag.
  - intros a b c [A1 F1] [A2 F2]. split; [congruence |].
    eapply Forall2_chain; [| exact F1 | exact F2].
    cbn beta. intros x y z [? ?] [? ?]. split; congruence.
  - intros e a j b j' Hact. apply act_world in Hact. cbn zeta in Hact.
    destruct Hact as [-> | [(vs & -> & HF) | [(ms & -> & HF) | [-> | H]]]].
    + split; [done |]. by apply Forall2_diag.
    + split; [done |]. cbn [vessels].
      eapply Forall2_impl; [exact HF |].
      intros v v' (k1 & k2 & Hu). by eapply updateVessel_keeps_guard.
    + cbn [missions vessels]. split; [| by apply Forall2_diag].
      apply activeAssigned_same. eapply Forall2_impl; [exact HF |].
      intros m m' (k1 & k2 & Hu).
      apply updateMission_keeps in Hu. tauto.
    + split; [done |]. cbn [resetVesselTrails vessels].
      by apply Forall2_fmap_diag.
    + destruct H as (clock & k1 & k2 & l & _ & ->). split; [done |].
      by apply Forall2_diag.
  - exists h', k'. split; [exact Hr |]. split; [exact Ha |].
    eapply Forall2_impl; [exact HF |].
    intros v v' [Hi Hs]. repeat split; [done | done |].
    unfold skipped. by rewrite Hi, Hs, Ha.
Qed.

(** ** Trails and [resetVesselTrails] *)

Lemma trail_ok_mono n m v : (n <= m)%nat -> trail_ok n v -> trail_ok m v.
Proof. intros Hnm [[H1 H2] H3]. split; [lia | exact H3]. Qed.

Lemma trail_ok_reset n v : (1 <= n)%nat -> trail_ok n (resetTrail v).
Proof.
  intros Hn. unfold trail_ok, resetTrail.
  cbn [Vessel.route Vessel.lat Vessel.lng length]. split; [lia | reflexivity].
Qed.

Lemma trail_ok_tick rnd w v k v' k' n :
  updateVessel rnd w v k = Ok v' k' -> trail_ok n v -> trail_ok (S n) v'.
Proof.
  intros Hu Hv. apply updateVessel_cases in Hu
    as [(_ & -> & _) | (_ & _ & i & t & H)].
  - eapply trail_ok_mono; [| exact Hv]. lia.
  - cbn zeta in H. destruct H as (_ & _ & _ & _ & ->).
    destruct Hv as [[H1 H2] _]. unfold trail_ok.
    cbn [Vessel.route Vessel.lat Vessel.lng].
    destruct (nextRoute_spec v t) as (_ & -> & ->). split; [lia | reflexivity].
Qed.

Lemma act_trail_ok rnd e h k h' k' n :
  (1 <= n)%nat ->
  act rnd e h k = Ok h' k' ->
  Forall (trail_ok n) (vessels (world h)) ->
  Forall (trail_ok (n + vesselTicks [e])) (vessels (world h')).
Proof.
  intros Hn Hact HF.
  assert (Hsame : vessels (world h') = vessels (world h) ->
                  Forall (trail_ok (n + vesselTicks [e])) (vessels (world h'))).
  { intros ->. eapply Forall_impl; [exact HF |].
    intros v. apply trail_ok_mono. lia. }
  destruct e as [| | now | now | | clock now | |]; cbn [act] in Hact.
  - destruct (isSimulating h); [| apply Hsame; by injection Hact as <- _].
    destruct (updateVesselPositions_ok rnd (world h) k) as (vs & k1 & Hu & HF2).
    unfold bind in Hact. rewrite Hu in Hact. injection Hact as <- _.
    cbn [with_world world vessels vesselTicks].
    replace (n + 1)%nat with (S n) by lia.
    apply Forall_lookup_2. intros i v' Hv'.
    destruct (Forall2_lookup_r _ _ _ _ _ HF2 Hv') as (v & Hv & k2 & k3 & Hstep).
    eapply trail_ok_tick; [exact Hstep |].
    by eapply (Forall_lookup_1 _ _ _ _ HF).
  - destruct (isSimulating h); [| apply Hsame; by injection Hact as <- _].
    destruct (updateMissionProgress_ok rnd (world h) k) as (ms & k1 & Hu & _).
    unfold bind in Hact. rewrite Hu in Hact. injection Hact as <- _.
    by apply Hsame.
  - apply Hsame. destruct (isSimulating h); by injection Hact as <- _.
  - apply Hsame. destruct (isSimulating h); by injection Hact as <- _.
  - injection Hact as <- _. cbn [with_world world resetVesselTrails vessels].
    apply Forall_fmap, Forall_forall. intros v _. apply trail_ok_reset.
    cbn. lia.
  - destruct (mockHotspots_ok rnd clock k) as (l & k1 & Hm & _).
    unfold simulateDataLoading, bind in Hact. rewrite Hm in Hact.
    injection Hact as <- _. by apply Hsame.
  - apply Hsame. by injection Hact as <- _.
  - apply Hsame. by injection Hact as <- _.
Qed.

Lemma run_trail_ok rnd es : forall h k n,
  (1 <= n)%nat ->
  Forall (trail_ok n) (vessels (world h)) ->
  exists h' k',
    run rnd es h k = Ok h' k'
    /\ Forall (trail_ok (n + vesselTicks es)) (vessels (world h')).
Proof.
  induction es as [|e es IH]; intros h k n Hn HF.
  - exists h, k. split; [reflexivity |]. cbn. by rewrite Nat.add_0_r.
  - destruct (act_ok rnd e h k) as (h1 & k1 & H1).
    pose proof (act_trail_ok _ _ _ _ _ _ _ Hn H1 HF) as HF1.
    destruct (IH h1 k1 (n + vesselTicks [e])%nat) as (h' & k' & Hr & HF');
      [lia | exact HF1 |].
    exists h', k'. split.
    + cbn [run]. unfold bind. rewrite H1. exact Hr.
    + replace (n + vesselTicks (e :: es))%nat
        with (n + vesselTicks [e] + vesselTicks es)%nat; [exact HF' |].
      destruct e; cbn; lia.
Qed.

(** X2.  After [resetVesselTrails], whatever the trails were before and
    whatever events follow, every trail has at least 1 point and at most
    min(200, 1 + the number of vessel ticks since the reset), and its last
    point is the vessel's current position. *)
Theorem X2_trails_after_reset
    (rnd : nat -> R) (es : list event) (h : Hook) (k : nat) :
  exists h' k',
    run rnd (ResetTrails :: es) h k = Ok h' k'
    /\ Forall (fun v =>
                 (1 <= length (Vessel.route v)
                  <= Nat.min 200 (1 + vesselTicks es))%nat
                 /\ last (Vessel.route v)
                    = Some (RoutePoint.mk (Vessel.lat v) (Vessel.lng v)
                              None None))
         (vessels (world h')).
Proof.
  destruct (run_trail_ok rnd es
              (with_world h (resetVesselTrails (world h))) k 1%nat)
    as (h' & k' & Hr & HF); [lia | |].
  - cbn [with_world world resetVesselTrails vessels].
    apply Forall_fmap, Forall_forall. intros v _. by apply trail_ok_reset.
  - exists h', k'. split; [exact Hr | exact HF].
Qed.

Lemma mapM_fmap_rel {A B} (f f' : A -> M B) (g : A -> A)
    (Rel : B -> B -> Prop) (l : list A) :
  (forall a k, exists b1 b2 k',
      f' (g a) k = Ok b1 k' /\ f a k = Ok b2 k' /\ Rel b1 b2) ->
  forall k, exists l1 l2 k',
    mapM f' (g <$> l) k = Ok l1 k' /\ mapM f l k = Ok l2 k'
    /\ Forall2 Rel l1 l2.
Proof.
  intros Hf. induction l as [|a l IH]; intros k.
  - exists [], [], k. repeat split. constructor.
  - destruct (Hf a k) as (b1 & b2 & k1 & H1 & H2 & HR).
    destruct (IH k1) as (l1 & l2 & k2 & Hl1 & Hl2 & HF).
    exists (b1 :: l1), (b2 :: l2), k2.
    cbn [fmap list_fmap mapM]. unfold bind.
    rewrite H1, H2. fold (@fmap list _ A A g l). rewrite Hl1, Hl2.
    repeat split. by constructor.
Qed.

(** X3.  Resetting the trails before a vessel tick changes nothing but
    trails: the tick reads the same random numbers and leaves every vessel
    with the same position, plan, battery and collected plastic as the tick
    without the reset. *)
Theorem X3_reset_does_not_change_motion
    (rnd : nat -> R) (w : World) (k : nat) :
  exists w1 w2 k',
    updateVesselPositions rnd (resetVesselTrails w) k = Ok w1 k'
    /\ updateVesselPositions rnd w k = Ok w2 k'
    /\ resetVesselTrails w1 = resetVesselTrails w2.
Proof.
  destruct (mapM_fmap_rel (updateVessel rnd w)
              (updateVessel rnd (resetVesselTrails w)) resetTrail
              (fun v1 v2 => resetTrail v1 = resetTrail v2) (vessels w))
    with (k := k) as (l1 & l2 & k' & H1 & H2 & HF).
  - intros v j. destruct (skipped w v) eqn:Hs.
    + exists (resetTrail v), v, j. split; [| split; [| reflexivity]].
      * by apply updateVessel_skipped.
      * by apply updateVessel_skipped.
    + destruct (updateVessel_moved rnd w v j Hs) as (i & t & H).
      cbn zeta in H. destruct H as (Ht & _ & _ & _ & Hu).
      destruct (updateVessel_moved rnd (resetVesselTrails w) (resetTrail v) j Hs)
        as (i' & t' & H').
      cbn zeta in H'. destruct H' as (Ht' & _ & _ & _ & Hu').
      change (nextPlan (plasticHotspots (resetVesselTrails w)) (resetTrail v))
        with (nextPlan (plasticHotspots w) v) in Ht', Hu'.
      rewrite Ht in Ht'. injection Ht' as <- <-.
      eexists _, _, _. split; [exact Hu' |]. split; [exact Hu | reflexivity].
  - exists (mkWorld (plasticHotspots w) l1 (missions w)),
           (mkWorld (plasticHotspots w) l2 (missions w)), k'.
    split; [| split].
    + unfold updateVesselPositions, bind.
      cbn [resetVesselTrails vessels]. by rewrite H1.
    + unfold updateVesselPositions, bind. by rewrite H2.
    + unfold resetVesselTrails. cbn [plasticHotspots vessels missions].
      f_equal. clear -HF. induction HF; [done |].
      cbn [fmap list_fmap]. by f_equal.
Qed.

(** ** Mission progress *)

Lemma updateMission_step rnd m k m' k' :
  (forall j, 0 <= rnd j < 1) ->
  updateMission rnd m k = Ok m' k' ->
  (Mission.status m <> m_active -> m' = m)
  /\ (forall z, Mission.plasticCollected m = IZR z ->
        exists z', Mission.plasticCollected m' = IZR z'
                   /\ (z <= z' <= z + 50)%Z)
  /\ Mission.efficiency m' <= Rmax 100 (Mission.efficiency m)
  /\ Mission.efficiency m' < Mission.efficiency m + 1
  /\ (Mission.efficiency m <= 100 ->
      Mission.efficiency m - 1 <= Mission.efficiency m').
Proof.
  intros Hrnd Hu. apply updateMission_cases in Hu
    as [(Hna & -> & _) | (Ha & _ & ->)].
  - split; [done |]. split; [intros z Hz; exists z; split; [done | lia] |].
    pose proof (Rmax_r 100 (Mission.efficiency m)). repeat split; lra.
  - split; [done |]. cbn [Mission.plasticCollected Mission.efficiency].
    pose proof (Hrnd k) as Hk. pose proof (Hrnd (S k)) as Hk'.
    split.
    + intros z ->. rewrite Math_floor_IZR_plus.
      exists (z + Int_part (rnd k * 50))%Z. rewrite plus_IZR.
      split; [reflexivity |].
      destruct (Math_floor_range (rnd k * 50) 0 50) as [H1 H2]; [lra |].
      unfold Math_floor in H1, H2.
      assert (0 <= Int_part (rnd k * 50))%Z by (apply le_IZR; lra).
      assert (Int_part (rnd k * 50) <= 49)%Z by (apply le_IZR; lra).
      lia.
    + pose proof (Rmax_l 100 (Mission.efficiency m)).
      pose proof (Rmin_l 100 (Mission.efficiency m + (rnd (S k) - 0.5) * 2)).
      pose proof (Rmin_r 100 (Mission.efficiency m + (rnd (S k) - 0.5) * 2)).
      repeat split; try lra.
      intros Hle. apply Rmin_glb; lra.
Qed.

(** X4.  One mission update with [Math.random()] in [0, 1): a mission that
    is not active is returned as it is; an active one with an integer
    amount collected gets an integer amount between the old one and the old
    one plus 50 (a bound that leaves room for the sum being rounded up to
    the next integer when the draw is next to 1), and an efficiency of at
    most 100 that is less than 1 above the old one and, when that was at
    most 100, at most 1 below it. *)
Theorem X4_mission_update_step
    (rnd : nat -> R) (m : Mission.t) (k : nat) :
  (forall j, 0 <= rnd j < 1) ->
  exists m' k',
    updateMission rnd m k = Ok m' k'
    /\ (Mission.status m <> m_active -> m' = m /\ k' = k)
    /\ (Mission.status m = m_active ->
        (forall z, Mission.plasticCollected m = IZR z ->
           exists z', Mission.plasticCollected m' = IZR z'
                      /\ (z <= z' <= z + 50)%Z)
        /\ Mission.efficiency m' <= 100
        /\ Mission.efficiency m' < Mission.efficiency m + 1
        /\ (Mission.efficiency m <= 100 ->
            Mission.efficiency m - 1 <= Mission.efficiency m')).
Proof.
  intros Hrnd. destruct (updateMission_ok rnd m k) as (m' & k' & Hu).
  exists m', k'. split; [exact Hu |].
  destruct (updateMission_step _ _ _ _ _ Hrnd Hu) as (H1 & H2 & H3 & H4 & H5).
  split.
  - intros Hna. apply updateMission_cases in Hu
      as [(_ & -> & ->) | (Ha & _)]; [done | contradiction].
  - intros Ha. split; [exact H2 |]. split; [| split; [exact H4 | exact H5]].
    apply updateMission_cases in Hu as [(Hna & _) | (_ & _ & ->)];
      [contradiction |].
    cbn [Mission.efficiency]. apply Rmin_l.
Qed.

Lemma X4_witness :
  (forall j : nat, 0 <= (fun _ : nat => 0.5) j < 1)
  /\ exists m' k',
    updateMission (fun _ => 0.5)
      (Mission.mk "mission-001" "Pacific Garbage Patch Cleanup" m_active
         ["vessel-001"; "vessel-002"; "vessel-005"] ["NASA-CYGNSS-001"]
         0%Z 0%Z 5000 2140 87.5) 0%nat = Ok m' k'
    /\ Mission.efficiency m' <= 100.
Proof.
  assert (H : forall j : nat, 0 <= (fun _ : nat => 0.5) j < 1)
    by (intros _; cbn beta; lra).
  split; [exact H |].
  destruct (X4_mission_update_step (fun _ => 0.5)
              (Mission.mk "mission-001" "Pacific Garbage Patch Cleanup" m_active
                 ["vessel-001"; "vessel-002"; "vessel-005"] ["NASA-CYGNSS-001"]
                 0%Z 0%Z 5000 2140 87.5) 0%nat H)
    as (m' & k' & Hu & _ & Hact).
  exists m', k'. split; [exact Hu |].
  exact (proj1 (proj2 (Hact eq_refl))).
Defined.

(** The missions over a run of events. *)
Lemma missions_over_run
    (rnd : nat -> R) (es : list event) (h : Hook) (k : nat) :
  (forall j, 0 <= rnd j < 1) ->
  exists h' k',
    run rnd es h k = Ok h' k'
    /\ Forall2 (fun m m' =>
                  (Mission.id m' = Mission.id m
                   /\ Mission.name m' = Mission.name m
                   /\ Mission.status m' = Mission.status m
                   /\ Mission.vessels m' = Mission.vessels m
                   /\ Mission.targets m' = Mission.targets m
                   /\ Mission.plasticTarget m' = Mission.plasticTarget m)
                  /\ (Mission.status m <> m_active -> m' = m)
                  /\ (forall z, Mission.plasticCollected m = IZR z ->
                        exists z', Mission.plasticCollected m' = IZR z'
                                   /\ (z <= z')%Z)
                  /\ (Mission.efficiency m <= 100 ->
                      Mission.efficiency m' <= 100))
         (missions (world h)) (missions (world h')).
Proof.
  intros Hrnd.
  set (P := fun m m' : Mission.t =>
              (Mission.id m' = Mission.id m
               /\ Mission.name m' = Mission.name m
               /\ Mission.status m' = Mission.status m
               /\ Mission.vessels m' = Mission.vessels m
               /\ Mission.targets m' = Mission.targets m
               /\ Mission.plasticTarget m' = Mission.plasticTarget m)
              /\ (Mission.status m <> m_active -> m' = m)
              /\ (forall z, Mission.plasticCollected m = IZR z ->
                    exists z', Mission.plasticCollected m' = IZR z'
                               /\ (z <= z')%Z)
              /\ (Mission.efficiency m <= 100 ->
                  Mission.efficiency m' <= 100)).
  assert (Prefl : forall m, P m m).
  { intros m. unfold P. repeat split; try done.
    intros z Hz. exists z. split; [done | lia]. }
  apply (run_rel rnd (fun h h' =>
           Forall2 P (missions (world h)) (missions (world h')))).
  - intros a. by apply Forall2_diag.
  - intros a b c F1 F2. eapply Forall2_chain; [| exact F1 | exact F2].
    unfold P. intros x y z (Kx & Nx & Cx & Ex) (Ky & Ny & Cy & Ey).
    split; [intuition congruence |]. split; [| split].
    + intros Hna. rewrite (Ny ltac:(intuition congruence)). by apply Nx.
    + intros z0 Hz0. destruct (Cx z0 Hz0) as (z1 & Hz1 & Hle1).
      destruct (Cy z1 Hz1) as (z2 & Hz2 & Hle2). exists z2. split; [done | lia].
    + auto.
  - intros e a j b j' Hact. apply act_world in Hact. cbn zeta in Hact.
    destruct Hact as [-> | [(vs & -> & _) | [(ms & -> & HF) | [-> | H]]]];
      try (by apply Forall2_diag).
    + cbn [missions]. eapply Forall2_impl; [exact HF |].
      intros m m' (k1 & k2 & Hu). unfold P.
      pose proof (updateMission_keeps _ _ _ _ _ Hu) as Hk.
      destruct (updateMission_step _ _ _ _ _ Hrnd Hu) as (H1 & H2 & H3 & _).
      split; [exact Hk |]. split; [exact H1 |]. split.
      * intros z Hz. destruct (H2 z Hz) as (z' & Hz' & Hle).
        exists z'. split; [done | lia].
      * intros Hle. rewrite Rmax_left in H3 by lra. exact H3.
    + destruct H as (clock & k1 & k2 & l & _ & ->). by apply Forall2_diag.
Qed.

(** X5.  Over any run of events with [Math.random()] in [0, 1), every
    mission keeps its id, name, status, vessels, targets and plastic
    target; a mission that is not active stays the same object; an integer
    amount collected stays an integer and never goes down; an efficiency of
    at most 100 stays at most 100. *)
Theorem X5_missions_over_any_run
    (rnd : nat -> R) (es : list event) (h : Hook) (k : nat) :
  (forall j, 0 <= rnd j < 1) ->
  exists h' k',
    run rnd es h k = Ok h' k'
    /\ Forall2 (fun m m' =>
                  (Mission.id m' = Mission.id m
                   /\ Mission.name m' = Mission.name m
                   /\ Mission.status m' = Mission.status m
                   /\ Mission.vessels m' = Mission.vessels m
                   /\ Mission.targets m' = Mission.targets m
                   /\ Mission.plasticTarget m' = Mission.plasticTarget m)
                  /\ (Mission.status m <> m_active -> m' = m)
                  /\ (forall z, Mission.plasticCollected m = IZR z ->
                        exists z', Mission.plasticCollected m' = IZR z'
                                   /\ (z <= z')%Z)
                  /\ (Mission.efficiency m <= 100 ->
                      Mission.efficiency m' <= 100))
         (missions (world h)) (missions (world h')).
Proof.
  intros Hrnd.
  destruct (missions_over_run rnd es h k Hrnd) as (h' & k' & Hr & HF).
  exists h', k'. split; [exact Hr | exact HF].
Qed.

Lemma X5_witness :
  (forall j : nat, 0 <= (fun _ : nat => 0.5) j < 1)
  /\ exists h' k',
    run (fun _ => 0.5) [MissionTick; VesselTick; MissionTick]
      (initialHook 0%Z) 0%nat = Ok h' k'
    /\ length (missions (world h')) = 3%nat.
Proof.
  assert (H : forall j : nat, 0 <= (fun _ : nat => 0.5) j < 1)
    by (intros _; cbn beta; lra).
  split; [exact H |].
  destruct (X5_missions_over_any_run (fun _ => 0.5)
              [MissionTick; VesselTick; MissionTick] (initialHook 0%Z) 0%nat H)
    as (h' & k' & Hr & HF).
  exists h', k'. split; [exact Hr |].
  symmetry. exact (Forall2_length _ _ _ HF).
Defined.

(** ** Satellite data *)

Lemma IZR_floor3 (r : R) : 0 <= r < 1 -> 0 <= Math_floor (r * 3) <= 2.
Proof.
  intros Hr. destruct (Math_floor_range (r * 3) 0 3); lra.
Qed.

(** X6.  One satellite update with [Math.random()] in [0, 1), whatever the
    data before: the timestamp is the time of the call and the source is
    kept; coverage is at most 100 and moves by at most 1 (down only when it
    was above 100); the hotspot count is at least 0, at most 1 below and at
    most 1 above the old count or 0; the average concentration is at least
    0 and within 100 of the old one or 0. *)
Theorem X6_satellite_update_step
    (rnd : nat -> R) (now : Date) (s : SatelliteData.t) (k : nat) :
  (forall j, 0 <= rnd j < 1) ->
  exists s',
    updateSatelliteData rnd now s k = Ok s' (S (S (S k)))
    /\ SatelliteData.timestamp s' = now
    /\ SatelliteData.source s' = SatelliteData.source s
    /\ SatelliteData.coverage s' <= 100
    /\ SatelliteData.coverage s' < SatelliteData.coverage s + 1
    /\ (SatelliteData.coverage s <= 100 ->
        SatelliteData.coverage s - 1 <= SatelliteData.coverage s')
    /\ 0 <= SatelliteData.hotspotsDetected s'
    /\ SatelliteData.hotspotsDetected s - 1 <= SatelliteData.hotspotsDetected s'
    /\ SatelliteData.hotspotsDetected s'
       <= Rmax 0 (SatelliteData.hotspotsDetected s + 1)
    /\ 0 <= SatelliteData.avgConcentration s'
    /\ SatelliteData.avgConcentration s - 100 <= SatelliteData.avgConcentration s'
    /\ SatelliteData.avgConcentration s'
       <= Rmax 0 (SatelliteData.avgConcentration s + 100).
Proof.
  intros Hrnd. eexists. split; [apply updateSatelliteData_eq |].
  cbn [SatelliteData.timestamp SatelliteData.source SatelliteData.coverage
       SatelliteData.hotspotsDetected SatelliteData.avgConcentration].
  pose proof (Hrnd k) as H0. pose proof (Hrnd (S k)) as H1.
  pose proof (Hrnd (S (S k))) as H2.
  pose proof (IZR_floor3 _ H1) as Hf.
  set (c := SatelliteData.coverage s) in *.
  set (d := SatelliteData.hotspotsDetected s) in *.
  set (a := SatelliteData.avgConcentration s) in *.
  pose proof (Rmin_l 100 (c + (rnd k - 0.5) * 2)).
  pose proof (Rmin_r 100 (c + (rnd k - 0.5) * 2)).
  pose proof (Rmax_l 0 (d + Math_floor (rnd (S k) * 3) - 1)).
  pose proof (Rmax_r 0 (d + Math_floor (rnd (S k) * 3) - 1)).
  pose proof (Rmax_l 0 (a + (rnd (S (S k)) - 0.5) * 200)).
  pose proof (Rmax_r 0 (a + (rnd (S (S k)) - 0.5) * 200)).
  pose proof (Rmax_l 0 (d + 1)). pose proof (Rmax_r 0 (d + 1)).
  pose proof (Rmax_l 0 (a + 100)). pose proof (Rmax_r 0 (a + 100)).
  repeat split; try lra.
  - intros Hc. apply Rmin_glb; lra.
  - apply Rmax_lub; lra.
  - apply Rmax_lub; lra.
Qed.

Lemma X6_witness :
  (forall j : nat, 0 <= (fun _ : nat => 0.5) j < 1)
  /\ exists s',
    updateSatelliteData (fun _ => 0.5) 1000%Z
      (SatelliteData.mk 0%Z "NASA CYGNSS" 87.3 12 4500) 0%nat = Ok s' 3%nat
    /\ SatelliteData.coverage s' <= 100
    /\ 0 <= SatelliteData.hotspotsDetected s'.
Proof.
  assert (H : forall j : nat, 0 <= (fun _ : nat => 0.5) j < 1)
    by (intros _; cbn beta; lra).
  split; [exact H |].
  destruct (X6_satellite_update_step (fun _ => 0.5) 1000%Z
              (SatelliteData.mk 0%Z "NASA CYGNSS" 87.3 12 4500) 0%nat H)
    as (s' & Hu & _ & _ & Hc & _ & _ & Hd & _).
  exists s'. split; [exact Hu |]. split; [exact Hc | exact Hd].
Defined.

Lemma act_satellite rnd e h k h' k' :
  act rnd e h k = Ok h' k' ->
  satelliteData h' = satelliteData h
  \/ exists now j,
       updateSatelliteData rnd now (satelliteData h) j
       = Ok (satelliteData h') (S (S (S j))).
Proof.
  destruct e as [| | now | now | | clock now | |]; cbn [act]; intros H.
  - destruct (isSimulating h); [| left; by injection H as <- _].
    destruct (updateVesselPositions_ok rnd (world h) k) as (vs & k1 & Hu & _).
    unfold bind in H. rewrite Hu in H. injection H as <- _. by left.
  - destruct (isSimulating h); [| left; by injection H as <- _].
    destruct (updateMissionProgress_ok rnd (world h) k) as (ms & k1 & Hu & _).
    unfold bind in H. rewrite Hu in H. injection H as <- _. by left.
  - destruct (isSimulating h); [| left; by injection H as <- _].
    unfold bind in H. rewrite updateSatelliteData_eq in H.
    injection H as <- _. right. exists now, k. apply updateSatelliteData_eq.
  - left. destruct (isSimulating h); by injection H as <- _.
  - left. by injection H as <- _.
  - destruct (mockHotspots_ok rnd clock k) as (l & k1 & Hm & _).
    unfold simulateDataLoading, bind in H. rewrite Hm in H.
    injection H as <- _. by left.
  - left. by injection H as <- _.
  - left. by injection H as <- _.
Qed.

(** X7.  Over any run of events the satellite record keeps its source; a
    coverage of at most 100 stays at most 100, a hotspot count of at least
    0 stays at least 0 and an integer count stays an integer, and an
    average concentration of at least 0 stays at least 0. *)
Theorem X7_satellite_over_any_run
    (rnd : nat -> R) (es : list event) (h : Hook) (k : nat) :
  exists h' k',
    run rnd es h k = Ok h' k'
    /\ SatelliteData.source (satelliteData h')
       = SatelliteData.source (satelliteData h)
    /\ (SatelliteData.coverage (satelliteData h) <= 100 ->
        SatelliteData.coverage (satelliteData h') <= 100)
    /\ (0 <= SatelliteData.hotspotsDetected (satelliteData h) ->
        0 <= SatelliteData.hotspotsDetected (satelliteData h'))
    /\ (is_int (SatelliteData.hotspotsDetected (satelliteData h)) ->
        is_int (SatelliteData.hotspotsDetected (satelliteData h')))
    /\ (0 <= SatelliteData.avgConcentration (satelliteData h) ->
        0 <= SatelliteData.avgConcentration (satelliteData h')).
Proof.
  apply (run_rel rnd (fun h h' =>
    SatelliteData.source (satelliteData h')
    = SatelliteData.source (satelliteData h)
    /\ (SatelliteData.coverage (satelliteData h) <= 100 ->
        SatelliteData.coverage (satelliteData h') <= 100)
    /\ (0 <= SatelliteData.hotspotsDetected (satelliteData h) ->
        0 <= SatelliteData.hotspotsDetected (satelliteData h'))
    /\ (is_int (SatelliteData.hotspotsDetected (satelliteData h)) ->
        is_int (SatelliteData.hotspotsDetected (satelliteData h')))
    /\ (0 <= SatelliteData.avgConcentration (satelliteData h) ->
        0 <= SatelliteData.avgConcentration (satelliteData h')))).
  - intros a. tauto.
  - intros a b c (S1 & C1 & D1 & I1 & A1) (S2 & C2 & D2 & I2 & A2).
    split; [congruence |]. tauto.
  - intros e a j b j' Hact. apply act_satellite in Hact as [-> | (now & i & Hu)];
      [tauto |].
    rewrite updateSatelliteData_eq in Hu. injection Hu as <-.
    cbn [SatelliteData.source SatelliteData.coverage
         SatelliteData.hotspotsDetected SatelliteData.avgConcentration].
    split; [reflexivity |]. split; [intros _; apply Rmin_l |].
    split; [intros _; apply Rmax_l |]. split; [| intros _; apply Rmax_l].
    intros [z Hz]. rewrite Hz. unfold Math_floor.
    rewrite <- plus_IZR, <- minus_IZR.
    unfold Rmax. destruct (Rle_dec _ _); [eexists; reflexivity | by exists 0%Z].
Qed.

Lemma run_replicate_satellite now n : forall h k,
  isSimulating h = true ->
  SatelliteData.coverage (satelliteData h) <= 100 ->
  exists h' k',
    run (fun _ => 0) (replicate n (SatelliteTick now)) h k = Ok h' k'
    /\ isSimulating h' = true
    /\ SatelliteData.coverage (satelliteData h')
       = SatelliteData.coverage (satelliteData h) - INR n.
Proof.
  induction n as [|n IH]; intros h k Hsim Hc.
  - exists h, k. cbn [INR]. split; [reflexivity |]. split; [done | lra].
  - cbn [replicate run act]. rewrite Hsim. unfold bind at 1 2.
    rewrite updateSatelliteData_eq. unfold ret at 1.
    set (h1 := mkHook _ _ _ _ _ _ _).
    assert (Hc1 : SatelliteData.coverage (satelliteData h1)
                  = SatelliteData.coverage (satelliteData h) - 1).
    { subst h1. cbn [satelliteData SatelliteData.coverage].
      rewrite Rmin_right by lra. lra. }
    destruct (IH h1 (S (S (S k)))) as (h' & k' & Hr & Hs' & Hc');
      [done | lra |].
    exists h', k'. split; [exact Hr |]. split; [exact Hs' |].
    rewrite Hc', Hc1, S_INR. lra.
Qed.

(** X8.  Coverage has a cap and no floor: when every draw of
    [Math.random()] is 0, [n] satellite updates in a row take a coverage of
    at most 100 down by exactly [n], below 0 once [n] exceeds it. *)
Theorem X8_coverage_has_no_floor
    (now : Date) (n : nat) (h : Hook) (k : nat) :
  isSimulating h = true ->
  SatelliteData.coverage (satelliteData h) <= 100 ->
  exists h' k',
    run (fun _ => 0) (replicate n (SatelliteTick now)) h k = Ok h' k'
    /\ SatelliteData.coverage (satelliteData h')
       = SatelliteData.coverage (satelliteData h) - INR n
    /\ (SatelliteData.coverage (satelliteData h) < INR n ->
        SatelliteData.coverage (satelliteData h') < 0).
Proof.
  intros Hsim Hc.
  destruct (run_replicate_satellite now n h k Hsim Hc) as (h' & k' & Hr & _ & E).
  exists h', k'. split; [exact Hr |]. split; [exact E |]. lra.
Qed.

Lemma X8_witness :
  exists h' k',
    run (fun _ => 0) (replicate 88 (SatelliteTick 0%Z)) (initialHook 0%Z) 0%nat
      = Ok h' k'
    /\ SatelliteData.coverage (satelliteData h') < 0.
Proof.
  assert (Hc : SatelliteData.coverage (satelliteData (initialHook 0%Z)) <= 100)
    by (cbn; lra).
  destruct (X8_coverage_has_no_floor 0%Z 88 (initialHook 0%Z) 0%nat eq_refl Hc)
    as (h' & k' & Hr & _ & Hneg).
  exists h', k'. split; [exact Hr |]. apply Hneg.
  change (SatelliteData.coverage (satelliteData (initialHook 0%Z))) with 87.3.
  replace (INR 88) with 88 by (rewrite INR_IZR_INZ; reflexivity). lra.
Defined.

(** ** Collected plastic of a vessel *)

Lemma updateVessel_collected rnd w v k v' k' :
  (forall j, 0 <= rnd j < 1) ->
  updateVessel rnd w v k = Ok v' k' ->
  forall z, Vessel.plasticCollected v * 10 = IZR z ->
  exists z', Vessel.plasticCollected v' * 10 = IZR z'
             /\ (z <= z' <= z + 50)%Z.
Proof.
  intros Hrnd Hu z Hz. apply updateVessel_cases in Hu
    as [(_ & -> & _) | (_ & _ & i & t & H)].
  - exists z. split; [done | lia].
  - cbn zeta in H. destruct H as (_ & _ & _ & _ & ->).
    cbn [Vessel.plasticCollected]. pose proof (Hrnd k) as Hk.
    replace ((Vessel.plasticCollected v + rnd k * 5) * 10)
      with (IZR z + rnd k * 50) by lra.
    rewrite Math_round_IZR_plus. unfold Math_round.
    exists (z + Int_part (rnd k * 50 + / 2))%Z. rewrite plus_IZR.
    split; [lra |].
    destruct (Math_floor_range (rnd k * 50 + / 2) 0 51) as [H1 H2]; [lra |].
    unfold Math_floor in H1, H2.
    assert (0 <= Int_part (rnd k * 50 + / 2))%Z by (apply le_IZR; lra).
    assert (Int_part (rnd k * 50 + / 2) <= 50)%Z by (apply le_IZR; lra).
    lia.
Qed.

(** X9.  One tick of a vessel whose collected plastic is a whole number of
    tenths of a kilogram, with [Math.random()] in [0, 1): the new amount is
    again a whole number of tenths, not below the old amount and at most 5
    above it. *)
Theorem X9_vessel_collected_step
    (rnd : nat -> R) (w : World) (v : Vessel.t) (k : nat) (z : Z) :
  (forall j, 0 <= rnd j < 1) ->
  Vessel.plasticCollected v * 10 = IZR z ->
  exists v' k',
    updateVessel rnd w v k = Ok v' k'
    /\ is_int (Vessel.plasticCollected v' * 10)
    /\ Vessel.plasticCollected v <= Vessel.plasticCollected v'
       <= Vessel.plasticCollected v + 5.
Proof.
  intros Hrnd Hz. destruct (updateVessel_ok rnd w v k) as (v' & k' & Hu).
  exists v', k'. split; [exact Hu |].
  destruct (updateVessel_collected _ _ _ _ _ _ Hrnd Hu z Hz)
    as (z' & Hz' & Hle).
  split; [by exists z' |].
  assert (IZR z <= IZR z' <= IZR z + 50).
  { split; [apply IZR_le; lia |]. rewrite <- (plus_IZR z 50). apply IZR_le. lia. }
  lra.
Qed.

Lemma X9_witness :
  (forall j : nat, 0 <= (fun _ : nat => 0.5) j < 1)
  /\ Vessel.plasticCollected vessel_001 * 10 = IZR 12500
  /\ exists v' k',
    updateVessel (fun _ => 0.5) (initialWorld 0%Z) vessel_001 0%nat = Ok v' k'
    /\ is_int (Vessel.plasticCollected v' * 10)
    /\ Vessel.plasticCollected vessel_001 <= Vessel.plasticCollected v'
       <= Vessel.plasticCollected vessel_001 + 5.
Proof.
  assert (H : forall j : nat, 0 <= (fun _ : nat => 0.5) j < 1)
    by (intros _; cbn beta; lra).
  assert (Hz : Vessel.plasticCollected vessel_001 * 10 = IZR 12500)
    by (cbn; lra).
  split; [exact H |]. split; [exact Hz |].
  exact (X9_vessel_collected_step (fun _ => 0.5) (initialWorld 0%Z)
           vessel_001 0%nat 12500%Z H Hz).
Defined.

(** The accumulators of the vessels over a run of events. *)
Lemma vessels_over_run
    (rnd : nat -> R) (es : list event) (h : Hook) (k : nat) :
  (forall j, 0 <= rnd j < 1) ->
  exists h' k',
    run rnd es h k = Ok h' k'
    /\ Forall2 (fun v v' =>
                  (is_int (Vessel.plasticCollected v * 10) ->
                   is_int (Vessel.plasticCollected v' * 10)
                   /\ Vessel.plasticCollected v <= Vessel.plasticCollected v')
                  /\ (0 <= Vessel.battery v ->
                      0 <= Vessel.battery v' <= Vessel.battery v))
         (vessels (world h)) (vessels (world h')).
Proof.
  intros Hrnd.
  set (P := fun v v' : Vessel.t =>
              (is_int (Vessel.plasticCollected v * 10) ->
               is_int (Vessel.plasticCollected v' * 10)
               /\ Vessel.plasticCollected v <= Vessel.plasticCollected v')
              /\ (0 <= Vessel.battery v ->
                  0 <= Vessel.battery v' <= Vessel.battery v)).
  assert (Prefl : forall v, P v v) by (intros v; unfold P; split; intros; lra || (split; [done | lra])).
  apply (run_rel rnd (fun h h' =>
           Forall2 P (vessels (world h)) (vessels (world h')))).
  - intros a. by apply Forall2_diag.
  - intros a b c F1 F2. eapply Forall2_chain; [| exact F1 | exact F2].
    unfold P. intros x y z [C1 B1] [C2 B2]. split.
    + intros Hi. destruct (C1 Hi) as [Hi1 Hle1].
      destruct (C2 Hi1) as [Hi2 Hle2]. split; [done | lra].
    + intros Hb. destruct (B1 Hb) as [Hb1 Hle1].
      destruct (B2 Hb1) as [Hb2 Hle2]. lra.
  - intros e a j b j' Hact. apply act_world in Hact. cbn zeta in Hact.
    destruct Hact as [-> | [(vs & -> & HF) | [(ms & -> & _) | [-> | H]]]];
      try (by apply Forall2_diag).
    + cbn [vessels]. eapply Forall2_impl; [exact HF |].
      intros v v' (k1 & k2 & Hu). unfold P. split.
      * intros [z Hz].
        destruct (updateVessel_collected _ _ _ _ _ _ Hrnd Hu z Hz)
          as (z' & Hz' & Hle).
        split; [by exists z' |].
        assert (IZR z <= IZR z') by (apply IZR_le; lia). lra.
      * intros Hb. eapply vsteps_battery; [exact Hrnd | | exact Hb].
        econstructor; [exact Hu | constructor].
    + cbn [resetVesselTrails vessels]. apply Forall2_fmap_diag.
      intros v. apply (Prefl v).
    + destruct H as (clock & k1 & k2 & l & _ & ->). by apply Forall2_diag.
Qed.

(** X10.  Over any run of events with [Math.random()] in [0, 1), a vessel
    whose battery is at least 0 and whose collected plastic is a whole
    number of tenths never loses collected plastic and never gains
    battery, and the battery stays at least 0. *)
Theorem X10_vessel_accumulators_over_any_run
    (rnd : nat -> R) (es : list event) (h : Hook) (k : nat) :
  (forall j, 0 <= rnd j < 1) ->
  exists h' k',
    run rnd es h k = Ok h' k'
    /\ Forall2 (fun v v' =>
                  (is_int (Vessel.plasticCollected v * 10) ->
                   is_int (Vessel.plasticCollected v' * 10)
                   /\ Vessel.plasticCollected v <= Vessel.plasticCollected v')
                  /\ (0 <= Vessel.battery v ->
                      0 <= Vessel.battery v' <= Vessel.battery v))
         (vessels (world h)) (vessels (world h')).
Proof.
  intros Hrnd.
  destruct (vessels_over_run rnd es h k Hrnd) as (h' & k' & Hr & HF).
  exists h', k'. split; [exact Hr | exact HF].
Qed.

Lemma X10_witness :
  (forall j : nat, 0 <= (fun _ : nat => 0.5) j < 1)
  /\ exists h' k',
    run (fun _ => 0.5) [VesselTick; ResetTrails; VesselTick]
      (initialHook 0%Z) 0%nat = Ok h' k'
    /\ length (vessels (world h')) = 5%nat.
Proof.
  assert (H : forall j : nat, 0 <= (fun _ : nat => 0.5) j < 1)
    by (intros _; cbn beta; lra).
  split; [exact H |].
  destruct (X10_vessel_accumulators_over_any_run (fun _ => 0.5)
              [VesselTick; ResetTrails; VesselTick] (initialHook 0%Z) 0%nat H)
    as (h' & k' & Hr & HF).
  exists h', k'. split; [exact Hr |].
  symmetry. exact (Forall2_length _ _ _ HF).
Defined.

(** ** Pausing *)

Lemma run_paused rnd es : forall h k,
  isSimulating h = false ->
  forallb is_interval es = true ->
  run rnd es h k = Ok h k.
Proof.
  induction es as [|e es IH]; intros h k Hs Hes; [reflexivity |].
  cbn [forallb] in Hes. apply andb_true_iff in Hes as [He Hes].
  cbn [run]. unfold bind.
  assert (Ha : act rnd e h k = Ok h k)
    by (destruct e; try discriminate; cbn [act]; by rewrite Hs).
  rewrite Ha. by apply IH.
Qed.

Lemma run_app rnd es1 es2 h k :
  run rnd (es1 ++ es2) h k = (h1 <- run rnd es1 h ;; run rnd es2 h1) k.
Proof.
  revert h k. induction es1 as [|e es1 IH]; intros h k; [reflexivity |].
  cbn [app run]. unfold bind.
  destruct (act rnd e h k) as [h1 k1|]; [| reflexivity].
  rewrite IH. reflexivity.
Qed.

(** X11.  Pause and resume: a stop, then any firings of the four intervals,
    then a start, leave the hook in the state a start alone gives and read
    no random number; vessels, missions, satellite data and the
    last-update time are as they were at the stop. *)
Theorem X11_pause_then_resume
    (rnd : nat -> R) (es : list event) (h : Hook) (k : nat) :
  forallb is_interval es = true ->
  run rnd (StopSimulation :: es ++ [StartSimulation]) h k
  = run rnd [StartSimulation] h k
  /\ run rnd [StartSimulation] h k
     = Ok (mkHook (world h) (satelliteData h) (isLoading h) (error h)
             (lastUpdate h) true (sarEnabled h)) k.
Proof.
  intros Hes. split; [| reflexivity].
  cbn [run act]. unfold bind at 1. unfold ret at 1.
  rewrite run_app. unfold bind at 1.
  rewrite run_paused by done. reflexivity.
Qed.

Lemma X11_witness :
  run (fun _ => 0.5)
    (StopSimulation
       :: [VesselTick; MissionTick; SatelliteTick 5%Z; ClockTick 5%Z; VesselTick]
       ++ [StartSimulation]) (initialHook 0%Z) 0%nat
  = run (fun _ => 0.5) [StartSimulation] (initialHook 0%Z) 0%nat.
Proof.
  exact (proj1 (X11_pause_then_resume (fun _ => 0.5)
                  [VesselTick; MissionTick; SatelliteTick 5%Z; ClockTick 5%Z;
                   VesselTick] (initialHook 0%Z) 0%nat eq_refl)).
Defined.

(** ** Mock data loading *)

Lemma Date_of_range (x : R) (a b : Z) :
  IZR a <= x <= IZR b -> (a <= Date_of x <= b)%Z.
Proof.
  intros [Ha Hb]. unfold Date_of. destruct (Rle_dec 0 x) as [H0 | H0].
  - destruct (base_Int_part x) as [H1 H2]. split.
    + apply Z.lt_succ_r. apply lt_IZR. rewrite succ_IZR. lra.
    + apply le_IZR. lra.
  - destruct (base_Int_part (- x)) as [H1 H2]. split.
    + apply le_IZR. rewrite opp_IZR. lra.
    + assert (- b - 1 < Int_part (- x))%Z; [| lia].
      apply lt_IZR. rewrite minus_IZR, opp_IZR. lra.
Qed.

Lemma mockSeverity_defined (r : R) :
  0 <= r < 1 -> exists s, mockSeverity r = Some s.
Proof.
  intros Hr. unfold mockSeverity.
  destruct (Math_floor_range (r * 4) 0 4) as [H1 H2]; [lra |].
  unfold Math_floor in H1, H2.
  assert (Hlo : (0 <= Int_part (r * 4))%Z) by (apply le_IZR; lra).
  assert (Hhi : (Int_part (r * 4) <= 3)%Z) by (apply le_IZR; lra).
  destruct (Z.ltb_spec (Int_part (r * 4)) 0); [lia |].
  apply lookup_lt_is_Some. cbn [length]. lia.
Qed.

Lemma mockHotspot_spec rnd now i k :
  (forall j, 0 <= rnd j < 1) ->
  exists a,
    mockHotspot rnd now i k = Ok a (k + 10)%nat
    /\ PlasticHotspot.id a = "hotspot-" +:+ pretty (i + 1)%nat
    /\ mockSeverity (rnd (k + 3)%nat) = Some (PlasticHotspot.severity a)
    /\ mock_ok now a.
Proof.
  intros Hrnd. eexists. split.
  { unfold mockHotspot, bind, Math_random, ret.
    replace (k + 10)%nat with (S (S (S (S (S (S (S (S (S (S k))))))))))
      by lia.
    reflexivity. }
  split; [reflexivity |]. split.
  - cbn [PlasticHotspot.severity].
    replace (k + 3)%nat with (S (S (S k))) by lia.
    destruct (mockSeverity_defined (rnd (S (S (S k)))) (Hrnd _)) as [s ->].
    reflexivity.
  - unfold mock_ok.
    cbn [PlasticHotspot.lat PlasticHotspot.lng PlasticHotspot.concentration
         PlasticHotspot.area PlasticHotspot.detectedAt
         PlasticHotspot.nasaMetadata].
    pose proof (Hrnd k). pose proof (Hrnd (S k)).
    pose proof (Hrnd (S (S k))) as Hc. pose proof (Hrnd (S (S (S (S k))))) as Ha.
    pose proof (Hrnd (S (S (S (S (S k)))))) as Ht.
    pose proof (Hrnd (S (S (S (S (S (S (S (S (S k)))))))))) as Hf.
    destruct (Math_floor_range (rnd (S (S k)) * 5000) 0 5000); [lra |].
    destruct (Math_floor_range (rnd (S (S (S (S k)))) * 50) 0 50); [lra |].
    destruct (Math_floor_range
                (rnd (S (S (S (S (S (S (S (S (S k))))))))) * 20) 0 20); [lra |].
    split; [lra |]. split; [lra |].
    split; [unfold Math_floor; rewrite <- plus_IZR; by eexists |].
    split; [lra |].
    split; [unfold Math_floor; rewrite <- plus_IZR; by eexists |].
    split; [lra |]. split.
    + apply Date_of_range. rewrite minus_IZR. lra.
    + eexists. split; [reflexivity |]. cbn [NasaMetadata.confidence]. lra.
Qed.

Lemma Array_from_spec {A} (f : nat -> M A) (P : nat -> nat -> A -> Prop)
    (c : nat) (n : nat) :
  (forall i k, exists a, f i k = Ok a (k + c)%nat /\ P i k a) ->
  forall i k, exists l,
    Array_from f i n k = Ok l (k + n * c)%nat
    /\ length l = n
    /\ forall j a, l !! j = Some a -> P (i + j)%nat (k + j * c)%nat a.
Proof.
  intros Hf. induction n as [|n IH]; intros i k.
  - exists []. cbn [Array_from]. unfold ret.
    replace (k + 0 * c)%nat with k by lia.
    repeat split. intros j a Hj. discriminate.
  - destruct (Hf i k) as (a & Ha & HP).
    destruct (IH (S i) (k + c)%nat) as (l & Hl & Hlen & Hall).
    exists (a :: l). cbn [Array_from]. unfold bind. rewrite Ha, Hl.
    unfold ret. split; [f_equal; lia |]. split; [by cbn; rewrite Hlen |].
    intros [|j] b Hb.
    + injection Hb as <-. replace (i + 0)%nat with i by lia.
      by replace (k + 0 * c)%nat with k by lia.
    + apply Hall in Hb.
      replace (i + S j)%nat with (S i + j)%nat by lia.
      by replace (k + S j * c)%nat with (k + c + j * c)%nat by lia.
Qed.

Lemma mockHotspots_spec rnd clock k :
  (forall j, 0 <= rnd j < 1) ->
  exists l,
    mockHotspots rnd clock k = Ok l (k + 80)%nat
    /\ length l = 8%nat
    /\ forall j a, l !! j = Some a ->
         PlasticHotspot.id a = "hotspot-" +:+ pretty (j + 1)%nat
         /\ mockSeverity (rnd (k + j * 10 + 3)%nat)
            = Some (PlasticHotspot.severity a)
         /\ mock_ok (clock j) a.
Proof.
  intros Hrnd.
  destruct (Array_from_spec (fun i => mockHotspot rnd (clock i) i)
              (fun i k a =>
                 PlasticHotspot.id a = "hotspot-" +:+ pretty (i + 1)%nat
                 /\ mockSeverity (rnd (k + 3)%nat)
                    = Some (PlasticHotspot.severity a)
                 /\ mock_ok (clock i) a) 10 8)
    with (i := 0%nat) (k := k) as (l & Hl & Hlen & Hall).
  - intros i j. by apply mockHotspot_spec.
  - exists l. split; [exact Hl |]. split; [exact Hlen |]. exact Hall.
Qed.

(** X12.  [simulateDataLoading] with [Math.random()] in [0, 1) reads 80
    random numbers and ends with isLoading false, no error, the last-update
    time set, and vessels, missions and satellite data as before; the
    hotspot list is replaced by 8 hotspots with the ids hotspot-1 to
    hotspot-8, each with a severity read inside the 4-entry table, within
    0.05 degrees of (25.7617, -80.1918), with an integer concentration in
    1000..5999, an integer area in 10..59, a detection time within the 24
    hours before its clock reading, and a confidence in 80..99. *)
Theorem X12_mock_data_loading
    (rnd : nat -> R) (clock : nat -> Date) (now : Date) (h : Hook) (k : nat) :
  (forall j, 0 <= rnd j < 1) ->
  exists h',
    simulateDataLoading rnd clock now h k = Ok h' (k + 80)%nat
    /\ isLoading h' = false /\ error h' = None /\ lastUpdate h' = now
    /\ isSimulating h' = isSimulating h
    /\ satelliteData h' = satelliteData h
    /\ vessels (world h') = vessels (world h)
    /\ missions (world h') = missions (world h)
    /\ PlasticHotspot.id <$> plasticHotspots (world h')
       = ["hotspot-1"; "hotspot-2"; "hotspot-3"; "hotspot-4";
          "hotspot-5"; "hotspot-6"; "hotspot-7"; "hotspot-8"]
    /\ forall j a, plasticHotspots (world h') !! j = Some a ->
         mockSeverity (rnd (k + j * 10 + 3)%nat)
         = Some (PlasticHotspot.severity a)
         /\ mock_ok (clock j) a.
Proof.
  intros Hrnd.
  destruct (mockHotspots_spec rnd clock k Hrnd) as (l & Hl & Hlen & Hall).
  eexists. split.
  { unfold simulateDataLoading, bind. rewrite Hl. reflexivity. }
  cbn [isLoading error lastUpdate isSimulating satelliteData world
       vessels missions plasticHotspots].
  do 7 (split; [reflexivity |]). split.
  - apply list_eq. intros j. rewrite list_lookup_fmap.
    destruct (l !! j) as [a|] eqn:Hj.
    + destruct (Hall j a Hj) as (Hid & _). cbn [fmap option_fmap option_map].
      rewrite Hid.
      assert (j < 8)%nat by (rewrite <- Hlen; by eapply lookup_lt_Some).
      do 8 (destruct j as [|j]; [reflexivity |]). lia.
    + apply lookup_ge_None in Hj. rewrite Hlen in Hj.
      cbn [fmap option_fmap option_map]. symmetry. apply lookup_ge_None.
      cbn [length]. lia.
  - intros j a Hj. destruct (Hall j a Hj) as (_ & Hs & Hok). by split.
Qed.

Lemma X12_witness :
  (forall j : nat, 0 <= (fun _ : nat => 0.5) j < 1)
  /\ exists h',
    simulateDataLoading (fun _ => 0.5) (fun _ => 1000%Z) 1000%Z
      (initialHook 0%Z) 0%nat = Ok h' 80%nat
    /\ PlasticHotspot.id <$> plasticHotspots (world h')
       = ["hotspot-1"; "hotspot-2"; "hotspot-3"; "hotspot-4";
          "hotspot-5"; "hotspot-6"; "hotspot-7"; "hotspot-8"].
Proof.
  assert (H : forall j : nat, 0 <= (fun _ : nat => 0.5) j < 1)
    by (intros _; cbn beta; lra).
  split; [exact H |].
  destruct (X12_mock_data_loading (fun _ => 0.5) (fun _ => 1000%Z) 1000%Z
              (initialHook 0%Z) 0%nat H)
    as (h' & Hu & _ & _ & _ & _ & _ & _ & _ & Hids & _).
  exists h'. split; [exact Hu | exact Hids].
Defined.

Lemma nearest_length hs lat lng :
  length (nearest hs lat lng) = Nat.min 3 (length hs).
Proof.
  unfold nearest. rewrite length_fmap, length_take.
  rewrite (Array_sort_perm snd). by rewrite length_fmap.
Qed.

Lemma nearest_from_hotspots hs lat lng p :
  p ∈ nearest hs lat lng ->
  exists h, h ∈ hs /\ Waypoint.lat p = PlasticHotspot.lat h
            /\ Waypoint.lng p = PlasticHotspot.lng h
            /\ Waypoint.completed p = Some false.
Proof.
  unfold nearest. intros Hp.
  apply list_elem_of_fmap in Hp as ([h d] & -> & Hx).
  pose proof (elem_of_sublist _ _ _ Hx (sublist_take _ 3)) as Hx'.
  rewrite (Array_sort_perm snd) in Hx'.
  apply list_elem_of_fmap in Hx' as (h' & E & Hh'). injection E as -> _.
  exists h'. by cbn.
Qed.

(** X13.  After [simulateDataLoading] with [Math.random()] in [0, 1), a
    vessel that has to plan gets exactly 3 waypoints, none completed, each
    within 0.05 degrees of (25.7617, -80.1918), wherever the vessel is. *)
Theorem X13_plans_after_data_loading
    (rnd : nat -> R) (clock : nat -> Date) (now : Date) (h : Hook) (k : nat)
    (v : Vessel.t) :
  (forall j, 0 <= rnd j < 1) ->
  ~ has_incomplete (default [] (Vessel.plan v)) ->
  exists h' k',
    simulateDataLoading rnd clock now h k = Ok h' k'
    /\ length (nextPlan (plasticHotspots (world h')) v) = 3%nat
    /\ Forall (fun p =>
                 25.7117 <= Waypoint.lat p < 25.8117
                 /\ -80.2418 <= Waypoint.lng p < -80.1418
                 /\ Waypoint.completed p = Some false)
         (nextPlan (plasticHotspots (world h')) v).
Proof.
  intros Hrnd Hno.
  destruct (mockHotspots_spec rnd clock k Hrnd) as (l & Hl & Hlen & Hall).
  eexists _, _. split.
  { unfold simulateDataLoading, bind. rewrite Hl. reflexivity. }
  cbn [world plasticHotspots].
  rewrite nextPlan_fresh by assumption.
  pose proof (nearest_length l (Vessel.lat v) (Vessel.lng v)) as Hn.
  rewrite Hlen in Hn. cbn in Hn.
  destruct (nearest l (Vessel.lat v) (Vessel.lng v)) as [|p ps] eqn:E;
    [discriminate |].
  split; [exact Hn |]. rewrite <- E.
  apply Forall_forall. intros q Hq.
  apply nearest_from_hotspots in Hq as (a & Ha & -> & -> & Hc).
  apply list_elem_of_lookup in Ha as [j Hj].
  destruct (Hall j a Hj) as (_ & _ & Hlat & Hlng & _). done.
Qed.

Lemma X13_witness :
  (forall j : nat, 0 <= (fun _ : nat => 0.5) j < 1)
  /\ exists h' k',
    simulateDataLoading (fun _ => 0.5) (fun _ => 1000%Z) 1000%Z
      (initialHook 0%Z) 0%nat = Ok h' k'
    /\ length (nextPlan (plasticHotspots (world h')) vessel_001) = 3%nat.
Proof.
  assert (H : forall j : nat, 0 <= (fun _ : nat => 0.5) j < 1)
    by (intros _; cbn beta; lra).
  assert (Hno : ~ has_incomplete (default [] (Vessel.plan vessel_001))).
  { intros (p & Hp & _). cbn in Hp. by apply not_elem_of_nil in Hp. }
  split; [exact H |].
  destruct (X13_plans_after_data_loading (fun _ => 0.5) (fun _ => 1000%Z)
              1000%Z (initialHook 0%Z) 0%nat vessel_001 H Hno)
    as (h' & k' & Hu & Hlen & _).
  exists h', k'. split; [exact Hu | exact Hlen].
Defined.

(** ** The panels *)

(** X14.  The vessels the tick moves are the active vessels that the
    missions panel lists under some active mission: for a vessel of the
    fleet the guard lets it through exactly when its status is active and
    [getMissionVessels] returns it for the vessel list of a mission whose
    status is active. *)
Theorem X14_moved_iff_listed_under_active_mission
    (w : World) (v : Vessel.t) :
  v ∈ vessels w ->
  (skipped w v = false
   <-> Vessel.status v = active
       /\ exists m, m ∈ missions w /\ Mission.status m = m_active
            /\ v ∈ getMissionVessels (vessels w) (Mission.vessels m)).
Proof.
  intros Hv. unfold skipped, getMissionVessels.
  rewrite orb_false_iff, !negb_false_iff, !bool_decide_eq_true.
  rewrite elem_of_activeAssigned. split.
  - intros [Hs (m & Hm & Ha & Hin)]. split; [done |].
    exists m. split; [done |]. split; [done |].
    apply list_elem_of_filter. by split.
  - intros [Hs (m & Hm & Ha & Hin)]. split; [done |].
    exists m. split; [done |]. split; [done |].
    apply list_elem_of_filter in Hin. tauto.
Qed.

Lemma X14_witness :
  vessel_001 ∈ vessels (initialWorld 0%Z)
  /\ (skipped (initialWorld 0%Z) vessel_001 = false
      <-> Vessel.status vessel_001 = active
          /\ exists m, m ∈ missions (initialWorld 0%Z)
               /\ Mission.status m = m_active
               /\ vessel_001 ∈ getMissionVessels (vessels (initialWorld 0%Z))
                                 (Mission.vessels m)).
Proof.
  assert (H : vessel_001 ∈ vessels (initialWorld 0%Z)) by left.
  split; [exact H |].
  exact (X14_moved_iff_listed_under_active_mission (initialWorld 0%Z)
           vessel_001 H).
Defined.

Lemma filter_status_same (l l' : list Vessel.t) :
  Forall2 (fun v v' => Vessel.status v' = Vessel.status v) l l' ->
  length (filter (fun v => Vessel.status v = active) l')
  = length (filter (fun v => Vessel.status v = active) l).
Proof.
  induction 1 as [| v v' l l' Hs HF IH]; [done |].
  rewrite !filter_cons. rewrite Hs.
  destruct (decide (Vessel.status v = active)); cbn [length]; by rewrite IH.
Qed.

(** X15.  Over any run of events the missions panel shows the same vessels
    under every list of ids, in the same order (their ids and statuses are
    those at the start), and the analytics panel counts the same number of
    active vessels. *)
Theorem X15_panel_membership_over_any_run
    (rnd : nat -> R) (es : list event) (h : Hook) (k : nat)
    (ids : list string) :
  exists h' k',
    run rnd es h k = Ok h' k'
    /\ Forall2 (fun v v' => Vessel.id v' = Vessel.id v
                            /\ Vessel.status v' = Vessel.status v)
         (getMissionVessels (vessels (world h)) ids)
         (getMissionVessels (vessels (world h')) ids)
    /\ activeVessels (vessels (world h')) = activeVessels (vessels (world h)).
Proof.
  destruct (guard_over_run rnd es h k) as (h' & k' & Hr & HF).
  exists h', k'. split; [exact Hr |]. split.
  - unfold getMissionVessels.
    clear -HF. induction HF as [| v v' l l' [Hid Hs] HF IH]; [constructor |].
    rewrite !filter_cons. rewrite Hid.
    destruct (decide (Vessel.id v ∈ ids)); [by constructor | exact IH].
  - unfold activeVessels. apply filter_status_same.
    eapply Forall2_impl; [exact HF |]. cbn beta. tauto.
Qed.

Lemma Math_floor_mono (x y : R) : x <= y -> Math_floor x <= Math_floor y.
Proof.
  intros Hxy. unfold Math_floor.
  destruct (base_Int_part x) as [Hx1 Hx2]. destruct (base_Int_part y) as [Hy1 Hy2].
  apply IZR_le. apply Z.lt_succ_r. apply lt_IZR. rewrite succ_IZR. lra.
Qed.

Lemma Math_round_mono (x y : R) : x <= y -> Math_round x <= Math_round y.
Proof. intros Hxy. apply (Math_floor_mono (x + / 2) (y + / 2)). lra. Qed.

Lemma Math_round_IZR (z : Z) : Math_round (IZR z) = IZR z.
Proof.
  unfold Math_round. f_equal. symmetry. apply Int_part_spec. lra.
Qed.

Lemma getMissionProgress_mono m m' :
  0 < Mission.plasticTarget m ->
  Mission.plasticTarget m' = Mission.plasticTarget m ->
  Mission.plasticCollected m <= Mission.plasticCollected m' ->
  getMissionProgress m <= getMissionProgress m'.
Proof.
  intros Ht Heq Hle. unfold getMissionProgress. rewrite Heq.
  apply Math_round_mono.
  assert (0 < / Mission.plasticTarget m) by (by apply Rinv_0_lt_compat).
  unfold Rdiv. nra.
Qed.

Lemma getMissionProgress_overshoot m :
  0 < Mission.plasticTarget m ->
  1.01 * Mission.plasticTarget m <= Mission.plasticCollected m ->
  101 <= getMissionProgress m.
Proof.
  intros Ht Hc. unfold getMissionProgress.
  rewrite <- (Math_round_IZR 101). apply Math_round_mono.
  assert (0 < / Mission.plasticTarget m) by (by apply Rinv_0_lt_compat).
  assert (Mission.plasticTarget m * / Mission.plasticTarget m = 1)
    by (apply Rinv_r; lra).
  unfold Rdiv. nra.
Qed.

(** X16.  Over any run of events with [Math.random()] in [0, 1), the
    progress the missions panel shows for a mission with a positive target
    and an integer amount collected never goes down; and the panel does not
    cap it: a mission whose collected plastic is at least 1.01 times its
    target shows at least 101. *)
Theorem X16_mission_progress_never_drops
    (rnd : nat -> R) (es : list event) (h : Hook) (k : nat) :
  (forall j, 0 <= rnd j < 1) ->
  (exists h' k',
     run rnd es h k = Ok h' k'
     /\ Forall2 (fun m m' =>
                   0 < Mission.plasticTarget m ->
                   is_int (Mission.plasticCollected m) ->
                   getMissionProgress m <= getMissionProgress m')
          (missions (world h)) (missions (world h')))
  /\ forall m, 0 < Mission.plasticTarget m ->
       1.01 * Mission.plasticTarget m <= Mission.plasticCollected m ->
       101 <= getMissionProgress m.
Proof.
  intros Hrnd. split.
  - destruct (missions_over_run rnd es h k Hrnd) as (h' & k' & Hr & HF).
    exists h', k'. split; [exact Hr |].
    eapply Forall2_impl; [exact HF |].
    intros m m' (Hk & _ & Hc & _) Ht [z Hz].
    destruct (Hc z Hz) as (z' & Hz' & Hle).
    apply getMissionProgress_mono; [done | tauto |].
    rewrite Hz, Hz'. by apply IZR_le.
  - intros m Ht Hc. by apply getMissionProgress_overshoot.
Qed.

Lemma X16_witness :
  (forall j : nat, 0 <= (fun _ : nat => 0.5) j < 1)
  /\ exists h' k',
    run (fun _ => 0.5) [MissionTick; MissionTick] (initialHook 0%Z) 0%nat
      = Ok h' k'
    /\ length (missions (world h')) = 3%nat.
Proof.
  assert (H : forall j : nat, 0 <= (fun _ : nat => 0.5) j < 1)
    by (intros _; cbn beta; lra).
  split; [exact H |].
  destruct (X16_mission_progress_never_drops (fun _ => 0.5)
              [MissionTick; MissionTick] (initialHook 0%Z) 0%nat H)
    as ((h' & k' & Hr & HF) & _).
  exists h', k'. split; [exact Hr |].
  symmetry. exact (Forall2_length _ _ _ HF).
Defined.

Lemma updateMission_half m k :
  Mission.status m = m_active ->
  forall z, Mission.plasticCollected m = IZR z ->
  exists m', updateMission (fun _ => 0.5) m k = Ok m' (S (S k))
    /\ Mission.status m' = m_active
    /\ Mission.plasticTarget m' = Mission.plasticTarget m
    /\ Mission.plasticCollected m' = IZR (z + 25).
Proof.
  intros Ha z Hz.
  destruct (updateMission_ok (fun _ => 0.5) m k) as (m' & k' & Hu).
  pose proof Hu as Hu'.
  apply updateMission_cases in Hu' as [(Hna & _) | (_ & -> & Hm')];
    [contradiction |].
  exists m'. split; [exact Hu |]. rewrite Hm'.
  cbn [Mission.status Mission.plasticTarget Mission.plasticCollected].
  split; [exact Ha |]. split; [reflexivity |].
  rewrite Hz. replace (IZR z + 0.5 * 50) with (IZR (z + 25))
    by (rewrite plus_IZR; lra).
  unfold Math_floor. f_equal. symmetry. apply Int_part_spec. lra.
Qed.

Lemma run_mission_ticks_half n : forall h k i m z,
  isSimulating h = true ->
  missions (world h) !! i = Some m ->
  Mission.status m = m_active ->
  Mission.plasticCollected m = IZR z ->
  exists h' k' m',
    run (fun _ => 0.5) (replicate n MissionTick) h k = Ok h' k'
    /\ missions (world h') !! i = Some m'
    /\ Mission.status m' = m_active
    /\ Mission.plasticTarget m' = Mission.plasticTarget m
    /\ Mission.plasticCollected m' = IZR (z + 25 * Z.of_nat n).
Proof.
  induction n as [|n IH]; intros h k i m z Hsim Hi Ha Hz.
  - exists h, k, m. split; [reflexivity |]. split; [done |]. split; [done |].
    split; [done |]. rewrite Hz. f_equal. lia.
  - destruct (updateMissionProgress_ok (fun _ => 0.5) (world h) k)
      as (ms & k1 & Hu & HF).
    destruct (Forall2_lookup_l _ _ _ _ _ HF Hi) as (m1 & Hm1 & j1 & j2 & Hstep).
    destruct (updateMission_half m j1 Ha z Hz) as (m1' & Hstep' & Ha1 & Ht1 & Hc1).
    rewrite Hstep in Hstep'. injection Hstep' as -> _.
    destruct (IH (with_world h (mkWorld (plasticHotspots (world h))
                                  (vessels (world h)) ms))
                k1 i m1' (z + 25)%Z) as (h' & k' & m' & Hr & Hi' & Ha' & Ht' & Hc');
      [done | done | done | done |].
    exists h', k', m'. split.
    + cbn [replicate run act]. rewrite Hsim. unfold bind at 1 2.
      rewrite Hu. exact Hr.
    + split; [done |]. split; [done |]. split; [congruence |].
      rewrite Hc'. f_equal. lia.
Qed.

(** X17.  Missions never finish: when every draw of [Math.random()] is
    1/2, [n] mission updates in a row add exactly 25 [n] to the integer
    amount collected of an active mission, which stays active with the same
    target, and once that amount reaches 1.01 times a positive target the
    missions panel shows a progress of at least 101. *)
Theorem X17_mission_progress_overshoots
    (n : nat) (h : Hook) (k i : nat) (m : Mission.t) (z : Z) :
  isSimulating h = true ->
  missions (world h) !! i = Some m ->
  Mission.status m = m_active ->
  Mission.plasticCollected m = IZR z ->
  exists h' k' m',
    run (fun _ => 0.5) (replicate n MissionTick) h k = Ok h' k'
    /\ missions (world h') !! i = Some m'
    /\ Mission.status m' = m_active
    /\ Mission.plasticCollected m' = IZR (z + 25 * Z.of_nat n)
    /\ (0 < Mission.plasticTarget m ->
        1.01 * Mission.plasticTarget m <= IZR (z + 25 * Z.of_nat n) ->
        101 <= getMissionProgress m').
Proof.
  intros Hsim Hi Ha Hz.
  destruct (run_mission_ticks_half n h k i m z Hsim Hi Ha Hz)
    as (h' & k' & m' & Hr & Hi' & Ha' & Ht' & Hc').
  exists h', k', m'. do 4 (split; [done |]).
  intros Ht Hge. apply getMissionProgress_overshoot; [by rewrite Ht' |].
  by rewrite Ht', Hc'.
Qed.

Lemma X17_witness :
  exists h' k' m',
    run (fun _ => 0.5) (replicate 200 MissionTick) (initialHook 0%Z) 0%nat
      = Ok h' k'
    /\ missions (world h') !! 0%nat = Some m'
    /\ Mission.plasticCollected m' = IZR 7140
    /\ 101 <= getMissionProgress m'.
Proof.
  destruct (X17_mission_progress_overshoots 200 (initialHook 0%Z) 0%nat 0%nat
              (Mission.mk "mission-001" "Pacific Garbage Patch Cleanup" m_active
                 ["vessel-001"; "vessel-002"; "vessel-005"] ["NASA-CYGNSS-001"]
                 (0 - 24 * 60 * 60 * 1000)%Z (0 + 48 * 60 * 60 * 1000)%Z
                 5000 2140 87.5) 2140%Z eq_refl eq_refl eq_refl eq_refl)
    as (h' & k' & m' & Hr & Hi & _ & Hc & Hp).
  exists h', k', m'. split; [exact Hr |]. split; [exact Hi |].
  split; [exact Hc |]. apply Hp; cbn [Mission.plasticTarget]; [lra |].
  change (2140 + 25 * Z.of_nat 200)%Z with 7140%Z. lra.
Defined.

Lemma foldl_sum_mono {A} (f : A -> R) (l l' : list A) : forall a a',
  a <= a' ->
  Forall2 (fun x x' => f x <= f x') l l' ->
  foldl (fun sum x => sum + f x) a l <= foldl (fun sum x => sum + f x) a' l'.
Proof.
  intros a a' Ha HF. revert a a' Ha.
  induction HF as [| x x' l l' Hx HF IH]; intros a a' Ha; cbn [foldl]; [done |].
  apply IH. lra.
Qed.

Lemma foldl_sum_le {A} (f : A -> R) (c : R) (l : list A) : forall a,
  Forall (fun x => f x <= c) l ->
  foldl (fun sum x => sum + f x) a l <= a + INR (length l) * c.
Proof.
  induction l as [|x l IH]; intros a HF; cbn [foldl length].
  - cbn [INR]. lra.
  - apply Forall_cons in HF as [Hx HF].
    specialize (IH (a + f x) HF). rewrite S_INR. lra.
Qed.

(** X18.  The analytics panel over any run of events with [Math.random()]
    in [0, 1): when every vessel's collected plastic is a whole number of
    tenths the total collected never goes down; the efficiency shown for a
    vessel with a battery between 0 and 100 stays between 0 and 90 and
    never goes up; and the average mission efficiency of a non-empty
    mission list whose efficiencies are at most 100 is at most 100. *)
Theorem X18_analytics_over_any_run
    (rnd : nat -> R) (es : list event) (h : Hook) (k : nat) :
  (forall j, 0 <= rnd j < 1) ->
  exists h' k',
    run rnd es h k = Ok h' k'
    /\ (Forall (fun v => is_int (Vessel.plasticCollected v * 10))
          (vessels (world h)) ->
        totalPlasticCollected (vessels (world h))
        <= totalPlasticCollected (vessels (world h')))
    /\ Forall2 (fun v v' =>
                  0 <= Vessel.battery v <= 100 ->
                  0 <= vesselEfficiency v' <= vesselEfficiency v
                  /\ vesselEfficiency v <= 90)
         (vessels (world h)) (vessels (world h'))
    /\ (missions (world h) <> [] ->
        Forall (fun m => Mission.efficiency m <= 100) (missions (world h)) ->
        avgEfficiency (missions (world h')) <= 100).
Proof.
  intros Hrnd.
  destruct (guard_over_run rnd es h k) as (h' & k' & Hr & HG).
  destruct (vessels_over_run rnd es h k Hrnd) as (h1 & k1 & Hr1 & HV).
  destruct (missions_over_run rnd es h k Hrnd) as (h2 & k2 & Hr2 & HM).
  rewrite Hr in Hr1, Hr2. injection Hr1 as <- <-. injection Hr2 as <- <-.
  exists h', k'. split; [exact Hr |]. split; [| split].
  - intros Hten. unfold totalPlasticCollected. apply foldl_sum_mono; [lra |].
    apply Forall2_same_length_lookup_2; [by eapply Forall2_length |].
    intros i v v' Hv Hv'.
    destruct (Forall2_lookup_l _ _ _ _ _ HV Hv) as (v2 & Hv2 & Hc & _).
    simplify_eq.
    by destruct (Hc (Forall_lookup_1 _ _ _ _ Hten Hv)).
  - apply Forall2_same_length_lookup_2; [by eapply Forall2_length |].
    intros i v v' Hv Hv' [Hb0 Hb100].
    destruct (Forall2_lookup_l _ _ _ _ _ HV Hv) as (v2 & Hv2 & _ & Hb).
    destruct (Forall2_lookup_l _ _ _ _ _ HG Hv) as (v3 & Hv3 & _ & Hs).
    simplify_eq. destruct (Hb Hb0) as [Hb' Hle].
    unfold vesselEfficiency. rewrite Hs.
    destruct (bool_decide (Vessel.status v = active)); [| lra].
    pose proof (Math_floor_mono (Vessel.battery v' * 0.9)
                  (Vessel.battery v * 0.9) ltac:(lra)).
    pose proof (Math_floor_mono 0 (Vessel.battery v' * 0.9) ltac:(lra)) as H0.
    pose proof (Math_floor_mono (Vessel.battery v * 0.9) 90 ltac:(lra)) as H90.
    assert (E0 : Math_floor 0 = 0)
      by (unfold Math_floor; f_equal; symmetry; apply Int_part_spec; lra).
    assert (E90 : Math_floor 90 = 90)
      by (unfold Math_floor; f_equal; symmetry; apply Int_part_spec; lra).
    lra.
  - intros Hne Heff. unfold avgEfficiency.
    assert (Hall : Forall (fun m => Mission.efficiency m <= 100)
                     (missions (world h'))).
    { apply Forall_lookup_2. intros i m' Hm'.
      destruct (Forall2_lookup_r _ _ _ _ _ HM Hm') as (m & Hm & _ & _ & _ & He).
      apply He. by eapply (Forall_lookup_1 _ _ _ _ Heff). }
    pose proof (foldl_sum_le Mission.efficiency 100 (missions (world h')) 0 Hall)
      as Hsum.
    assert (Hlen : 0 < INR (length (missions (world h')))).
    { apply lt_0_INR. rewrite <- (Forall2_length _ _ _ HM).
      destruct (missions (world h)); [done | cbn; lia]. }
    set (L := INR (length (missions (world h')))) in *.
    set (S0 := foldl _ 0 (missions (world h'))) in *.
    assert (0 < / L) by (by apply Rinv_0_lt_compat).
    assert (L * / L = 1) by (apply Rinv_r; lra).
    unfold Rdiv. nra.
Qed.

Lemma X18_witness :
  (forall j : nat, 0 <= (fun _ : nat => 0.5) j < 1)
  /\ exists h' k',
    run (fun _ => 0.5) [VesselTick; MissionTick] (initialHook 0%Z) 0%nat
      = Ok h' k'
    /\ avgEfficiency (missions (world h')) <= 100.
Proof.
  assert (H : forall j : nat, 0 <= (fun _ : nat => 0.5) j < 1)
    by (intros _; cbn beta; lra).
  split; [exact H |].
  destruct (X18_analytics_over_any_run (fun _ => 0.5)
              [VesselTick; MissionTick] (initialHook 0%Z) 0%nat H)
    as (h' & k' & Hr & _ & _ & Havg).
  exists h', k'. split; [exact Hr |]. apply Havg.
  - discriminate.
  - cbn. repeat constructor; cbn; lra.
Defined.

(** ** UTM and MGRS *)

Lemma Int_part_IZR (z : Z) : Int_part (IZR z) = z.
Proof. symmetry. apply Int_part_spec. lra. Qed.

Lemma Number_rem_6 (a : R) :
  (0 <= a -> 0 <= Number_rem a 6 < 6)
  /\ (a <= 0 -> -6 < Number_rem a 6 <= 0).
Proof.
  unfold Number_rem, Date_of. split; intros Ha.
  - destruct (Rle_dec 0 (a / 6)) as [H | H]; [| lra].
    destruct (base_Int_part (a / 6)). lra.
  - destruct (Rle_dec 0 (a / 6)) as [H | H].
    + assert (a = 0) by lra. subst a.
      replace (0 / 6) with (IZR 0) by lra. rewrite Int_part_IZR. lra.
    + rewrite opp_IZR. destruct (base_Int_part (- (a / 6))). lra.
Qed.

Lemma utmZone_range (lng : R) :
  -180 <= lng <= 180 ->
  exists z, (1 <= z <= 61)%Z /\ utmZone lng = IZR z
            /\ Number_toString (utmZone lng) = pretty z
            /\ (lng <= 179.999 -> (z <= 60)%Z)
            /\ (lng = 180 -> z = 61%Z).
Proof.
  intros Hl. unfold utmZone.
  destruct (Math_floor_range ((lng + 180) / 6) 0 61) as [H1 H2]; [lra |].
  unfold Math_floor in *.
  exists (Int_part ((lng + 180) / 6) + 1)%Z.
  assert (0 <= Int_part ((lng + 180) / 6))%Z by (apply le_IZR; lra).
  assert (Int_part ((lng + 180) / 6) <= 60)%Z by (apply le_IZR; lra).
  split; [lia |]. rewrite <- plus_IZR. split; [reflexivity |].
  split; [unfold Number_toString; by rewrite Int_part_IZR |].
  split.
  - intros Hin.
    destruct (Math_floor_range ((lng + 180) / 6) 0 60) as [_ H3]; [lra |].
    unfold Math_floor in H3.
    assert (Int_part ((lng + 180) / 6) <= 59)%Z by (apply le_IZR; lra).
    lia.
  - intros ->. replace ((180 + 180) / 6) with (IZR 60) by lra.
    by rewrite Int_part_IZR.
Qed.

(** X19.  [generateUTM] for a longitude in [-180, 180] and a latitude in
    [-90, 90]: the zone is the numeral of a number between 1 and 61
    followed by N for a latitude of at least 0 and S below; the number is
    at most 60 up to 179.999 degrees and it is 61, a zone that does not
    exist, at 180 degrees, the code having no wrap there; easting and
    northing are integers, the easting between 0 and 900000, at least
    300000 east of Greenwich and clamped to 0 where [lng % 6] is at most
    -3; the northing between 0 and 9900000. *)
Theorem X19_generateUTM_ranges (lat lng : R) :
  -180 <= lng <= 180 ->
  -90 <= lat <= 90 ->
  exists z easting northing,
    generateUTM lat lng
    = (pretty z +:+ (if Rle_dec 0 lat then "N" else "S"), easting, northing)
    /\ (1 <= z <= 61)%Z
    /\ (lng <= 179.999 -> (z <= 60)%Z)
    /\ (lng = 180 -> z = 61%Z)
    /\ is_int easting /\ 0 <= easting <= 900000
    /\ (0 <= lng -> 300000 <= easting)
    /\ (Number_rem lng 6 <= -3 -> easting = 0)
    /\ is_int northing /\ 0 <= northing <= 9900000.
Proof.
  intros Hlng Hlat.
  destruct (utmZone_range lng Hlng) as (z & Hz & _ & Hstr & Hin & Hend).
  exists z, (Rmax 0 (utmEasting lng)), (Rmax 0 (utmNorthing lat)).
  split; [unfold generateUTM; cbn zeta; by rewrite Hstr |].
  split; [exact Hz |]. split; [exact Hin |]. split; [exact Hend |].
  assert (Hmax_int : forall x, is_int x -> is_int (Rmax 0 x)).
  { intros x [y ->]. unfold Rmax.
    destruct (Rle_dec _ _); [by eexists | by exists 0%Z]. }
  assert (Hrem : -6 < Number_rem lng 6 < 6).
  { destruct (Number_rem_6 lng) as [Hp Hn].
    destruct (Rle_dec 0 lng) as [H | H]; [specialize (Hp H) | ]; [lra |].
    assert (lng <= 0) as H' by lra. specialize (Hn H'). lra. }
  destruct (Math_floor_range ((Number_rem lng 6 + 3) * 100000)
              (-300000) 900000) as [He1 He2]; [lra |].
  fold (utmEasting lng) in He1, He2.
  pose proof (Rmax_l 0 (utmEasting lng)).
  pose proof (Rmax_r 0 (utmEasting lng)).
  split; [apply Hmax_int; unfold utmEasting, Math_floor; by eexists |].
  split; [split; [lra | apply Rmax_lub; lra] |].
  split.
  { intros Hpos. destruct (Number_rem_6 lng) as [Hp _]. specialize (Hp Hpos).
    destruct (Math_floor_range ((Number_rem lng 6 + 3) * 100000)
                300000 900000) as [Hf _]; [lra |].
    fold (utmEasting lng) in Hf. lra. }
  split.
  { intros Hr. rewrite Rmax_left; [reflexivity |].
    pose proof (Math_floor_bounds ((Number_rem lng 6 + 3) * 100000)) as [Hb _].
    fold (utmEasting lng) in Hb. lra. }
  split; [apply Hmax_int; unfold utmNorthing, Math_floor; by eexists |].
  pose proof (Rmax_l 0 (utmNorthing lat)).
  split; [lra |]. apply Rmax_lub; [lra |]. unfold utmNorthing.
  destruct (Rle_dec 0 lat).
  - destruct (Math_floor_bounds (lat * 110000)). lra.
  - destruct (Math_floor_bounds ((lat + 90) * 110000)). lra.
Qed.

Lemma X19_witness :
  -180 <= -145.0 <= 180 /\ -90 <= 35.2 <= 90
  /\ exists z easting northing,
    generateUTM 35.2 (-145.0) = (pretty z +:+ "N", easting, northing)
    /\ (1 <= z <= 60)%Z /\ 0 <= easting <= 900000.
Proof.
  assert (H1 : -180 <= -145.0 <= 180) by lra.
  assert (H2 : -90 <= 35.2 <= 90) by lra.
  split; [exact H1 |]. split; [exact H2 |].
  destruct (X19_generateUTM_ranges 35.2 (-145.0) H1 H2)
    as (z & e & n & Hg & Hz & Hin & _ & _ & He & _).
  exists z, e, n. split; [| split; [| exact He]].
  - rewrite Hg. destruct (Rle_dec 0 35.2); [reflexivity | lra].
  - split; [apply Hz | apply Hin; lra].
Defined.

Lemma string_length_app (s1 s2 : string) :
  String.length (s1 +:+ s2) = (String.length s1 + String.length s2)%nat.
Proof.
  induction s1 as [|c s1 IH]; [reflexivity |].
  change (S (String.length (s1 +:+ s2))
          = S (String.length s1 + String.length s2)).
  by rewrite IH.
Qed.

Lemma string_repeat_length c n : String.length (string_repeat c n) = n.
Proof.
  induction n as [|n IH]; [reflexivity |].
  change (S (String.length (string_repeat c n)) = S n). by rewrite IH.
Qed.

Lemma padStart_length n c s :
  String.length (padStart n c s) = Nat.max n (String.length s).
Proof.
  unfold padStart. rewrite string_length_app, string_repeat_length. lia.
Qed.

Lemma pretty_negative (z : Z) :
  (z < 0)%Z -> exists d, pretty z = "-" +:+ d.
Proof.
  intros Hz. destruct z as [|p|p]; [lia | lia |].
  eexists. reflexivity.
Qed.

(** X20.  [generateMGRS] for a longitude in [-180, 180] and a latitude in
    [-90, 90]: the string is the numeral of the zone number [generateUTM]
    uses (1 to 61, at most 60 up to 179.999 degrees and 61 at 180
    degrees), one band letter between A and X (between C and W for
    latitudes from -80 to below 84), the square AA, and an easting and a
    northing of at least 5 characters each; where [lng % 6] is below -3
    the easting is a negative numeral, minus sign included, behind its
    zero padding. *)
Theorem X20_generateMGRS_shape (lat lng : R) :
  -180 <= lng <= 180 ->
  -90 <= lat <= 90 ->
  exists z b e n,
    generateMGRS lat lng = pretty z +:+ String b "" +:+ "AA" +:+ e +:+ n
    /\ (generateUTM lat lng).1.1
       = pretty z +:+ (if Rle_dec 0 lat then "N" else "S")
    /\ (1 <= z <= 61)%Z
    /\ (lng <= 179.999 -> (z <= 60)%Z)
    /\ (lng = 180 -> z = 61%Z)
    /\ (65 <= Ascii.nat_of_ascii b <= 88)%nat
    /\ (-80 <= lat < 84 -> (67 <= Ascii.nat_of_ascii b <= 87)%nat)
    /\ (5 <= String.length e)%nat /\ (5 <= String.length n)%nat
    /\ (Number_rem lng 6 < -3 ->
        exists j d, e = string_repeat char_0 j +:+ "-" +:+ d).
Proof.
  intros Hlng Hlat.
  destruct (utmZone_range lng Hlng) as (z & Hz & _ & Hstr & Hin & Hend).
  set (kb := Int_part ((lat + 80) / 8)).
  assert (Hkb : (-2 <= kb <= 21)%Z).
  { destruct (Math_floor_range ((lat + 80) / 8) (-2) 22) as [H1 H2]; [lra |].
    unfold Math_floor in H1, H2. fold kb in H1, H2.
    split; apply le_IZR; lra. }
  assert (Hcode : Int_part (67 + Math_floor ((lat + 80) / 8)) = (67 + kb)%Z).
  { unfold Math_floor. fold kb. rewrite <- plus_IZR. apply Int_part_IZR. }
  eexists z, _, _, _. split.
  { unfold generateMGRS. cbn zeta. fold (utmZone lng). rewrite Hstr.
    unfold String_fromCharCode. reflexivity. }
  split; [unfold generateUTM; cbn zeta; by rewrite Hstr |].
  split; [exact Hz |]. split; [exact Hin |]. split; [exact Hend |].
  rewrite Hcode.
  assert (Hnat : Ascii.nat_of_ascii (Ascii.ascii_of_nat (Z.to_nat (67 + kb)))
                 = Z.to_nat (67 + kb)).
  { apply Ascii.nat_ascii_embedding. lia. }
  rewrite Hnat. split; [lia |]. split.
  { intros Hl.
    destruct (Math_floor_range ((lat + 80) / 8) 0 21) as [H1 H2]; [lra |].
    unfold Math_floor in H1, H2. fold kb in H1, H2.
    assert (0 <= kb)%Z by (apply le_IZR; lra).
    assert (kb <= 20)%Z by (apply le_IZR; lra). lia. }
  split; [rewrite padStart_length; lia |].
  split; [rewrite padStart_length; lia |].
  intros Hneg.
  assert (Hlt : (Int_part (Math_floor ((Number_rem lng 6 + 3) * 100000)) < 0)%Z).
  { unfold Math_floor. rewrite Int_part_IZR. apply lt_IZR.
    destruct (base_Int_part ((Number_rem lng 6 + 3) * 100000)). lra. }
  destruct (pretty_negative _ Hlt) as (d & Hd).
  unfold padStart, Number_toString. rewrite Hd. eauto.
Qed.

Lemma X20_witness :
  -180 <= -4 <= 180 /\ -90 <= 0 <= 90
  /\ exists z b e n,
    generateMGRS 0 (-4) = pretty z +:+ String b "" +:+ "AA" +:+ e +:+ n
    /\ (1 <= z <= 60)%Z
    /\ (5 <= String.length e)%nat.
Proof.
  assert (H1 : -180 <= -4 <= 180) by lra.
  assert (H2 : -90 <= 0 <= 90) by lra.
  split; [exact H1 |]. split; [exact H2 |].
  destruct (X20_generateMGRS_shape 0 (-4) H1 H2)
    as (z & b & e & n & Hg & _ & Hz & Hin & _ & _ & _ & He & _).
  exists z, b, e, n. split; [exact Hg |]. split; [| exact He].
  split; [apply Hz | apply Hin; lra].
Defined.

(** ** Plastic detection *)

Lemma Math_round_bounds (x : R) : x - / 2 < Math_round x <= x + / 2.
Proof.
  unfold Math_round. destruct (base_Int_part (x + / 2)). lra.
Qed.

Lemma Math_round_half (z : Z) : Math_round (IZR z + / 2) = IZR (z + 1).
Proof.
  unfold Math_round. f_equal. symmetry. apply Int_part_spec.
  rewrite plus_IZR. lra.
Qed.

(** X21.  Whatever the satellite samples, the band count and the
    coordinates, the detection returns an integer concentration of at most
    50000 that is within 1/2 of the sum of the micro- and macroplastic
    densities, itself at most 50000; an integer confidence, the rounded
    percentage of the probability; and a validation status that agrees with
    the confidence: at least 85 when confirmed, between 65 and 85 when
    probable, at most 65 when suspicious, so a confidence above 75 is never
    suspicious. *)
Theorem X21_detection_invariants
    (data : list R) (bands : R) (coords : R * R) :
  let d := detectPlasticFromSatelliteImagery data bands coords in
  PlasticDetectionML.coordinates d = coords
  /\ is_int (PlasticDetectionML.concentration d)
  /\ PlasticDetectionML.concentration d <= 50000
  /\ PlasticDetectionML.microplasticDensity d
     + PlasticDetectionML.macroplasticDensity d <= 50000
  /\ Rabs (PlasticDetectionML.concentration d
           - (PlasticDetectionML.microplasticDensity d
              + PlasticDetectionML.macroplasticDensity d)) <= / 2
  /\ is_int (PlasticDetectionML.confidence d)
  /\ PlasticDetectionML.confidence d
     = Math_round (plasticProbability data coords * 100)
  /\ (PlasticDetectionML.validationStatus d = confirmed ->
      85 <= PlasticDetectionML.confidence d)
  /\ (PlasticDetectionML.validationStatus d = probable ->
      65 <= PlasticDetectionML.confidence d <= 85)
  /\ (PlasticDetectionML.validationStatus d = suspicious ->
      PlasticDetectionML.confidence d <= 65)
  /\ (75 < PlasticDetectionML.confidence d ->
      PlasticDetectionML.validationStatus d <> suspicious).
Proof.
  cbn zeta. unfold detectPlasticFromSatelliteImagery. cbn zeta.
  cbn [PlasticDetectionML.coordinates PlasticDetectionML.concentration
       PlasticDetectionML.confidence PlasticDetectionML.microplasticDensity
       PlasticDetectionML.macroplasticDensity
       PlasticDetectionML.validationStatus].
  change (ensemblePrediction _ _) with (plasticProbability data coords).
  set (p := plasticProbability data coords).
  set (c := calculateConcentrationFromSpectral p _).
  assert (Hc : c <= 50000) by apply Rmin_l.
  pose proof (Math_round_bounds c) as Hrc.
  pose proof (Math_round_bounds (p * 100)) as Hrp.
  assert (E85 : Math_round 85 = 85) by apply (Math_round_IZR 85).
  assert (E65 : Math_round 65 = 65) by apply (Math_round_IZR 65).
  assert (E50000 : Math_round 50000 = 50000) by apply (Math_round_IZR 50000).
  assert (Hlow : p <= 0.65 -> Math_round (p * 100) <= 65).
  { intros H. rewrite <- E65. apply Math_round_mono. lra. }
  split; [reflexivity |].
  split; [unfold Math_round; by eexists |].
  split; [rewrite <- E50000; by apply Math_round_mono |].
  split; [lra |].
  split; [apply Rabs_le; lra |].
  split; [unfold Math_round; by eexists |].
  split; [reflexivity |].
  destruct (Rlt_dec 0.85 p) as [H85 | H85];
    [| destruct (Rlt_dec 0.65 p) as [H65 | H65]].
  - repeat split; try discriminate.
    intros _. rewrite <- E85. apply Math_round_mono. lra.
  - repeat split; try discriminate.
    + rewrite <- E65. apply Math_round_mono. lra.
    + rewrite <- E85. apply Math_round_mono. lra.
  - repeat split; try discriminate.
    + intros _. apply Hlow. lra.
    + intros H75 _. assert (Math_round (p * 100) <= 65) by (apply Hlow; lra).
      lra.
Qed.

Lemma sin_1_lower : 0.84146 <= sin 1.
Proof.
  pose proof PI2_1 as HP.
  destruct (SIN 1) as [Hlb _]; [lra | lra |].
  unfold sin_lb, sin_approx, sin_term in Hlb. simpl in Hlb. lra.
Qed.

Lemma sin_half_upper : sin 0.5 <= 0.47943.
Proof.
  destruct (pre_sin_bound 0.5 0) as [_ Hub]; [lra | lra |].
  unfold sin_approx, sin_term in Hub. simpl in Hub. lra.
Qed.

Lemma num_or_nonzero (x y : R) : x <> 0 -> num_or x y = x.
Proof. intros Hx. unfold num_or. by destruct (Req_dec_T x 0). Qed.

Lemma num_or_zero (y : R) : num_or 0 y = y.
Proof. unfold num_or. by destruct (Req_dec_T 0 0). Qed.

(** With no first sample, or a first sample of 0 or 0.5, every band is 0.5
    times its wavelength. *)
Lemma extractSpectralBand_default (data : list R) (band : string) (w : R) :
  data !! 0%nat = None \/ data !! 0%nat = Some 0 \/ data !! 0%nat = Some 0.5 ->
  bandIndex band = Some w -> w <> 0 ->
  extractSpectralBand data band = 0.5 * w.
Proof.
  intros Hd Hb Hw. unfold extractSpectralBand. rewrite Hb.
  rewrite (num_or_nonzero w) by assumption.
  destruct Hd as [-> | [-> | ->]]; [reflexivity | by rewrite num_or_zero |].
  rewrite num_or_nonzero by lra. reflexivity.
Qed.

Lemma plasticProbability_default (data : list R) (coords : R * R) :
  data !! 0%nat = None \/ data !! 0%nat = Some 0 \/ data !! 0%nat = Some 0.5 ->
  0.755 <= plasticProbability data coords.
Proof.
  intros Hd. unfold plasticProbability. cbn zeta.
  rewrite (extractSpectralBand_default data "NIR" 0.8 Hd eq_refl) by lra.
  rewrite (extractSpectralBand_default data "SWIR" 1.6 Hd eq_refl) by lra.
  rewrite (extractSpectralBand_default data "RED" 0.65 Hd eq_refl) by lra.
  rewrite (extractSpectralBand_default data "GREEN" 0.55 Hd eq_refl) by lra.
  rewrite (extractSpectralBand_default data "BLUE" 0.45 Hd eq_refl) by lra.
  unfold calculateNDPI, calculateFDI, calculateRPI.
  set (ndpi := (0.5 * 0.8 - 0.5 * 0.65) / (0.5 * 0.8 + 0.5 * 0.65 + 0.0001)).
  set (fdi := 0.5 * 0.8 - (0.5 * 0.65 + 0.5 * 1.6 * 0.5)).
  set (rpi := (0.5 * 0.65 + 0.5 * 0.55) / (0.5 * 0.45 + 0.0001)).
  change (extractCNNFeatures [ndpi; fdi; rpi])
    with [ndpi * (1 + sin (INR 0 * 0.5)); fdi * (1 + sin (INR 1 * 0.5));
          rpi * (1 + sin (INR 2 * 0.5))].
  replace (INR 0 * 0.5) with 0 by (cbn [INR]; lra).
  replace (INR 1 * 0.5) with 0.5 by (cbn [INR]; lra).
  replace (INR 2 * 0.5) with 1 by (cbn [INR]; lra).
  rewrite sin_0.
  set (f0 := ndpi * (1 + 0)). set (f1 := fdi * (1 + sin 0.5)).
  set (f2 := rpi * (1 + sin 1)).
  unfold ensemblePrediction, applySpatialAttention. cbn zeta.
  cbn [foldl length nth].
  replace (INR 3) with 3 by (cbn [INR]; lra).
  set (sw := Rabs _).
  assert (Hsw : 0 <= sw) by apply Rabs_pos.
  pose proof sin_1_lower as Hs1. pose proof sin_half_upper as Hs5.
  assert (Hn : 0.1034 <= ndpi) by (subst ndpi; lra).
  assert (Hf : fdi = -0.325) by (subst fdi; lra).
  assert (Hr : 2.6654 <= rpi) by (subst rpi; lra).
  assert (H0 : 0.1034 <= f0) by (subst f0; lra).
  assert (H1 : -0.480815 <= f1) by (subst f1; rewrite Hf; lra).
  assert (H2 : 4.9082 <= f2) by (subst f2; nra).
  pose proof (Rmax_l 0 (Rmin 1 ((f0 + f1) * 0.5))) as Ht.
  assert (HS : 4.53 <= 0 + f0 + f1 + f2) by lra.
  assert (Hatt : 0 <= (0 + f0 * sw + f1 * sw + f2 * sw) / 3).
  { replace ((0 + f0 * sw + f1 * sw + f2 * sw) / 3)
      with (sw * ((0 + f0 + f1 + f2) / 3)) by lra.
    apply Rmult_le_pos; lra. }
  lra.
Qed.

(** X22.  A data point without a first sample, or with a first sample of 0
    (which [||] replaces by 0.5), is always a detection: whatever the
    coordinates and the band count, the probability is at least 0.755, the
    confidence at least 76, the status probable or confirmed, and the
    concentration at least 18875. *)
Theorem X22_missing_sample_is_a_detection
    (data : list R) (bands : R) (coords : R * R) :
  data !! 0%nat = None \/ data !! 0%nat = Some 0 \/ data !! 0%nat = Some 0.5 ->
  let d := detectPlasticFromSatelliteImagery data bands coords in
  0.755 <= plasticProbability data coords
  /\ 76 <= PlasticDetectionML.confidence d
  /\ PlasticDetectionML.validationStatus d <> suspicious
  /\ 18875 <= PlasticDetectionML.concentration d.
Proof.
  intros Hd. cbn zeta.
  pose proof (plasticProbability_default data coords Hd) as Hp.
  unfold detectPlasticFromSatelliteImagery. cbn zeta.
  cbn [PlasticDetectionML.concentration PlasticDetectionML.confidence
       PlasticDetectionML.validationStatus].
  change (ensemblePrediction _ _) with (plasticProbability data coords).
  set (p := plasticProbability data coords) in *.
  split; [exact Hp |]. split; [| split].
  - replace 76 with (Math_round (IZR 75 + / 2))
      by (rewrite Math_round_half; reflexivity).
    apply Math_round_mono. lra.
  - destruct (Rlt_dec 0.85 p); [discriminate |].
    destruct (Rlt_dec 0.65 p); [discriminate | lra].
  - rewrite <- (Math_round_IZR 18875). apply Math_round_mono.
    unfold calculateConcentrationFromSpectral. cbn zeta.
    apply Rmin_glb; [lra |].
    set (boost := foldl _ 0 _).
    assert (0 <= boost).
    { subst boost. generalize (extractCNNFeatures
        [calculateNDPI (extractSpectralBand data "NIR")
           (extractSpectralBand data "RED");
         calculateFDI (extractSpectralBand data "NIR")
           (extractSpectralBand data "RED") (extractSpectralBand data "SWIR");
         calculateRPI (extractSpectralBand data "RED")
           (extractSpectralBand data "GREEN")
           (extractSpectralBand data "BLUE")]).
      intros l. assert (forall a, 0 <= a ->
                  0 <= foldl (fun sum f => sum + Rabs f) a l); [| auto with real].
      induction l as [|x l IH]; intros a Ha; cbn [foldl]; [done |].
      apply IH. pose proof (Rabs_pos x). lra. }
    lra.
Qed.

Lemma X22_witness :
  0.755 <= plasticProbability [] (35.2, -145.0)
  /\ 76 <= PlasticDetectionML.confidence
             (detectPlasticFromSatelliteImagery [] 13 (35.2, -145.0)).
Proof.
  destruct (X22_missing_sample_is_a_detection [] 13 (35.2, -145.0)
              (or_introl eq_refl)) as (Hp & Hc & _).
  split; [exact Hp | exact Hc].
Defined.

(** * The advanced hotspot generator *)

Lemma detection_bounds data bands coords :
  let d := detectPlasticFromSatelliteImagery data bands coords in
  PlasticDetectionML.concentration d <= 50000
  /\ (75 < PlasticDetectionML.confidence d ->
      PlasticDetectionML.validationStatus d <> suspicious).
Proof.
  cbn zeta. unfold detectPlasticFromSatelliteImagery. cbn zeta.
  cbn [PlasticDetectionML.concentration PlasticDetectionML.confidence
       PlasticDetectionML.validationStatus].
  set (p := ensemblePrediction _ _).
  set (c := calculateConcentrationFromSpectral p _).
  assert (Hc : c <= 50000) by apply Rmin_l.
  assert (E65 : Math_round 65 = 65) by apply (Math_round_IZR 65).
  assert (E50000 : Math_round 50000 = 50000) by apply (Math_round_IZR 50000).
  split; [rewrite <- E50000; by apply Math_round_mono |].
  intros H75.
  destruct (Rlt_dec 0.85 p); [discriminate |].
  destruct (Rlt_dec 0.65 p); [discriminate |].
  exfalso. assert (Math_round (p * 100) <= Math_round 65)
    by (apply Math_round_mono; lra).
  lra.
Qed.

Lemma toFixed8_bound (x : R) (b : Z) :
  Rabs x <= IZR b -> Rabs (toFixed8 x) <= IZR b.
Proof.
  intros Hx.
  assert (Eb : Math_round (IZR b * 100000000) = IZR b * 100000000).
  { rewrite <- mult_IZR. apply Math_round_IZR. }
  assert (E0 : Math_round 0 = 0) by apply (Math_round_IZR 0).
  unfold toFixed8. destruct (Rlt_dec x 0) as [Hneg | Hpos].
  - rewrite Rabs_left in Hx by lra.
    pose proof (Math_round_mono 0 (- x * 100000000)) as H1.
    pose proof (Math_round_mono (- x * 100000000) (IZR b * 100000000)) as H2.
    apply Rabs_le. lra.
  - rewrite Rabs_right in Hx by lra.
    pose proof (Math_round_mono 0 (x * 100000000)) as H1.
    pose proof (Math_round_mono (x * 100000000) (IZR b * 100000000)) as H2.
    apply Rabs_le. lra.
Qed.

Lemma fallback_advanced_ok now :
  Forall advanced_ok (generateFallbackMissionHotspots now).
Proof.
  unfold generateFallbackMissionHotspots, advanced_ok.
  apply Forall_cons_2;
    [| apply Forall_cons_2; [| apply Forall_cons_2; [| apply Forall_nil_2]]];
    cbn [PlasticHotspot.severity PlasticHotspot.concentration
         PlasticHotspot.area PlasticHotspot.lat PlasticHotspot.lng];
    (split; [by (left + right) |]);
    (split; [lra |]); (split; [lra |]); split; apply Rabs_le; lra.
Qed.

Lemma detectAt_ok rnd cid cat sat i k :
  exists o k', detectAt rnd cid cat sat i k = Ok o k'
    /\ (k <= k' <= k + 3)%nat
    /\ (forall h, o = Some h -> advanced_ok h).
Proof.
  unfold detectAt.
  destruct (Cygnss.quality_flags sat !! i) as [quality |];
    [| exists None, k; split; [reflexivity | split; [lia | discriminate]]].
  destruct (sample (Cygnss.latitude sat) i) as [lat |];
    [| exists None, k; split; [reflexivity | split; [lia | discriminate]]].
  destruct (sample (Cygnss.longitude sat) i) as [lng |];
    [| exists None, k; split; [reflexivity | split; [lia | discriminate]]].
  destruct (negb _);
    [exists None, k; split; [reflexivity | split; [lia | discriminate]] |].
  destruct (Rlt_dec 90 (Rabs lat)) as [Hlat | Hlat];
    [exists None, k; split; [reflexivity | split; [lia | discriminate]] |].
  destruct (Rlt_dec 180 (Rabs lng)) as [Hlng | Hlng];
    [exists None, k; split; [reflexivity | split; [lia | discriminate]] |].
  cbn zeta. unfold bind, Math_random. cbn beta iota.
  set (d := detectPlasticFromSatelliteImagery _ _ _).
  destruct (detection_bounds
              [match sample (Cygnss.ddm_snr sat) i with
               | Some x => num_or x 0 | None => 0 end;
               match sample (Cygnss.ddm_les sat) i with
               | Some x => num_or x 0 | None => 0 end;
               rnd k; rnd (S k)] 13 (lat, lng)) as [Hc Hs].
  fold d in Hc, Hs. clearbody d.
  destruct (Rlt_dec 75 (PlasticDetectionML.confidence d)) as [H75 | H75];
    [| exists None, (S (S k)); split; [reflexivity | split; [lia | discriminate]]].
  eexists _, _. split; [reflexivity |]. split; [lia |].
  intros h [= <-]. unfold advanced_ok.
  cbn [PlasticHotspot.severity PlasticHotspot.concentration
       PlasticHotspot.area PlasticHotspot.lat PlasticHotspot.lng].
  specialize (Hs H75).
  split.
  { destruct (PlasticDetectionML.validationStatus d);
      [by left | by right | by destruct Hs]. }
  split; [split; [apply Rmax_l | apply Rmax_lub; lra] |].
  split; [apply Rmax_l |].
  split; [apply (toFixed8_bound lat 90) | apply (toFixed8_bound lng 180)]; lra.
Qed.

Lemma scan_ok rnd cid cat sat dl fuel j acc k :
  (dl <= 100)%nat -> (j <= 10)%nat -> Forall advanced_ok acc ->
  exists hs k',
    scan rnd cid cat sat dl fuel (10 * j) acc k = Ok hs k'
    /\ (k <= k' <= k + 3 * (10 - j))%nat
    /\ Forall advanced_ok hs
    /\ (length acc <= length hs <= length acc + (10 - j))%nat.
Proof.
  intros Hdl. revert j acc k.
  induction fuel as [| fuel IH]; intros j acc k Hj Hacc.
  - exists acc, k. cbn [scan]. split; [reflexivity |].
    split; [lia |]. split; [assumption | lia].
  - cbn [scan]. destruct (10 * j <? dl)%nat eqn:E.
    + apply Nat.ltb_lt in E. unfold bind.
      destruct (detectAt_ok rnd cid cat sat (10 * j)%nat k)
        as (o & k1 & -> & Hk1 & Ho).
      replace (10 * j + 10)%nat with (10 * S j)%nat by lia.
      set (acc' := match o with Some h => acc ++ [h] | None => acc end).
      assert (Hacc' : Forall advanced_ok acc').
      { subst acc'. destruct o as [h |]; [| assumption].
        apply Forall_app. split; [assumption |].
        apply Forall_singleton. by apply Ho. }
      assert (Hlen : (length acc <= length acc' <= length acc + 1)%nat).
      { subst acc'. destruct o; [rewrite length_app; cbn |]; lia. }
      destruct (IH (S j) acc' k1 ltac:(lia) Hacc')
        as (hs & k' & -> & Hk' & Hhs & Hl).
      exists hs, k'. split; [reflexivity |].
      split; [lia |]. split; [assumption | lia].
    + exists acc, k. split; [reflexivity |].
      split; [lia |]. split; [assumption | lia].
Qed.

(** The loop ends on its own: fuel beyond [dataLength - i] is not used. *)
Lemma scan_fuel rnd cid cat sat dl fuel fuel' i acc k :
  (dl - i <= fuel)%nat -> (dl - i <= fuel')%nat ->
  scan rnd cid cat sat dl fuel i acc k = scan rnd cid cat sat dl fuel' i acc k.
Proof.
  revert fuel' i acc k.
  induction fuel as [| fuel IH]; intros fuel' i acc k H1 H2.
  - destruct fuel' as [| fuel']; [reflexivity |]. cbn [scan].
    assert (E : (i <? dl)%nat = false) by (apply Nat.ltb_ge; lia).
    by rewrite E.
  - cbn [scan]. destruct (i <? dl)%nat eqn:E.
    + destruct fuel' as [| fuel']; [apply Nat.ltb_lt in E; lia |].
      cbn [scan]. rewrite E. apply Nat.ltb_lt in E.
      unfold bind. destruct (detectAt rnd cid cat sat i k); [| reflexivity].
      apply IH; lia.
    + destruct fuel' as [| fuel']; [reflexivity |]. cbn [scan]. by rewrite E.
Qed.

(** X23.  [generateAdvancedNASAHotspots] never throws and always hands out
    between 3 and 10 hotspots, after at most 30 calls of [Math.random()],
    whatever the satellite service returned: NaN or out-of-range entries,
    arrays of different lengths, a rejected request.  Every hotspot is of
    severity critical or high (the medium branch of the severity
    expression is never taken, a confidence above 75 excluding the status
    suspicious), has a concentration between 1000 and 50000, an area of at
    least 150 and a position within 90 and 180 degrees.  When the request
    is rejected the result is the fallback list and no random number is
    drawn; the loop stops by its own condition, whatever bound at least
    [dataLength] is put on its iterations. *)
Theorem X23_advanced_hotspots
    (rnd : nat -> R) (clock_id clock_at : nat -> Date)
    (fetched : option Cygnss.t) (now : Date) (k : nat) :
  exists hs k',
    generateAdvancedNASAHotspots rnd clock_id clock_at fetched now k = Ok hs k'
    /\ (3 <= length hs <= 10)%nat
    /\ (k <= k' <= k + 30)%nat
    /\ Forall advanced_ok hs
    /\ (fetched = None -> hs = generateFallbackMissionHotspots now /\ k' = k)
    /\ (forall sat fuel,
          fetched = Some sat ->
          (Nat.min (length (Cygnss.latitude sat)) 100 <= fuel)%nat ->
          scan rnd clock_id clock_at sat
            (Nat.min (length (Cygnss.latitude sat)) 100) fuel 0 [] k
          = scan rnd clock_id clock_at sat
              (Nat.min (length (Cygnss.latitude sat)) 100)
              (Nat.min (length (Cygnss.latitude sat)) 100) 0 [] k).
Proof.
  destruct fetched as [sat |]; cbn [generateAdvancedNASAHotspots].
  - set (dl := Nat.min (length (Cygnss.latitude sat)) 100).
    destruct (scan_ok rnd clock_id clock_at sat dl dl 0 [] k)
      as (hs & k' & Hs & Hk & Hok & Hlen);
      [subst dl; lia | lia | constructor |].
    change (10 * 0)%nat with 0%nat in Hs. cbn [length] in Hlen.
    pose proof (fallback_advanced_ok now) as Hfb.
    unfold bind. rewrite Hs.
    eexists _, k'. split; [reflexivity |].
    split; [| split; [lia | split; [| split]]].
    + destruct (length hs <? 3)%nat eqn:E.
      * apply Nat.ltb_lt in E. rewrite length_app.
        change (length (generateFallbackMissionHotspots now)) with 3%nat. lia.
      * apply Nat.ltb_ge in E. lia.
    + destruct (length hs <? 3)%nat; [| assumption].
      apply Forall_app. by split.
    + discriminate.
    + intros sat' fuel [= <-] Hfuel. fold dl in Hfuel |- *.
      apply scan_fuel; lia.
  - exists (generateFallbackMissionHotspots now), k.
    split; [reflexivity |]. split; [cbn; lia |]. split; [lia |].
    split; [apply fallback_advanced_ok |]. split; [done | discriminate].
Qed.

Lemma detection_of_default_sample (data : list R) (bands : R) (coords : R * R) :
  data !! 0%nat = None \/ data !! 0%nat = Some 0 \/ data !! 0%nat = Some 0.5 ->
  76 <= PlasticDetectionML.confidence
          (detectPlasticFromSatelliteImagery data bands coords).
Proof.
  intros Hd.
  pose proof (plasticProbability_default data coords Hd) as Hp.
  unfold detectPlasticFromSatelliteImagery. cbn zeta.
  cbn [PlasticDetectionML.confidence].
  change (ensemblePrediction _ _) with (plasticProbability data coords).
  replace 76 with (Math_round (IZR 75 + / 2))
    by (rewrite Math_round_half; reflexivity).
  apply Math_round_mono. lra.
Qed.

(** X24.  A data point that passes the quality filter (flag 0, latitude and
    longitude numbers within 90 and 180 degrees) and whose signal-to-noise
    sample is NaN, missing, 0 or 0.5 is always pushed as a hotspot: the
    sample is replaced by 0 and then by 0.5, which the detection rates at 76
    percent or more, whatever the other samples and the two random numbers
    handed to the detection are.  The hotspot sits at the position rounded
    to 8 decimals and three random numbers are drawn. *)
Theorem X24_blank_signal_is_a_hotspot
    (rnd : nat -> R) (clock_id clock_at : nat -> Date) (sat : Cygnss.t)
    (i k : nat) (lat lng : R) :
  Cygnss.quality_flags sat !! i = Some 0%Z ->
  sample (Cygnss.latitude sat) i = Some lat -> Rabs lat <= 90 ->
  sample (Cygnss.longitude sat) i = Some lng -> Rabs lng <= 180 ->
  sample (Cygnss.ddm_snr sat) i = None
  \/ sample (Cygnss.ddm_snr sat) i = Some 0
  \/ sample (Cygnss.ddm_snr sat) i = Some 0.5 ->
  exists h,
    detectAt rnd clock_id clock_at sat i k = Ok (Some h) (k + 3)%nat
    /\ PlasticHotspot.lat h = toFixed8 lat
    /\ PlasticHotspot.lng h = toFixed8 lng
    /\ PlasticHotspot.severity h <> medium
    /\ PlasticHotspot.id h
       = "NASA-CYGNSS-" +:+ pretty (clock_id i) +:+ "-" +:+ pretty i.
Proof.
  intros Hq Hlat Hlat90 Hlng Hlng180 Hsnr.
  destruct (detectAt_ok rnd clock_id clock_at sat i k)
    as (o & k' & Hd & _ & Hok).
  revert Hd. unfold detectAt. rewrite Hq, Hlat, Hlng. cbn [negb bool_decide].
  rewrite bool_decide_eq_true_2 by reflexivity. cbn [negb].
  destruct (Rlt_dec 90 (Rabs lat)); [lra |].
  destruct (Rlt_dec 180 (Rabs lng)); [lra |].
  cbn zeta. unfold bind, Math_random. cbn beta iota.
  set (data := [_; _; rnd k; rnd (S k)]).
  assert (H0 : data !! 0%nat = None \/ data !! 0%nat = Some 0
               \/ data !! 0%nat = Some 0.5).
  { subst data. cbn [lookup list_lookup].
    destruct Hsnr as [-> | [-> | ->]].
    - right. by left.
    - right. left. by rewrite num_or_zero.
    - right. right. rewrite num_or_nonzero by lra. reflexivity. }
  pose proof (detection_of_default_sample data 13 (lat, lng) H0) as H76.
  set (d := detectPlasticFromSatelliteImagery data 13 (lat, lng)) in *.
  clearbody d.
  destruct (Rlt_dec 75 (PlasticDetectionML.confidence d)); [| lra].
  unfold ret. intros Hd. injection Hd as <- <-.
  eexists. split; [f_equal; lia |].
  split; [reflexivity |]. split; [reflexivity |]. split; [| reflexivity].
  destruct (Hok _ eq_refl) as ([Hs | Hs] & _);
    cbn [PlasticHotspot.severity] in Hs |- *; rewrite Hs; discriminate.
Qed.

Lemma X24_witness :
  exists h,
    detectAt (fun _ => 0.5) (fun _ => 1000%Z) (fun _ => 1000%Z)
      (Cygnss.mk [Some 37.5] [Some (-145)] [None] [] [0%Z]) 0%nat 0%nat
    = Ok (Some h) 3%nat
    /\ PlasticHotspot.lat h = toFixed8 37.5.
Proof.
  destruct (X24_blank_signal_is_a_hotspot (fun _ => 0.5) (fun _ => 1000%Z)
              (fun _ => 1000%Z)
              (Cygnss.mk [Some 37.5] [Some (-145)] [None] [] [0%Z])
              0%nat 0%nat 37.5 (-145) eq_refl eq_refl
              ltac:(apply Rabs_le; lra) eq_refl
              ltac:(apply Rabs_le; lra) (or_introl eq_refl))
    as (h & Hd & Hl & _).
  exists h. split; [exact Hd | exact Hl].
Defined.
